(** * Test execution and validation of modernized code

  A shallow embedding of the package [src/sandbox] of the modernizer:
  the three language runners ([runners/python_runner.py],
  [runners/java_runner.py], [runners/javascript_runner.py]), the remote
  executor ([modal_executor.py]) and the validator facade
  ([validator.py]).

  Python values are modelled as follows.
  - [str] is [string]; characters are bytes, so the Unicode classes of
    the [re] module are restricted to their ASCII members.
  - [int] is [Z]; [float] is [Q] (no rounding error is modelled).
  - a result [dict] is an association list in insertion order.
  - the operating system (temporary directories, files, child
    processes, the clock) and the Modal SDK are an interface [Env]
    over an abstract world; every operation may raise.
  - calls to [logger] have no effect on results and are left out. *)

From Stdlib Require Import String Ascii List ZArith QArith Qround Bool Lia Lqa.
From Stdlib Require Import DecimalString.
Import ListNotations.
Local Open Scope string_scope.
Local Open Scope Z_scope.

(** ** Python string operations *)

Module PyStr.

Definition nl : string := String "010"%char EmptyString.
Definition dquote : string := String "034"%char EmptyString.

(** [s.startswith(p)] *)
Fixpoint startswith (p s : string) : bool :=
  match p, s with
  | EmptyString, _ => true
  | String a p', String b s' => Ascii.eqb a b && startswith p' s'
  | String _ _, EmptyString => false
  end.

(** [sub in s] *)
Fixpoint contains (sub s : string) : bool :=
  startswith sub s ||
  match s with
  | EmptyString => false
  | String _ s' => contains sub s'
  end.

(** [s.count(sub)] for a non-empty [sub]: occurrences that do not
    overlap, scanning from the left. [skip] is the number of characters
    still covered by the occurrence found last. *)
Fixpoint count_from (sub s : string) (skip : nat) : Z :=
  match s with
  | EmptyString => 0
  | String _ s' =>
      match skip with
      | S k => count_from sub s' k
      | O => if startswith sub s
             then 1 + count_from sub s' (String.length sub - 1)
             else count_from sub s' 0
      end
  end.

Definition count (sub s : string) : Z := count_from sub s 0.

(** [s[:n]] *)
Fixpoint take (n : nat) (s : string) : string :=
  match n, s with
  | S k, String a s' => String a (take k s')
  | _, _ => EmptyString
  end.

Definition slice_to (n : Z) (s : string) : string := take (Z.to_nat n) s.

Fixpoint drop (n : nat) (s : string) : string :=
  match n, s with
  | S k, String _ s' => drop k s'
  | _, _ => s
  end.

Definition is_space (c : ascii) : bool :=
  let n := nat_of_ascii c in
  (Nat.eqb n 32 || (Nat.leb 9 n && Nat.leb n 13)
   || (Nat.leb 28 n && Nat.leb n 31))%bool.

Definition is_digit (c : ascii) : bool :=
  let n := nat_of_ascii c in (Nat.leb 48 n && Nat.leb n 57)%bool.

Definition is_upper (c : ascii) : bool :=
  let n := nat_of_ascii c in (Nat.leb 65 n && Nat.leb n 90)%bool.

Definition is_lower (c : ascii) : bool :=
  let n := nat_of_ascii c in (Nat.leb 97 n && Nat.leb n 122)%bool.

Definition is_alpha (c : ascii) : bool := (is_upper c || is_lower c)%bool.

(** [\w] of the [re] module *)
Definition is_word (c : ascii) : bool :=
  (is_alpha c || is_digit c || Ascii.eqb c "_")%bool.

Definition to_lower (c : ascii) : ascii :=
  if is_upper c then ascii_of_nat (nat_of_ascii c + 32) else c.

Definition to_upper (c : ascii) : ascii :=
  if is_lower c then ascii_of_nat (nat_of_ascii c - 32) else c.

(** [s.lower()] *)
Fixpoint lower (s : string) : string :=
  match s with
  | EmptyString => EmptyString
  | String a s' => String (to_lower a) (lower s')
  end.

(** [s.capitalize()] *)
Definition capitalize (s : string) : string :=
  match s with
  | EmptyString => EmptyString
  | String a s' => String (to_upper a) (lower s')
  end.

(** [s.title()]: a letter that follows a letter is lowered, any other
    letter is raised. *)
Fixpoint title_from (prev_cased : bool) (s : string) : string :=
  match s with
  | EmptyString => EmptyString
  | String a s' =>
      String (if prev_cased then to_lower a else to_upper a)
             (title_from (is_alpha a) s')
  end.

Definition title (s : string) : string := title_from false s.

(** [s.split(sep)] for a one-character separator *)
Fixpoint split_on (sep : ascii) (s : string) : list string :=
  match s with
  | EmptyString => [EmptyString]
  | String a s' =>
      if Ascii.eqb a sep then EmptyString :: split_on sep s'
      else match split_on sep s' with
           | [] => [String a EmptyString]
           | w :: ws => String a w :: ws
           end
  end.

(** [s.replace(a, '')] for a one-character [a] *)
Fixpoint remove_char (c : ascii) (s : string) : string :=
  match s with
  | EmptyString => EmptyString
  | String a s' =>
      if Ascii.eqb a c then remove_char c s' else String a (remove_char c s')
  end.

(** [s.replace(a, b)] for one-character [a] and [b] *)
Fixpoint replace_char (c d : ascii) (s : string) : string :=
  match s with
  | EmptyString => EmptyString
  | String a s' =>
      String (if Ascii.eqb a c then d else a) (replace_char c d s')
  end.

Fixpoint lstrip (s : string) : string :=
  match s with
  | String a s' => if is_space a then lstrip s' else s
  | EmptyString => EmptyString
  end.

Fixpoint rstrip (s : string) : string :=
  match s with
  | EmptyString => EmptyString
  | String a s' =>
      match rstrip s' with
      | EmptyString => if is_space a then EmptyString else String a EmptyString
      | r => String a r
      end
  end.

(** [s.strip()] *)
Definition strip (s : string) : string := rstrip (lstrip s).

(** [s.split()]: the maximal runs of characters that are not white
    space. [cur] is the run being read, reversed. *)
Fixpoint rev_string (acc s : string) : string :=
  match s with
  | EmptyString => acc
  | String a s' => rev_string (String a acc) s'
  end.

Fixpoint words_from (cur : string) (s : string) : list string :=
  match s with
  | EmptyString =>
      match cur with
      | EmptyString => []
      | _ => [rev_string EmptyString cur]
      end
  | String a s' =>
      if is_space a then
        match cur with
        | EmptyString => words_from EmptyString s'
        | _ => rev_string EmptyString cur :: words_from EmptyString s'
        end
      else words_from (String a cur) s'
  end.

Definition words (s : string) : list string := words_from EmptyString s.

(** [', '.join(l)] *)
Fixpoint join (sep : string) (l : list string) : string :=
  match l with
  | [] => EmptyString
  | [x] => x
  | x :: rest => x ++ sep ++ join sep rest
  end.

(** [int(s)] on a string of decimal digits.  CPython's [int] raises
    ValueError on more than 4300 digits; the statements that read a
    number off a record bound the length of the numeral by 4300, where
    the two agree. *)
Fixpoint int_digits (acc : Z) (s : string) : Z :=
  match s with
  | EmptyString => acc
  | String a s' => int_digits (10 * acc + Z.of_nat (nat_of_ascii a - 48)) s'
  end.

Definition int_of (s : string) : Z := int_digits 0 s.

Fixpoint all_digits (s : string) : bool :=
  match s with
  | EmptyString => true
  | String a s' => is_digit a && all_digits s'
  end.

(** [float(s)] on the strings the coverage patterns capture: digits
    with at most one point, at least one digit. Anything else is a
    [ValueError], here [None]. *)
Fixpoint frac_digits (num den : Z) (s : string) : option (Z * Z) :=
  match s with
  | EmptyString => Some (num, den)
  | String a s' =>
      if is_digit a
      then frac_digits (10 * num + Z.of_nat (nat_of_ascii a - 48)) (10 * den) s'
      else None
  end.

Fixpoint float_from (seen : bool) (acc : Z) (s : string) : option Q :=
  match s with
  | EmptyString => if seen then Some (inject_Z acc) else None
  | String a s' =>
      if is_digit a
      then float_from true (10 * acc + Z.of_nat (nat_of_ascii a - 48)) s'
      else if Ascii.eqb a "."
      then match s' with
           | EmptyString => if seen then Some (inject_Z acc) else None
           | _ => match frac_digits acc 1 s' with
                  | Some (n, d) => Some (Qred (Qmake n (Z.to_pos d)))
                  | None => None
                  end
           end
      else None
  end.

Definition float_of (s : string) : option Q := float_from false 0 s.

(** [str(n)] for a natural number *)
Definition of_nat (n : nat) : string := NilEmpty.string_of_uint (Nat.to_uint n).

(** [Path(p).name]: the last component of a POSIX path, where empty
    components and [.] do not count. *)
Definition path_name (p : string) : string :=
  last (filter (fun c => negb (String.eqb c EmptyString) && negb (String.eqb c "."))
          (split_on "/" p)) EmptyString.

(** The position of the last point of [name] when it is neither the
    first nor the last character: [name.rfind('.')] under the test
    [0 < i < len(name) - 1] of [pathlib]. [split_ext] returns the text
    before that point and the text from it on. *)
Fixpoint rfind_point (s : string) : option nat :=
  match s with
  | EmptyString => None
  | String a s' =>
      match rfind_point s' with
      | Some i => Some (S i)
      | None => if Ascii.eqb a "." then Some O else None
      end
  end.

Definition split_ext (name : string) : string * string :=
  match rfind_point name with
  | Some i =>
      if Nat.ltb 0 i && Nat.ltb i (String.length name - 1)
      then (take i name, drop i name)
      else (name, EmptyString)
  | None => (name, EmptyString)
  end.

(** [Path(p).suffix] and [Path(p).stem] *)
Definition suffix (p : string) : string := snd (split_ext (path_name p)).
Definition stem (p : string) : string := fst (split_ext (path_name p)).

End PyStr.

(** ** The fragment of Python's [re] the runners use

  A backtracking matcher in continuation-passing style: alternatives
  are tried in the order [re] tries them (a greedy repetition tries one
  more iteration first, a lazy one tries to stop first), and [search]
  returns the match at the leftmost starting position. *)

#[global] Arguments PyStr.slice_to : simpl never.

Module Re.

Inductive regex : Type :=
| Eps
| Chr (c : ascii)
| Cls (p : ascii -> bool)
| Seq (r1 r2 : regex)
| Star (greedy : bool) (r : regex)
| Group (i : nat) (r : regex).

Definition Plus (greedy : bool) (r : regex) : regex := Seq r (Star greedy r).

Fixpoint Lit (s : string) : regex :=
  match s with
  | EmptyString => Eps
  | String a s' => Seq (Chr a) (Lit s')
  end.

(** [\d], [\s], [\w], [.] and [[\d.]] *)
Definition digit : regex := Cls PyStr.is_digit.
Definition space : regex := Cls PyStr.is_space.
Definition word : regex := Cls PyStr.is_word.
Definition dot : regex := Cls (fun c => negb (Ascii.eqb c "010")).
Definition digit_or_point : regex :=
  Cls (fun c => PyStr.is_digit c || Ascii.eqb c ".").

(** Captured groups, the most recent binding of a group first. *)
Definition caps : Type := list (nat * string).

Fixpoint group (cs : caps) (i : nat) : option string :=
  match cs with
  | [] => None
  | (j, s) :: rest => if Nat.eqb i j then Some s else group rest i
  end.

(** The text between the position where [s] starts and the position
    where its suffix [s'] starts. *)
Definition consumed (s s' : string) : string :=
  PyStr.take (String.length s - String.length s') s.

(** A repetition: try the body once more (it must consume a
    character, as every repeated body of the runners does) and go on,
    or leave to the continuation; a greedy repetition prefers the
    former. [fuel] bounds the iterations by the length of the text. *)
Fixpoint star_loop {R : Type}
    (body : string -> caps -> (string -> caps -> option R) -> option R)
    (greedy : bool) (k : string -> caps -> option R)
    (fuel : nat) (s : string) (cs : caps) {struct fuel} : option R :=
  match fuel with
  | O => k s cs
  | S fuel' =>
      let more :=
        body s cs
          (fun s' cs' =>
             if Nat.ltb (String.length s') (String.length s)
             then star_loop body greedy k fuel' s' cs' else None) in
      if greedy
      then match more with
           | Some x => Some x
           | None => k s cs
           end
      else match k s cs with
           | Some x => Some x
           | None => more
           end
  end.

Fixpoint rmatch {R : Type} (r : regex) (s : string) (cs : caps)
    (k : string -> caps -> option R) {struct r} : option R :=
  match r with
  | Eps => k s cs
  | Chr c =>
      match s with
      | String a s' => if Ascii.eqb a c then k s' cs else None
      | EmptyString => None
      end
  | Cls p =>
      match s with
      | String a s' => if p a then k s' cs else None
      | EmptyString => None
      end
  | Seq r1 r2 => rmatch r1 s cs (fun s' cs' => rmatch r2 s' cs' k)
  | Group i r1 =>
      rmatch r1 s cs (fun s' cs' => k s' ((i, consumed s s') :: cs'))
  | Star greedy r1 =>
      star_loop (fun s' cs' k' => rmatch r1 s' cs' k') greedy k (String.length s) s cs
  end.

(** Concatenation of the parts of a pattern. *)
Fixpoint cat (l : list regex) : regex :=
  match l with
  | [] => Eps
  | [r] => r
  | r :: rest => Seq r (cat rest)
  end.

Definition match_here (r : regex) (s : string) : option caps :=
  rmatch r s [] (fun _ cs => Some cs).

(** [re.search(r, s)] *)
Fixpoint search (r : regex) (s : string) : option caps :=
  match match_here r s with
  | Some cs => Some cs
  | None =>
      match s with
      | EmptyString => None
      | String _ s' => search r s'
      end
  end.

(** Every character of [s] is in the class [p]. *)
Fixpoint all_in (p : ascii -> bool) (s : string) : bool :=
  match s with
  | EmptyString => true
  | String a s' => p a && all_in p s'
  end.

(** [s] is empty or starts outside the class [p]. *)
Definition stops (p : ascii -> bool) (s : string) : bool :=
  match s with
  | EmptyString => true
  | String a _ => negb (p a)
  end.

(** [m = re.search(r, s)] followed by [m.group(1)] *)
Definition search1 (r : regex) (s : string) : option string :=
  match search r s with
  | Some cs => group cs 1
  | None => None
  end.

End Re.

(** ** Python values, result dictionaries and exceptions *)

Module Py.

Inductive value : Type :=
| VNone
| VBool (b : bool)
| VInt (n : Z)
| VFloat (q : Q)
| VStr (s : string).

(** A [dict] with string keys, in insertion order. *)
Definition dict : Type := list (string * value).

(** [d.get(k)] *)
Fixpoint get (d : dict) (k : string) : option value :=
  match d with
  | [] => None
  | (k', v) :: rest => if String.eqb k k' then Some v else get rest k
  end.

(** [d[k] = v]: an existing key keeps its place. *)
Fixpoint set (d : dict) (k : string) (v : value) : dict :=
  match d with
  | [] => [(k, v)]
  | (k', v') :: rest =>
      if String.eqb k k' then (k', v) :: rest else (k', v') :: set rest k v
  end.

(** [k in d] *)
Definition has (d : dict) (k : string) : bool :=
  match get d k with Some _ => true | None => false end.

(** Truth value of a Python object. *)
Definition truthy (v : value) : bool :=
  match v with
  | VNone => false
  | VBool b => b
  | VInt n => negb (Z.eqb n 0)
  | VFloat q => negb (Qeq_bool q 0)
  | VStr s => negb (String.eqb s EmptyString)
  end.

(** The exceptions the package distinguishes. [Other] stands for
    every further subclass of [Exception] ([OSError], [ValueError],
    the errors of the Modal SDK, ...). Each carries [str(e)]. *)
Inductive exn : Type :=
| TimeoutExpired (msg : string)
| FileNotFoundError (msg : string)
| KeyError (key : string)
| Other (msg : string).

Definition exn_str (e : exn) : string :=
  match e with
  | TimeoutExpired m => m
  | FileNotFoundError m => m
  | KeyError k => "'" ++ k ++ "'"
  | Other m => m
  end.

Inductive outcome (A : Type) : Type :=
| Ok (a : A)
| Raise (e : exn).
Arguments Ok {A} a.
Arguments Raise {A} e.

Definition is_ok {A : Type} (o : outcome A) : bool :=
  match o with Ok _ => true | Raise _ => false end.

(** [round(x, n)] on an exact rational, ties to even.  Python rounds the
    double nearest to the value, and the two differ only where
    that double falls on the other side of a tie of the exact value. *)
Definition round_half_even (q : Q) : Z :=
  let f := Qfloor q in
  let r := (q - inject_Z f)%Q in
  match Qcompare r (1 # 2) with
  | Lt => f
  | Gt => f + 1
  | Eq => if Z.even f then f else f + 1
  end.

Definition round_digits (q : Q) (n : nat) : Q :=
  let scale := Z.pow 10 (Z.of_nat n) in
  Qred (Qmake (round_half_even (q * inject_Z scale)%Q) (Z.to_pos scale)).

End Py.

Export Py.

(** ** Effects: state passing over an abstract world, with exceptions *)

Record CompletedProcess : Type := mkCompleted {
  returncode : Z;
  stdout : string;
  stderr : string
}.

Section Monad.

Context {W : Type}.

Definition M (A : Type) : Type := W -> outcome A * W.

Definition ret {A : Type} (a : A) : M A := fun w => (Ok a, w).

Definition raise {A : Type} (e : exn) : M A := fun w => (Raise e, w).

Definition bind {A B : Type} (c : M A) (k : A -> M B) : M B :=
  fun w =>
    match c w with
    | (Ok a, w') => k a w'
    | (Raise e, w') => (Raise e, w')
    end.

(** [try: c  except Exception as e: h e]. A handler for some classes
    only re-raises the others. *)
Definition try_except {A : Type} (c : M A) (h : exn -> M A) : M A :=
  fun w =>
    match c w with
    | (Ok a, w') => (Ok a, w')
    | (Raise e, w') => h e w'
    end.

(** [try: c  finally: f]. An exception of [f] replaces the outcome
    of [c]. *)
Definition try_finally {A : Type} (c : M A) (f : M unit) : M A :=
  fun w =>
    match c w with
    | (o, w') =>
        match f w' with
        | (Ok _, w'') => (o, w'')
        | (Raise e, w'') => (Raise e, w'')
        end
    end.

End Monad.

Declare Scope py_scope.
Delimit Scope py_scope with py.
Notation "x <- c ;; k" := (bind c (fun x => k))
  (at level 61, c at next level, right associativity) : py_scope.
Notation "c ;;; k" := (bind c (fun _ => k))
  (at level 61, right associativity) : py_scope.
Local Open Scope py_scope.

(** The operating system and the Modal SDK as the package sees
  them. Every operation takes the world and returns the next one; every
  operation but the clock may raise. *)
Record Env (W : Type) : Type := mkEnv {
  (** [tempfile.TemporaryDirectory()]: entering and leaving the block *)
  mkdtemp : M (W:=W) string;
  rmtree : string -> M (W:=W) unit;
  (** [Path.mkdir(parents=True)], [Path.write_text], [Path.exists],
      [Path.read_text] *)
  mkdir : string -> M (W:=W) unit;
  write_text : string -> string -> M (W:=W) unit;
  path_exists : string -> W -> bool * W;
  read_text : string -> M (W:=W) string;
  (** [subprocess.run(cmd, cwd=..., capture_output=True, timeout=...)] *)
  subprocess_run : list string -> option string -> Z -> M (W:=W) CompletedProcess;
  (** [time.time()] *)
  time_time : W -> Q * W;
  (** [compile(src, '<string>', 'exec')]: [Some msg] is a [SyntaxError] *)
  py_compile : string -> option string;
  (** The texts of the manifests the runners and the executor write
      ([pom.xml], [package.json], [jest.config.js], [tsconfig.json]):
      constants of the source, fixed by the file, the module name and
      the language *)
  manifest : string -> string -> string -> string;
  (** Modal: [App.lookup] with [Sandbox.create] (the result names the
      sandbox), [sb.open(path, 'w').write], [sb.exec] followed by
      [p.wait()] and the reads of its streams, [sb.terminate()] *)
  sandbox_create : string -> M (W:=W) nat;
  sb_write : nat -> string -> string -> M (W:=W) unit;
  sb_exec : nat -> list string -> Z -> M (W:=W) CompletedProcess;
  sb_terminate : nat -> M (W:=W) unit;
  (** [json.loads] of Jest's report line, read at the four keys the
      executor looks up: [numTotalTests], [numPassedTests],
      [numFailedTests], [success] *)
  json_loads : string -> outcome (option value * option value * option value * option value)
}.

Arguments mkdtemp {W}.
Arguments rmtree {W}.
Arguments mkdir {W}.
Arguments write_text {W}.
Arguments path_exists {W}.
Arguments read_text {W}.
Arguments subprocess_run {W}.
Arguments time_time {W}.
Arguments py_compile {W}.
Arguments manifest {W}.
Arguments sandbox_create {W}.
Arguments sb_write {W}.
Arguments sb_exec {W}.
Arguments sb_terminate {W}.
Arguments json_loads {W}.

Definition path_join (dir name : string) : string := dir ++ "/" ++ name.

Section Sandbox.

Context {W : Type} (E : Env W).

(** [with tempfile.TemporaryDirectory() as tmpdir: body] *)
Definition with_tempdir {A : Type} (body : string -> M A) : M (W:=W) A :=
  tmpdir <- mkdtemp E ;;
  try_finally (body tmpdir) (rmtree E tmpdir).

(** [time.time()] *)
Definition now : M (W:=W) Q :=
  fun w => let (t, w') := time_time E w in (Ok t, w').

(** A [try] block with handlers that return from the enclosing
    function: [inr d] is [return d] inside a handler, [inl a] is the
    value the block leaves to the code after it. *)
Definition returning {A : Type} (c : M (W:=W) A)
    (h : exn -> M (W:=W) (A + dict)) : M (A + dict) :=
  try_except (a <- c ;; ret (inl a)) h.

(** *** runners/python_runner.py *)

Definition _validate_python_tests (tests : string) : bool * string :=
  if negb (PyStr.contains "def test_" tests) && negb (PyStr.contains "class Test" tests)
  then (false, "No test functions found (must start with 'test_' or be in 'Test' class)")
  else if negb (PyStr.contains "import" tests)
  then (false, "No import statements found")
  else match py_compile E tests with
       | Some msg => (false, "Syntax error in test code: " ++ msg)
       | None => (true, "")
       end.

Definition path_setup : string :=
  "import sys" ++ PyStr.nl ++
  "import os" ++ PyStr.nl ++
  "# Ensure module can be imported" ++ PyStr.nl ++
  "sys.path.insert(0, os.path.dirname(os.path.abspath(__file__)))" ++ PyStr.nl ++
  PyStr.nl.

Definition with_path_setup (tests : string) : string :=
  if negb (PyStr.contains "sys.path" tests) && negb (PyStr.contains "import sys" tests)
  then path_setup ++ tests
  else tests.

(** The five counters of a parsed report. *)
Record counts : Type := mkCounts {
  tests_run : Z;
  tests_passed : Z;
  tests_failed : Z;
  tests_errors : Z;
  tests_skipped : Z
}.

(** [r'=+\s*(.*?)\s+in\s+[\d.]+s\s*=+'] *)
Definition pytest_summary_re : Re.regex :=
  Re.cat [Re.Plus true (Re.Chr "="); Re.Star true Re.space;
          Re.Group 1 (Re.Star false Re.dot);
          Re.Plus true Re.space; Re.Lit "in"; Re.Plus true Re.space;
          Re.Plus true Re.digit_or_point; Re.Chr "s";
          Re.Star true Re.space; Re.Plus true (Re.Chr "=")].

(** [r'(\d+)\s+<label>'] *)
Definition count_re (label : string) : Re.regex :=
  Re.cat [Re.Group 1 (Re.Plus true Re.digit); Re.Plus true Re.space; Re.Lit label].

(** [int(m.group(1))] if [label] is matched, else the value so far. *)
Definition count_of (label : string) (text : string) (default : Z) : Z :=
  match Re.search1 (count_re label) text with
  | Some g => PyStr.int_of g
  | None => default
  end.

(** The parse of pytest's report in [run_python_tests]: the summary
    line first, then the count of the result words when the summary
    yields no test. *)
Definition pytest_summary_counts (stdout : string) : counts :=
  match Re.search1 pytest_summary_re stdout with
  | Some summary =>
      let passed := count_of "passed" summary 0 in
      let failed := count_of "failed" summary 0 in
      let errors := count_of "error" summary 0 in
      let skipped := count_of "skipped" summary 0 in
      mkCounts (passed + failed + errors + skipped) passed failed errors skipped
  | None => mkCounts 0 0 0 0 0
  end.

Definition pytest_fallback_counts (stdout : string) : counts :=
  let passed := PyStr.count (" PASSED" ++ PyStr.nl) stdout in
  let failed := PyStr.count (" FAILED" ++ PyStr.nl) stdout in
  let errors := PyStr.count (" ERROR" ++ PyStr.nl) stdout in
  let skipped := PyStr.count (" SKIPPED" ++ PyStr.nl) stdout in
  mkCounts (passed + failed + errors) passed failed errors skipped.

Definition pytest_counts (stdout : string) : counts :=
  let from_summary := pytest_summary_counts stdout in
  if Z.eqb (tests_run from_summary) 0
  then pytest_fallback_counts stdout
  else from_summary.

(** [r'TOTAL\s+\d+\s+\d+\s+\d+\s+\d+\s+(\d+)%'] and [r'TOTAL.*?(\d+)%'] *)
Definition pytest_cov_re : Re.regex :=
  Re.cat [Re.Lit "TOTAL"; Re.Plus true Re.space;
          Re.Plus true Re.digit; Re.Plus true Re.space;
          Re.Plus true Re.digit; Re.Plus true Re.space;
          Re.Plus true Re.digit; Re.Plus true Re.space;
          Re.Plus true Re.digit; Re.Plus true Re.space;
          Re.Group 1 (Re.Plus true Re.digit); Re.Chr "%"].

Definition pytest_cov_alt_re : Re.regex :=
  Re.cat [Re.Lit "TOTAL"; Re.Star false Re.dot;
          Re.Group 1 (Re.Plus true Re.digit); Re.Chr "%"].

Definition pytest_coverage (stdout : string) : Q :=
  match Re.search1 pytest_cov_re stdout with
  | Some g => inject_Z (PyStr.int_of g)
  | None =>
      match Re.search1 pytest_cov_alt_re stdout with
      | Some g => inject_Z (PyStr.int_of g)
      | None => 0%Q
      end
  end.

Definition python_failure (msg : string) : dict :=
  [("success", VBool false); ("error", VStr msg);
   ("tests_run", VInt 0); ("tests_passed", VInt 0); ("tests_failed", VInt 0);
   ("execution_mode", VStr "modal"); ("language", VStr "python")].

Definition python_timeout : dict :=
  [("success", VBool false); ("error", VStr "Test execution timeout (>2 minutes)");
   ("tests_run", VInt 0); ("tests_passed", VInt 0); ("tests_failed", VInt 0);
   ("execution_time", VFloat 120); ("execution_mode", VStr "modal");
   ("language", VStr "python")].

(** The record [run_python_tests] returns once pytest has finished. *)
Definition python_report (result : CompletedProcess) (execution_time : Q) : dict :=
  let stdout := PyStr.slice_to 10000 (stdout result) in
  let stderr := PyStr.slice_to 10000 (stderr result) in
  let c := pytest_counts stdout in
  [("success", VBool (Z.eqb (returncode result) 0));
   ("tests_run", VInt (tests_run c)); ("tests_passed", VInt (tests_passed c));
   ("tests_failed", VInt (tests_failed c)); ("tests_errors", VInt (tests_errors c));
   ("tests_skipped", VInt (tests_skipped c));
   ("execution_time", VFloat (round_digits execution_time 2));
   ("coverage_percent", VFloat (pytest_coverage stdout));
   ("stdout", VStr stdout); ("stderr", VStr stderr);
   ("exit_code", VInt (returncode result));
   ("execution_mode", VStr "modal"); ("language", VStr "python")].

Definition pip_install (requirements : list string) : list string :=
  (["pip"; "install"; "-q"; "--no-cache-dir"] ++ requirements)%list.

Definition pytest_cov_cmd (test_file module_name : string) : list string :=
  ["pytest"; test_file; "-v"; "--tb=short"; "--timeout=30"; "-p"; "no:warnings";
   "--cov=" ++ module_name; "--cov-report=term-missing"].

(** The part of [run_python_tests] after the install step: the clock,
    the pytest process with its two handlers, the parse. *)
Definition python_test_step (tmpdir test_file module_name : string) : M (W:=W) dict :=
  start_time <- now ;;
  r <- returning
         (subprocess_run E (pytest_cov_cmd test_file module_name) (Some tmpdir) 120)
         (fun e =>
            match e with
            | TimeoutExpired _ => ret (inr python_timeout)
            | FileNotFoundError _ => ret (inr (python_failure "pytest not found in container"))
            | _ => raise e
            end) ;;
  match r with
  | inr d => ret d
  | inl result =>
      end_time <- now ;;
      ret (python_report result (end_time - start_time)%Q)
  end.

(** The install step: its exit code is only logged, and so is any
    exception it raises. *)
Definition python_install_step (requirements : list string) : M (W:=W) unit :=
  match requirements with
  | [] => ret tt
  | _ =>
      try_except
        (install_result <- subprocess_run E (pip_install requirements) None 120 ;;
         ret tt)
        (fun _ => ret tt)
  end.

Definition run_python_tests (code tests : string) (requirements : list string)
    (module_name : string) : M (W:=W) dict :=
  let '(is_valid, error_msg) := _validate_python_tests tests in
  if negb is_valid
  then ret (python_failure ("Test validation failed: " ++ error_msg))
  else
    with_tempdir (fun tmpdir =>
      let code_file := path_join tmpdir (module_name ++ ".py") in
      let test_file := path_join tmpdir ("test_" ++ module_name ++ ".py") in
      let tests := with_path_setup tests in
      write_text E code_file code ;;;
      write_text E test_file tests ;;;
      python_install_step requirements ;;;
      python_test_step tmpdir test_file module_name).

(** *** runners/java_runner.py *)

(** [r'public\s+class\s+(\w+)'] *)
Definition class_re : Re.regex :=
  Re.cat [Re.Lit "public"; Re.Plus true Re.space; Re.Lit "class";
          Re.Plus true Re.space; Re.Group 1 (Re.Plus true Re.word)].

Definition _extract_class_name (code module_name : string) : string :=
  match Re.search1 class_re code with
  | Some name => name
  | None =>
      String.concat "" (map PyStr.capitalize (PyStr.split_on "_" module_name))
  end.

Definition with_package (src : string) : string :=
  if negb (PyStr.contains "package " src)
  then "package com.modernizer;" ++ PyStr.nl ++ PyStr.nl ++ src
  else src.

(** The text of [pom.xml] is a fixed template around [module_name];
    it is kept as the manifest of that name. *)
Definition _create_maven_project (tmpdir module_name code tests : string)
    : M (W:=W) string :=
  let main_class := _extract_class_name code module_name in
  let test_class := _extract_class_name tests (module_name ++ "Test") in
  let src_main := path_join tmpdir "src/main/java/com/modernizer" in
  let src_test := path_join tmpdir "src/test/java/com/modernizer" in
  mkdir E src_main ;;;
  mkdir E src_test ;;;
  let code := with_package code in
  let tests := with_package tests in
  write_text E (path_join src_main (main_class ++ ".java")) code ;;;
  write_text E (path_join src_test (test_class ++ ".java")) tests ;;;
  write_text E (path_join tmpdir "pom.xml") (manifest E "pom.xml" module_name "java") ;;;
  ret main_class.

Definition _validate_java_tests (tests : string) : bool * string :=
  if negb (PyStr.contains "@Test" tests)
  then (false, "No @Test annotations found (required for JUnit 5)")
  else if negb (PyStr.contains "org.junit" tests)
  then (false, "Missing JUnit imports (import org.junit.jupiter.api.Test)")
  else if negb (PyStr.contains "class" tests)
  then (false, "No test class found")
  else (true, "").

Definition java_failure (msg : string) : dict :=
  [("success", VBool false); ("error", VStr msg);
   ("tests_run", VInt 0); ("tests_passed", VInt 0); ("tests_failed", VInt 0);
   ("execution_mode", VStr "modal"); ("language", VStr "java")].

Definition java_timeout : dict :=
  [("success", VBool false); ("error", VStr "Maven test execution timeout (>5 minutes)");
   ("tests_run", VInt 0); ("tests_passed", VInt 0); ("tests_failed", VInt 0);
   ("execution_time", VFloat 300); ("execution_mode", VStr "modal");
   ("language", VStr "java")].

Definition java_failure_with_output (msg stdout stderr : string) : dict :=
  (java_failure msg ++ [("stdout", VStr stdout); ("stderr", VStr stderr)])%list.

(** The build-failure test of [run_java_tests]. *)
Definition build_failed (stdout stderr : string) : bool :=
  PyStr.contains "BUILD FAILURE" stdout || PyStr.contains "COMPILATION ERROR" stdout
  || PyStr.contains "BUILD FAILURE" stderr.

(** The first line with [[ERROR]] that is not Maven's closing line. *)
Fixpoint first_error_line (lines : list string) (default : string) : string :=
  match lines with
  | [] => default
  | line :: rest =>
      if PyStr.contains "[ERROR]" line
         && negb (PyStr.contains "Failed to execute goal" line)
      then PyStr.strip line
      else first_error_line rest default
  end.

Definition build_error_msg (stdout : string) : string :=
  if PyStr.contains "COMPILATION ERROR" stdout then "Java compilation error"
  else if PyStr.contains "[ERROR]" stdout
  then first_error_line (PyStr.split_on "010" stdout) "Maven build failed"
  else "Maven build failed".

(** [r'Tests run: (\d+),\s*Failures: (\d+),\s*Errors: (\d+),\s*Skipped: (\d+)'] *)
Definition surefire_re : Re.regex :=
  Re.cat [Re.Lit "Tests run: "; Re.Group 1 (Re.Plus true Re.digit); Re.Chr ",";
          Re.Star true Re.space;
          Re.Lit "Failures: "; Re.Group 2 (Re.Plus true Re.digit); Re.Chr ",";
          Re.Star true Re.space;
          Re.Lit "Errors: "; Re.Group 3 (Re.Plus true Re.digit); Re.Chr ",";
          Re.Star true Re.space;
          Re.Lit "Skipped: "; Re.Group 4 (Re.Plus true Re.digit)].

(** The four numbers of the first Surefire line, if there is one. *)
Definition surefire_search (stdout : string) : option (Z * Z * Z * Z) :=
  match Re.search surefire_re stdout with
  | Some m =>
      match Re.group m 1, Re.group m 2, Re.group m 3, Re.group m 4 with
      | Some x, Some y, Some z, Some w =>
          Some (PyStr.int_of x, PyStr.int_of y, PyStr.int_of z, PyStr.int_of w)
      | _, _, _, _ => None
      end
  | None => None
  end.

(** The Surefire parse of [run_java_tests]: [None] is the early return
    for a build that succeeded without a test report. *)
Definition surefire_counts (stdout : string) (returncode : Z) : option counts :=
  match surefire_search stdout with
  | Some (run, failures, errors, skipped) =>
      let failed := failures + errors in
      Some (mkCounts run (run - failed - skipped) failed errors skipped)
  | None =>
      if Z.eqb returncode 0 then None else Some (mkCounts 0 0 0 0 0)
  end.

(** [r'Total.*?(\d+)%'] *)
Definition jacoco_re : Re.regex :=
  Re.cat [Re.Lit "Total"; Re.Star false Re.dot;
          Re.Group 1 (Re.Plus true Re.digit); Re.Chr "%"].

Definition jacoco_coverage (tmpdir : string) : M (W:=W) Q :=
  let jacoco_report := path_join tmpdir "target/site/jacoco/index.html" in
  present <- (fun w => let (b, w') := path_exists E jacoco_report w in (Ok b, w')) ;;
  if (present : bool)
  then try_except
         (report_content <- read_text E jacoco_report ;;
          match Re.search1 jacoco_re report_content with
          | Some g => ret (inject_Z (PyStr.int_of g))
          | None => ret 0%Q
          end)
         (fun _ => ret 0%Q)
  else ret 0%Q.

(** The part of [run_java_tests] after Maven has finished: the build
    markers, the Surefire parse, the coverage report. *)
Definition java_report (tmpdir : string) (result : CompletedProcess)
    (execution_time : Q) : M (W:=W) dict :=
  let stdout := PyStr.slice_to 10000 (stdout result) in
  let stderr := PyStr.slice_to 10000 (stderr result) in
  if build_failed stdout stderr
  then ret (java_failure_with_output (build_error_msg stdout) stdout stderr)
  else
    match surefire_counts stdout (returncode result) with
    | None =>
        ret (java_failure_with_output
               "No tests detected by Maven Surefire (missing @Test annotations?)"
               stdout stderr)
    | Some c =>
        coverage_percent <- jacoco_coverage tmpdir ;;
        ret [("success", VBool (Z.eqb (returncode result) 0));
             ("tests_run", VInt (tests_run c)); ("tests_passed", VInt (tests_passed c));
             ("tests_failed", VInt (tests_failed c));
             ("tests_errors", VInt (tests_errors c));
             ("tests_skipped", VInt (tests_skipped c));
             ("execution_time", VFloat (round_digits execution_time 2));
             ("coverage_percent", VFloat coverage_percent);
             ("stdout", VStr stdout); ("stderr", VStr stderr);
             ("exit_code", VInt (returncode result));
             ("execution_mode", VStr "modal"); ("language", VStr "java")]
    end.

Definition mvn_cmd : list string := ["mvn"; "clean"; "test"; "-B"; "-q"].

(** The part of [run_java_tests] after the project is written: the
    clock, Maven with its two handlers, the report. *)
Definition java_test_step (tmpdir : string) : M (W:=W) dict :=
  start_time <- now ;;
  r <- returning (subprocess_run E mvn_cmd (Some tmpdir) 300)
         (fun e =>
            match e with
            | TimeoutExpired _ => ret (inr java_timeout)
            | FileNotFoundError _ =>
                ret (inr (java_failure "Maven (mvn) not found in container"))
            | _ => raise e
            end) ;;
  match r with
  | inr d => ret d
  | inl result =>
      end_time <- now ;;
      java_report tmpdir result (end_time - start_time)%Q
  end.

Definition run_java_tests (code tests : string) (requirements : list string)
    (module_name : string) : M (W:=W) dict :=
  let '(is_valid, error_msg) := _validate_java_tests tests in
  if negb is_valid
  then ret (java_failure ("Test validation failed: " ++ error_msg))
  else
    with_tempdir (fun tmpdir =>
      r <- returning (_create_maven_project tmpdir module_name code tests)
             (fun e => ret (inr (java_failure ("Project setup failed: " ++ exn_str e)))) ;;
      match r with
      | inr d => ret d
      | inl class_name => java_test_step tmpdir
      end).

(** *** runners/javascript_runner.py *)

Definition js_ext (language : string) : string :=
  if String.eqb language "typescript" then ".ts" else ".js".

(** The texts of [package.json], [jest.config.js] and [tsconfig.json]
    are fixed by the module name and the language. *)
Definition _create_nodejs_project (tmpdir module_name code tests language : string)
    : M (W:=W) unit :=
  let ext := js_ext language in
  write_text E (path_join tmpdir (module_name ++ ext)) code ;;;
  write_text E (path_join tmpdir (module_name ++ ".test" ++ ext)) tests ;;;
  (if String.eqb language "typescript"
   then
     write_text E (path_join tmpdir "jest.config.js")
       (manifest E "jest.config.js" module_name language) ;;;
     write_text E (path_join tmpdir "tsconfig.json")
       (manifest E "tsconfig.json" module_name language)
   else
     write_text E (path_join tmpdir "jest.config.js")
       (manifest E "jest.config.js" module_name language)) ;;;
  write_text E (path_join tmpdir "package.json")
    (manifest E "package.json" module_name language).

Definition _validate_javascript_tests (tests language : string) : bool * string :=
  if negb (PyStr.contains "describe(" tests) && negb (PyStr.contains "test(" tests)
     && negb (PyStr.contains "it(" tests)
  then (false, "No Jest test functions found (describe/test/it)")
  else if negb (PyStr.contains "import" tests) && negb (PyStr.contains "require" tests)
  then (false, "No import/require statements found")
  else if negb (PyStr.contains "expect(" tests)
  then (false, "No expect() assertions found")
  else (true, "").

Definition js_failure (language msg : string) : dict :=
  [("success", VBool false); ("error", VStr msg);
   ("tests_run", VInt 0); ("tests_passed", VInt 0); ("tests_failed", VInt 0);
   ("execution_mode", VStr "modal"); ("language", VStr language)].

Definition js_timeout (language : string) (e : exn) : dict :=
  [("success", VBool false);
   ("error", VStr ("Test execution timeout: " ++ exn_str e));
   ("tests_run", VInt 0); ("tests_passed", VInt 0); ("tests_failed", VInt 0);
   ("execution_time", VFloat 300); ("execution_mode", VStr "modal");
   ("language", VStr language)].

(** [r'Tests:\s+(.+)'] *)
Definition jest_line_re : Re.regex :=
  Re.cat [Re.Lit "Tests:"; Re.Plus true Re.space; Re.Group 1 (Re.Plus true Re.dot)].

(** The four counters [run_javascript_tests] reads from Jest's
    [Tests:] line; the record it returns has no place for the last. *)
Record jest_counts_t : Type := mkJest {
  jest_run : Z;
  jest_passed : Z;
  jest_failed : Z;
  jest_skipped : Z
}.

Definition jest_counts (stdout : string) : jest_counts_t :=
  match Re.search1 jest_line_re stdout with
  | Some tests_line =>
      let run := count_of "total" tests_line 0 in
      let passed := count_of "passed" tests_line 0 in
      let failed := count_of "failed" tests_line 0 in
      let skipped := count_of "skipped" tests_line 0 in
      let passed :=
        if Z.ltb 0 run && Z.eqb passed 0 && Z.eqb failed 0
        then run - failed - skipped else passed in
      mkJest run passed failed skipped
  | None => mkJest 0 0 0 0
  end.

(** [r'Test Suites:\s+(\d+)\s+failed'] *)
Definition suites_failed_re : Re.regex :=
  Re.cat [Re.Lit "Test Suites:"; Re.Plus true Re.space;
          Re.Group 1 (Re.Plus true Re.digit); Re.Plus true Re.space; Re.Lit "failed"].

Definition suite_failed_to_run (stdout : string) (run : Z) : bool :=
  PyStr.contains "Test Suites: " stdout && PyStr.contains " failed" stdout
  && match Re.search suites_failed_re stdout with
     | Some _ => Z.eqb run 0
     | None => false
     end.

(** [r'All files\s*\|\s*([\d.]+)'] *)
Definition jest_cov_re : Re.regex :=
  Re.cat [Re.Lit "All files"; Re.Star true Re.space; Re.Chr "|";
          Re.Star true Re.space; Re.Group 1 (Re.Plus true Re.digit_or_point)].

(** [float] raises [ValueError] on a capture such as [1.2.3]. *)
Definition jest_coverage (stdout : string) : M (W:=W) Q :=
  match Re.search1 jest_cov_re stdout with
  | Some g =>
      match PyStr.float_of g with
      | Some q => ret q
      | None => raise (Other ("could not convert string to float: '" ++ g ++ "'"))
      end
  | None => ret 0%Q
  end.

Definition js_failure_with_output (language msg stdout stderr : string) : dict :=
  (js_failure language msg ++ [("stdout", VStr stdout); ("stderr", VStr stderr)])%list.

(** The part of [run_javascript_tests] after [npm test] has
    finished. *)
Definition js_report (language : string) (result : CompletedProcess)
    (execution_time : Q) : M (W:=W) dict :=
  let stdout := PyStr.slice_to 10000 (stdout result) in
  let stderr := PyStr.slice_to 10000 (stderr result) in
  let c := jest_counts stdout in
  if suite_failed_to_run stdout (jest_run c)
  then ret (js_failure_with_output language
              "Test suite failed to run (compilation/syntax error)" stdout stderr)
  else
    coverage_percent <- jest_coverage stdout ;;
    ret [("success", VBool (Z.eqb (returncode result) 0));
         ("tests_run", VInt (jest_run c)); ("tests_passed", VInt (jest_passed c));
         ("tests_failed", VInt (jest_failed c));
         ("execution_time", VFloat (round_digits execution_time 2));
         ("coverage_percent", VFloat coverage_percent);
         ("stdout", VStr stdout); ("stderr", VStr stderr);
         ("exit_code", VInt (returncode result));
         ("execution_mode", VStr "modal"); ("language", VStr language)].

Definition npm_install_cmd : list string :=
  ["npm"; "install"; "--silent"; "--no-fund"; "--no-audit"].

Definition npm_test_cmd : list string := ["npm"; "test"; "--"; "--ci"].

(** The [try] block of [run_javascript_tests]: the install step, whose
    non-zero exit code returns from the function, then the test
    step. *)
Definition js_install_and_test (tmpdir language : string)
    : M (W:=W) (CompletedProcess + dict) :=
  try_except
    (install_result <- subprocess_run E npm_install_cmd (Some tmpdir) 180 ;;
     if negb (Z.eqb (returncode install_result) 0)
     then ret (inr (js_failure language
                      ("npm install failed: " ++ stderr install_result)))
     else
       result <- subprocess_run E npm_test_cmd (Some tmpdir) 120 ;;
       ret (inl result))
    (fun e =>
       match e with
       | TimeoutExpired _ => ret (inr (js_timeout language e))
       | FileNotFoundError _ =>
           ret (inr (js_failure language "Node.js/npm not found in container"))
       | _ => raise e
       end).

(** The part of [run_javascript_tests] after the project is written. *)
Definition js_test_step (tmpdir language : string) : M (W:=W) dict :=
  start_time <- now ;;
  r <- js_install_and_test tmpdir language ;;
  match r with
  | inr d => ret d
  | inl result =>
      end_time <- now ;;
      js_report language result (end_time - start_time)%Q
  end.

Definition run_javascript_tests (code tests : string) (requirements : list string)
    (module_name language : string) : M (W:=W) dict :=
  let '(is_valid, error_msg) := _validate_javascript_tests tests language in
  if negb is_valid
  then ret (js_failure language ("Test validation failed: " ++ error_msg))
  else
    with_tempdir (fun tmpdir =>
      r <- returning (_create_nodejs_project tmpdir module_name code tests language)
             (fun e => ret (inr (js_failure language
                                   ("Project setup failed: " ++ exn_str e)))) ;;
      match r with
      | inr d => ret d
      | inl _ => js_test_step tmpdir language
      end).

(** *** runners/__init__.py *)

(** [LANGUAGE_RUNNERS.get(language.lower())], applied. The JavaScript
    runner is registered for both of its languages and is called with
    its default [language='javascript']. *)
Definition get_runner_for_language (language : string)
    : option (string -> string -> list string -> string -> M (W:=W) dict) :=
  let l := PyStr.lower language in
  if String.eqb l "python" then Some run_python_tests
  else if String.eqb l "java" then Some run_java_tests
  else if String.eqb l "javascript" || String.eqb l "typescript"
  then Some (fun code tests requirements module_name =>
               run_javascript_tests code tests requirements module_name "javascript")
  else None.

(** *** modal_executor.py *)

(** The module constants fixed when the package is imported: whether
    the Modal SDK can be imported, and whether the import of the
    executor succeeded. *)
Variable MODAL_AVAILABLE : bool.
Variable MODAL_EXECUTOR_AVAILABLE : bool.

Definition modal_failure (language mode msg : string) : dict :=
  [("success", VBool false); ("error", VStr msg);
   ("tests_run", VInt 0); ("tests_passed", VInt 0); ("tests_failed", VInt 0);
   ("execution_mode", VStr mode); ("language", VStr language)].

(** The record of the executors that read nothing but the exit code. *)
Definition exit_code_report (language : string) (p : CompletedProcess) : dict :=
  let success := Z.eqb (returncode p) 0 in
  [("success", VBool success);
   ("tests_run", VInt 1);
   ("tests_passed", VInt (if success then 1 else 0));
   ("tests_failed", VInt (if success then 0 else 1));
   ("stdout", VStr (stdout p)); ("stderr", VStr (stderr p));
   ("execution_mode", VStr "modal"); ("language", VStr language)].

Definition _execute_python_in_sandbox (sb : nat) (code tests module_name : string)
    : M (W:=W) dict :=
  try_except
    (sb_exec E sb ["mkdir"; "-p"; "/workspace"] 30 ;;;
     let test_content :=
       "# Test module" ++ PyStr.nl ++ code ++ PyStr.nl ++ PyStr.nl ++
       "# Tests" ++ PyStr.nl ++ tests ++ PyStr.nl in
     let test_path := "/workspace/test_" ++ module_name ++ ".py" in
     sb_write E sb test_path test_content ;;;
     p <- sb_exec E sb ["python"; "-m"; "pytest"; test_path; "-v"; "--tb=short"] 120 ;;
     ret (exit_code_report "python" p))
    (fun e => ret (modal_failure "python" "modal"
                     ("Python execution error: " ++ exn_str e))).

Definition _execute_java_in_sandbox (sb : nat) (code tests module_name : string)
    : M (W:=W) dict :=
  try_except
    (sb_exec E sb ["mkdir"; "-p"; "/workspace"] 30 ;;;
     sb_write E sb ("/workspace/" ++ module_name ++ ".java") code ;;;
     sb_write E sb ("/workspace/" ++ module_name ++ "Test.java") tests ;;;
     sb_write E sb "/workspace/pom.xml" (manifest E "sandbox/pom.xml" module_name "java") ;;;
     p <- sb_exec E sb ["bash"; "-c"; "cd /workspace && mvn test -q 2>&1"] 120 ;;
     if Z.eqb (returncode p) 0
     then ret [("success", VBool true);
               ("tests_run", VInt 1); ("tests_passed", VInt 1); ("tests_failed", VInt 0);
               ("stdout", VStr (stdout p)); ("stderr", VStr (stderr p));
               ("execution_mode", VStr "modal"); ("language", VStr "java")]
     else ret [("success", VBool false);
               ("error", VStr ("Tests failed: " ++ stderr p));
               ("tests_run", VInt 1); ("tests_passed", VInt 0); ("tests_failed", VInt 1);
               ("stdout", VStr (stdout p)); ("stderr", VStr (stderr p));
               ("execution_mode", VStr "modal"); ("language", VStr "java")])
    (fun e => ret (modal_failure "java" "modal"
                     ("Java execution error: " ++ exn_str e))).

(** The first line of Jest's output that starts, after white space,
    with a brace and mentions [numTotalTests]. *)
Fixpoint find_json_line (lines : list string) : option string :=
  match lines with
  | [] => None
  | line :: rest =>
      if PyStr.startswith "{" (PyStr.strip line) && PyStr.contains "numTotalTests" line
      then Some line
      else find_json_line rest
  end.

Definition or_default (o : option value) (d : value) : value :=
  match o with Some v => v | None => d end.

(** The four values [_execute_javascript_in_sandbox] returns for
    [success], [tests_run], [tests_passed] and [tests_failed]. *)
Definition jest_json_counts (stdout : string) (returncode : Z)
    : value * value * value * value :=
  let ok := Z.eqb returncode 0 in
  let by_exit_code :=
    (VBool ok, VInt 1, VInt (if ok then 1 else 0), VInt (if ok then 0 else 1)) in
  match find_json_line (PyStr.split_on "010" stdout) with
  | Some json_str =>
      match json_loads E json_str with
      | Ok (total, passed, failed, success) =>
          (or_default success (VBool false), or_default total (VInt 0),
           or_default passed (VInt 0), or_default failed (VInt 0))
      | Raise _ => by_exit_code
      end
  | None => by_exit_code
  end.

Definition _execute_javascript_in_sandbox (sb : nat)
    (code tests module_name language : string) : M (W:=W) dict :=
  try_except
    (sb_exec E sb ["mkdir"; "-p"; "/workspace"] 30 ;;;
     let ext := js_ext language in
     sb_write E sb ("/workspace/" ++ module_name ++ ext) code ;;;
     sb_write E sb ("/workspace/" ++ module_name ++ ".test" ++ ext) tests ;;;
     sb_write E sb "/workspace/package.json"
       (manifest E "sandbox/package.json" module_name language) ;;;
     sb_write E sb "/workspace/jest.config.json"
       (manifest E "sandbox/jest.config.json" module_name language) ;;;
     (if String.eqb language "typescript"
      then sb_write E sb "/workspace/tsconfig.json"
             (manifest E "sandbox/tsconfig.json" module_name language)
      else ret tt) ;;;
     p <- sb_exec E sb
            ["bash"; "-c";
             "cd /workspace && npm install --legacy-peer-deps && npm test 2>&1"] 180 ;;
     let '(success, run, passed, failed) := jest_json_counts (stdout p) (returncode p) in
     ret [("success", success);
          ("tests_run", run); ("tests_passed", passed); ("tests_failed", failed);
          ("stdout", VStr (stdout p)); ("stderr", VStr (stderr p));
          ("execution_mode", VStr "modal"); ("language", VStr language)])
    (fun e => ret (modal_failure language "modal"
                     (language ++ " execution error: " ++ exn_str e))).

(** [LANGUAGE_IMAGES] of [images.py]: the four languages when Modal
    is importable, empty otherwise. *)
Definition supported_languages : list string :=
  ["python"; "java"; "javascript"; "typescript"].

Definition in_list (x : string) (l : list string) : bool :=
  existsb (String.eqb x) l.

Definition LANGUAGE_IMAGES : list string :=
  if MODAL_AVAILABLE then supported_languages else [].

Definition execute_in_modal (code tests : string) (requirements : list string)
    (module_name language : string) : M (W:=W) dict :=
  if negb MODAL_AVAILABLE
  then ret (modal_failure language "modal_unavailable" "Modal not available")
  else
    let lang_lower := PyStr.lower language in
    if negb (in_list lang_lower LANGUAGE_IMAGES)
    then ret (modal_failure language "unsupported" ("Unsupported language: " ++ language))
    else
      try_except
        (sb <- sandbox_create E lang_lower ;;
         try_finally
           (result <-
              (if String.eqb lang_lower "python"
               then _execute_python_in_sandbox sb code tests module_name
               else if String.eqb lang_lower "java"
               then _execute_java_in_sandbox sb code tests module_name
               else if in_list lang_lower ["javascript"; "typescript"]
               then _execute_javascript_in_sandbox sb code tests module_name lang_lower
               else ret (modal_failure language "modal"
                           ("No executor for language: " ++ language))) ;;
            ret (set result "execution_mode" (VStr "modal")))
           (sb_terminate E sb))
        (fun e => ret (modal_failure language "modal_error"
                         ("Modal sandbox error: " ++ exn_str e))).

(** *** validator.py: language detection and the local backend *)

Definition extension_map : list (string * string) :=
  [(".py", "python"); (".pyw", "python"); (".pyx", "python");
   (".java", "java");
   (".js", "javascript"); (".jsx", "javascript"); (".mjs", "javascript");
   (".cjs", "javascript");
   (".ts", "typescript"); (".tsx", "typescript")].

Fixpoint assoc (k : string) (l : list (string * string)) : option string :=
  match l with
  | [] => None
  | (k', v) :: rest => if String.eqb k k' then Some v else assoc k rest
  end.

Definition detect_from_content (code : string) : string :=
  if String.eqb code "" then "python"
  else if PyStr.contains "public class" code || PyStr.contains "import java." code
  then "java"
  else if PyStr.contains "def " code
          && (PyStr.contains "import " code || PyStr.contains "from " code)
  then "python"
  else if PyStr.contains "function " code || PyStr.contains "const " code
          || PyStr.contains "let " code
  then "javascript"
  else if PyStr.contains "interface " code || PyStr.contains "type " code
  then "typescript"
  else "python".

(** [file_path] is [None], empty, or a path. *)
Definition _detect_language (file_path : option string) (code : string) : string :=
  match file_path with
  | Some (String _ _ as path) =>
      match assoc (PyStr.lower (PyStr.suffix path)) extension_map with
      | Some language => language
      | None => detect_from_content code
      end
  | _ => detect_from_content code
  end.

Definition local_failure (msg : string) : dict :=
  [("success", VBool false); ("error", VStr msg);
   ("tests_run", VInt 0); ("tests_passed", VInt 0); ("tests_failed", VInt 0);
   ("execution_mode", VStr "local")].

Definition local_python_timeout : dict :=
  [("success", VBool false); ("error", VStr "Test execution timeout (>2 minutes)");
   ("tests_run", VInt 0); ("tests_passed", VInt 0); ("tests_failed", VInt 0);
   ("execution_time", VFloat 120); ("execution_mode", VStr "local")].

Definition pytest_cmd (test_file : string) : list string :=
  ["pytest"; test_file; "-v"; "--tb=short"; "--timeout=30"; "-p"; "no:warnings"].

Definition local_python_report (result : CompletedProcess) (execution_time : Q) : dict :=
  let stdout := stdout result in
  let passed := PyStr.count " PASSED" stdout in
  let failed := PyStr.count " FAILED" stdout in
  let errors := PyStr.count " ERROR" stdout in
  let test_count := passed + failed + errors in
  [("success", VBool (Z.eqb (returncode result) 0));
   ("tests_run", VInt test_count); ("tests_passed", VInt passed);
   ("tests_failed", VInt failed); ("tests_errors", VInt errors);
   ("execution_time", VFloat (round_digits execution_time 2));
   ("coverage_percent", VFloat 0);
   ("stdout", VStr stdout); ("stderr", VStr (stderr result));
   ("exit_code", VInt (returncode result));
   ("execution_mode", VStr "local")].

Definition _run_python_tests_locally (code tests : string)
    (requirements : list string) (module_name : string) : M (W:=W) dict :=
  with_tempdir (fun tmpdir =>
    let code_file := path_join tmpdir (module_name ++ ".py") in
    let test_file := path_join tmpdir ("test_" ++ module_name ++ ".py") in
    let tests := with_path_setup tests in
    write_text E code_file code ;;;
    write_text E test_file tests ;;;
    (match requirements with
     | [] => ret tt
     | _ => try_except
              (subprocess_run E (pip_install requirements) None 60 ;;; ret tt)
              (fun _ => ret tt)
     end) ;;;
    start_time <- now ;;
    r <- returning (subprocess_run E (pytest_cmd test_file) (Some tmpdir) 120)
           (fun e =>
              match e with
              | TimeoutExpired _ => ret (inr local_python_timeout)
              | FileNotFoundError _ =>
                  ret (inr (local_failure
                              "pytest not found. Install with: pip install pytest"))
              | _ => raise e
              end) ;;
    match r with
    | inr d => ret d
    | inl result =>
        end_time <- now ;;
        ret (local_python_report result (end_time - start_time)%Q)
    end).

(** [r'public class (\w+)'] *)
Definition local_class_re : Re.regex :=
  Re.cat [Re.Lit "public class "; Re.Group 1 (Re.Plus true Re.word)].

Definition local_class_name (code module_name : string) : string :=
  let class_name := PyStr.title (PyStr.remove_char "_" module_name) in
  if PyStr.contains "public class " code
  then match Re.search1 local_class_re code with
       | Some name => name
       | None => class_name
       end
  else class_name.

(** The record of the local Java and JavaScript runs, read off the
    exit code of the test process alone. *)
Definition local_exit_code_report (run_result : CompletedProcess)
    (execution_time : Q) : dict :=
  let ok := Z.eqb (returncode run_result) 0 in
  [("success", VBool ok);
   ("tests_run", VInt 1);
   ("tests_passed", VInt (if ok then 1 else 0));
   ("tests_failed", VInt (if ok then 0 else 1));
   ("execution_time", VFloat (round_digits execution_time 2));
   ("stdout", VStr (stdout run_result)); ("stderr", VStr (stderr run_result));
   ("exit_code", VInt (returncode run_result));
   ("execution_mode", VStr "local")].

Definition _run_java_tests_locally (code tests module_name : string) : M (W:=W) dict :=
  with_tempdir (fun tmpdir =>
    let class_name := local_class_name code module_name in
    let code_file := path_join tmpdir (class_name ++ ".java") in
    let test_file := path_join tmpdir (class_name ++ "Test.java") in
    write_text E code_file code ;;;
    write_text E test_file tests ;;;
    start_time <- now ;;
    try_except
      (compile_result <- subprocess_run E ["javac"; code_file; test_file] (Some tmpdir) 60 ;;
       if negb (Z.eqb (returncode compile_result) 0)
       then ret (local_failure ("Compilation failed: " ++ stderr compile_result))
       else
         run_result <- subprocess_run E ["java"; class_name ++ "Test"] (Some tmpdir) 120 ;;
         end_time <- now ;;
         ret (local_exit_code_report run_result (end_time - start_time)%Q))
      (fun e =>
         match e with
         | FileNotFoundError _ =>
             ret (local_failure "Java compiler (javac) not found. Install JDK.")
         | TimeoutExpired _ => ret (local_failure "Java test execution timeout")
         | _ => raise e
         end)).

(** [json.dumps] on objects of strings, as far as the local
    [package.json] needs it. *)
#[local] Unset Elimination Schemes.
Inductive json : Type :=
| JStr (s : string)
| JObj (fields : list (string * json)).
#[local] Set Elimination Schemes.

Fixpoint json_dumps (j : json) : string :=
  match j with
  | JStr s => PyStr.dquote ++ s ++ PyStr.dquote
  | JObj fields =>
      "{" ++ PyStr.join ", "
               (map (fun kv => PyStr.dquote ++ fst kv ++ PyStr.dquote ++ ": "
                               ++ json_dumps (snd kv)) fields)
          ++ "}"
  end.

Definition local_package_json (language : string) : json :=
  JObj [("name", JStr "test-sandbox");
        ("scripts", JObj [("test", JStr "jest")]);
        ("devDependencies",
         JObj ((("jest", JStr "^29.0.0") ::
                (if String.eqb language "typescript"
                 then [("ts-jest", JStr "^29.0.0"); ("typescript", JStr "^5.0.0")]
                 else []))))].

Definition _run_js_tests_locally (code tests module_name language : string)
    : M (W:=W) dict :=
  with_tempdir (fun tmpdir =>
    let ext := js_ext language in
    let code_file := path_join tmpdir (module_name ++ ext) in
    let test_file := path_join tmpdir (module_name ++ ".test" ++ ext) in
    write_text E code_file code ;;;
    write_text E test_file tests ;;;
    write_text E (path_join tmpdir "package.json")
      (json_dumps (local_package_json language)) ;;;
    start_time <- now ;;
    try_except
      (run_result <- subprocess_run E ["node"; test_file] (Some tmpdir) 60 ;;
       end_time <- now ;;
       ret (local_exit_code_report run_result (end_time - start_time)%Q))
      (fun e =>
         match e with
         | FileNotFoundError _ => ret (local_failure "Node.js not found. Install Node.js.")
         | TimeoutExpired _ => ret (local_failure "JavaScript test execution timeout")
         | _ => raise e
         end)).

Definition unsupported_language (language : string) : dict :=
  [("success", VBool false);
   ("error", VStr ("Unsupported language: " ++ language ++ ". Supported languages: "
                   ++ PyStr.join ", " supported_languages));
   ("tests_run", VInt 0); ("tests_passed", VInt 0); ("tests_failed", VInt 0);
   ("execution_mode", VStr "unsupported")].

Definition run_tests_locally (code tests : string) (requirements : list string)
    (module_name language : string) : M (W:=W) dict :=
  if negb (in_list language supported_languages)
  then ret (unsupported_language language)
  else if String.eqb language "python"
  then _run_python_tests_locally code tests requirements module_name
  else if String.eqb language "java"
  then _run_java_tests_locally code tests module_name
  else _run_js_tests_locally code tests module_name language.

Definition run_tests_in_sandbox (code tests : string) (requirements : list string)
    (module_name language : string) : M (W:=W) dict :=
  if MODAL_EXECUTOR_AVAILABLE
  then try_except
         (execute_in_modal code tests requirements module_name language)
         (fun _ => run_tests_locally code tests requirements module_name language)
  else run_tests_locally code tests requirements module_name language.

(** *** config.py *)

(** [os.getenv] and the presence of [~/.modal.toml], read when the
    validator is built. *)
Variable getenv : string -> option string.
Variable modal_toml_exists : bool.

Definition is_set (name : string) : bool :=
  match getenv name with
  | Some v => negb (String.eqb v "")
  | None => false
  end.

Definition is_huggingface_space : bool :=
  match getenv "SPACE_ID" with
  | Some _ => true
  | None => match getenv "SYSTEM" with
            | Some v => String.eqb v "spaces"
            | None => false
            end
  end.

Definition is_modal_configured : bool :=
  (is_set "MODAL_TOKEN_ID" && is_set "MODAL_TOKEN_SECRET") || modal_toml_exists.

Definition get_execution_mode : string :=
  let mode := PyStr.lower (match getenv "EXECUTION_MODE" with Some v => v | None => "" end) in
  if in_list mode ["modal"; "local"; "auto"] then mode
  else if is_huggingface_space then "modal"
  else if is_modal_configured then "auto"
  else "local".

Definition should_prefer_modal : bool :=
  let mode := get_execution_mode in
  if String.eqb mode "modal" then true
  else if String.eqb mode "local" then false
  else is_modal_configured.

(** *** validator.py: the class [ModalSandboxValidator] *)

Record ModalSandboxValidator : Type := mkValidator {
  prefer_modal : bool;
  is_huggingface : bool
}.

(** [__init__(prefer_modal=None)] *)
Definition validator_init (prefer : option bool) : ModalSandboxValidator :=
  let prefer := match prefer with Some b => b | None => should_prefer_modal end in
  mkValidator (prefer && MODAL_AVAILABLE) is_huggingface_space.

Definition python_import_map : list (string * string) :=
  [("sqlalchemy", "sqlalchemy"); ("pymysql", "pymysql"); ("requests", "requests");
   ("flask", "flask"); ("django", "django"); ("numpy", "numpy"); ("pandas", "pandas");
   ("fastapi", "fastapi"); ("pydantic", "pydantic"); ("aiohttp", "aiohttp");
   ("httpx", "httpx"); ("pytest", "pytest")].

Definition js_import_map : list string :=
  ["express"; "axios"; "lodash"; "moment"; "react"; "jest"].

Definition add_once (pkg : string) (requirements : list string) : list string :=
  if in_list pkg requirements then requirements else (requirements ++ [pkg])%list.

Definition python_requirement (line : string) (requirements : list string)
    : list string :=
  let line := PyStr.strip line in
  if PyStr.startswith "import " line || PyStr.startswith "from " line
  then match PyStr.words line with
       | _ :: part :: _ =>
           match assoc (hd "" (PyStr.split_on "." part)) python_import_map with
           | Some pkg => add_once pkg requirements
           | None => requirements
           end
       | _ => requirements
       end
  else requirements.

Definition js_requirement (line : string) (requirements : list string) : list string :=
  let line := PyStr.strip line in
  fold_left
    (fun reqs pkg =>
       if PyStr.contains ("'" ++ pkg ++ "'") line
          || PyStr.contains (PyStr.dquote ++ pkg ++ PyStr.dquote) line
       then add_once pkg reqs else reqs)
    js_import_map requirements.

Definition _extract_requirements (code language : string) : list string :=
  let lines := PyStr.split_on "010" code in
  if String.eqb language "python"
  then fold_left (fun reqs line => python_requirement line reqs) lines []
  else if String.eqb language "java" then []
  else if in_list language ["javascript"; "typescript"]
  then fold_left (fun reqs line => js_requirement line reqs) lines []
  else [].

(** [d[k]] *)
Definition getitem (d : dict) (k : string) : M (W:=W) value :=
  match get d k with
  | Some v => ret v
  | None => raise (KeyError k)
  end.

Definition module_name_of (file_path : option string) : string :=
  match file_path with
  | Some (String _ _ as path) => PyStr.stem path
  | _ => "module"
  end.

Definition validation_failed (e : exn) : dict :=
  [("success", VBool false); ("error", VStr (exn_str e));
   ("tests_run", VInt 0); ("tests_passed", VInt 0); ("tests_failed", VInt 0);
   ("execution_mode", VStr "failed")].

(** The two record look-ups of the log line that follows a run. *)
Definition log_passed_of_run (results : dict) : M (W:=W) unit :=
  getitem results "tests_passed" ;;; getitem results "tests_run" ;;; ret tt.

Definition validate_transformation (self : ModalSandboxValidator)
    (original_code modernized_code tests : string)
    (requirements : option (list string)) (file_path : option string)
    : M (W:=W) dict :=
  let language := _detect_language file_path modernized_code in
  let requirements :=
    match requirements with
    | None => _extract_requirements modernized_code language
    | Some r => r
    end in
  let module_name := module_name_of file_path in
  attempt <-
    (if prefer_modal self && MODAL_AVAILABLE
     then try_except
            (results <- run_tests_in_sandbox modernized_code tests requirements
                          module_name language ;;
             let results := set results "execution_mode" (VStr "modal") in
             log_passed_of_run results ;;;
             ret (Some results))
            (fun _ => ret None)
     else ret None) ;;
  match attempt with
  | Some results => ret results
  | None =>
      try_except
        (results <- run_tests_locally modernized_code tests requirements
                      module_name language ;;
         log_passed_of_run results ;;;
         ret results)
        (fun e => ret (validation_failed e))
  end.

(** An item of a batch: a [dict] read with [t['modernized_code']] and
    [t['tests']], and with [t.get] for the two optional keys. *)
Record transformation : Type := mkTransformation {
  t_file_path : option string;
  t_modernized_code : string;
  t_tests : string;
  t_requirements : option (list string)
}.

Definition t_path (t : transformation) : string :=
  match t_file_path t with Some p => p | None => "" end.

Definition t_reqs (t : transformation) : list string :=
  match t_requirements t with Some r => r | None => [] end.

Definition batch_failure (file_path mode : string) (e : exn) : dict :=
  [("file_path", VStr file_path); ("success", VBool false);
   ("error", VStr (exn_str e)); ("execution_mode", VStr mode)].

(** One turn of the Modal loop of [validate_batch]. *)
Definition batch_item_modal (t : transformation) : M (W:=W) dict :=
  let file_path := t_path t in
  let language := _detect_language (Some file_path) (t_modernized_code t) in
  try_except
    (result <- run_tests_in_sandbox (t_modernized_code t) (t_tests t) (t_reqs t)
                 (module_name_of (Some file_path)) language ;;
     let result := set result "file_path" (VStr file_path) in
     let result := set result "execution_mode" (VStr "modal") in
     ret result)
    (fun e => ret (batch_failure file_path "modal_failed" e)).

(** One turn of the local loop. *)
Definition batch_item_local (t : transformation) : M (W:=W) dict :=
  let file_path := t_path t in
  let language := _detect_language (Some file_path) (t_modernized_code t) in
  try_except
    (result <- run_tests_locally (t_modernized_code t) (t_tests t) (t_reqs t)
                 (module_name_of (Some file_path)) language ;;
     ret (set result "file_path" (VStr file_path)))
    (fun e => ret (batch_failure file_path "local_failed" e)).

(** [for t in transformations: ... results.append(...)] *)
Fixpoint batch_loop (item : transformation -> M (W:=W) dict)
    (transformations : list transformation) (results : list dict)
    : M (W:=W) (list dict) :=
  match transformations with
  | [] => ret results
  | t :: rest =>
      result <- item t ;;
      batch_loop item rest (results ++ [result])%list
  end.

Definition validate_batch (self : ModalSandboxValidator)
    (transformations : list transformation) : M (W:=W) (list dict) :=
  attempt <-
    (if prefer_modal self && MODAL_AVAILABLE
     then try_except
            (results <- batch_loop batch_item_modal transformations [] ;;
             ret (Some results))
            (fun _ => ret None)
     else ret None) ;;
  match attempt with
  | Some results => ret results
  | None => batch_loop batch_item_local transformations []
  end.

(** A test case: a [dict] of which only [description] is read. *)
Record test_case : Type := mkCase { description : option string }.

Definition equivalence_case (i : nat) (case : test_case) : string :=
  let triple := PyStr.dquote ++ PyStr.dquote ++ PyStr.dquote in
  PyStr.nl ++
  "def test_equivalence_" ++ PyStr.of_nat i ++ "():" ++ PyStr.nl ++
  "    " ++ triple ++ "Test case " ++ PyStr.of_nat i ++ ": " ++
  (match description case with Some d => d | None => "equivalence test" end) ++
  triple ++ PyStr.nl ++
  "    # Test implementation would go here" ++ PyStr.nl ++
  "    assert True" ++ PyStr.nl.

Fixpoint equivalence_cases (i : nat) (test_cases : list test_case) (test_code : string)
    : string :=
  match test_cases with
  | [] => test_code
  | case :: rest => equivalence_cases (S i) rest (test_code ++ equivalence_case i case)
  end.

Definition _generate_equivalence_test (test_cases : list test_case) : string :=
  equivalence_cases 0 test_cases ("import pytest" ++ PyStr.nl ++ PyStr.nl).

(** [a == b] on the values of a record *)
Definition value_eqb (a b : value) : bool :=
  match a, b with
  | VNone, VNone => true
  | VBool x, VBool y => Bool.eqb x y
  | VInt x, VInt y => Z.eqb x y
  | VFloat x, VFloat y => Qeq_bool x y
  | VStr x, VStr y => String.eqb x y
  | _, _ => false
  end.

(** [m / max(o, 1)] on two [int] values; any other operand is a
    [TypeError]. *)
Definition passed_ratio (m o : value) : M (W:=W) Q :=
  match m, o with
  | VInt m, VInt o => ret (Qmake m (Z.to_pos (Z.max o 1)))
  | _, _ => raise (Other "unsupported operand type(s)")
  end.

Record equivalence : Type := mkEquivalence {
  behavioral_equivalence : bool;
  equivalence_score : Q;
  original_results : dict;
  modernized_results : dict
}.

Definition test_behavioral_equivalence (self : ModalSandboxValidator)
    (original_code modernized_code : string) (test_cases : list test_case)
    : M (W:=W) equivalence :=
  let equivalence_test := _generate_equivalence_test test_cases in
  original_results <-
    validate_transformation self original_code original_code equivalence_test None None ;;
  modernized_results <-
    validate_transformation self original_code modernized_code equivalence_test None None ;;
  o_success <- getitem original_results "success" ;;
  score <-
    (if truthy o_success
     then
       m_success <- getitem modernized_results "success" ;;
       if truthy m_success
       then
         o_passed <- getitem original_results "tests_passed" ;;
         m_passed <- getitem modernized_results "tests_passed" ;;
         if value_eqb o_passed m_passed then ret 1%Q
         else passed_ratio m_passed o_passed
       else ret 0%Q
     else ret 0%Q) ;;
  ret (mkEquivalence (Qle_bool (95 # 100) score) (round_digits score 3)
         original_results modernized_results).

End Sandbox.

(** ** A scripted world

  A concrete environment to run the embedding on: child processes and
  sandbox commands answer from a script, in order, and every command
  line is logged; the file system accepts every write; the clock stands
  still. *)

Module Sim.

Record world : Type := mkWorld {
  script : list (outcome CompletedProcess);
  log : list (list string * Z)
}.

(** A command with its bound in seconds. *)
Definition run_next (cmd : list string) (timeout : Z) : M (W:=world) CompletedProcess :=
  fun w =>
    match script w with
    | [] => (Raise (FileNotFoundError "No such file or directory"),
             mkWorld [] (log w ++ [(cmd, timeout)]))
    | r :: rest => (r, mkWorld rest (log w ++ [(cmd, timeout)]))
    end.

(** [sandbox] is the outcome of every [Sandbox.create]. *)
Definition env (sandbox : outcome nat) : Env world :=
  {| mkdtemp := ret "/tmp/sandbox";
     rmtree := fun _ => ret tt;
     mkdir := fun _ => ret tt;
     write_text := fun _ _ => ret tt;
     path_exists := fun _ w => (false, w);
     read_text := fun _ => raise (FileNotFoundError "No such file or directory");
     subprocess_run := fun cmd _ timeout => run_next cmd timeout;
     time_time := fun w => (0%Q, w);
     py_compile := fun _ => None;
     manifest := fun _ _ _ => "";
     sandbox_create := fun _ w => (sandbox, w);
     sb_write := fun _ _ _ => ret tt;
     sb_exec := fun _ cmd timeout => run_next cmd timeout;
     sb_terminate := fun _ => ret tt;
     json_loads := fun _ => Raise (Other "Expecting value") |}.

Definition start (answers : list (outcome CompletedProcess)) : world :=
  mkWorld answers [].

Definition exited (code : Z) (out : string) : outcome CompletedProcess :=
  Ok (mkCompleted code out "").

Definition no_getenv : string -> option string := fun _ => None.

End Sim.

(** Reading a counter of a record; an absent counter reads as zero. *)
Definition int_field (d : dict) (k : string) : Z :=
  match get d k with
  | Some (VInt n) => n
  | _ => 0
  end.

Definition str_field (d : dict) (k : string) : string :=
  match get d k with
  | Some (VStr s) => s
  | _ => ""
  end.

(** [testsRun == testsPassed + testsFailed + testsErrored + testsSkipped] *)
Definition counts_add_up (d : dict) : Prop :=
  int_field d "tests_run" =
  int_field d "tests_passed" + int_field d "tests_failed"
+ int_field d "tests_errors" + int_field d "tests_skipped".

(** All test counts of a record are zero. *)
Definition zero_counts (d : dict) : Prop :=
  get d "tests_run" = Some (VInt 0) /\ get d "tests_passed" = Some (VInt 0)
  /\ get d "tests_failed" = Some (VInt 0).

(** The line Maven Surefire prints, for four numerals. *)
Definition surefire_line (x y z w : string) : string :=
  "Tests run: " ++ x ++ ", Failures: " ++ y ++ ", Errors: " ++ z ++ ", Skipped: " ++ w.

(** A numeral: a non-empty string of decimal digits. *)
Definition numeral (s : string) : bool :=
  negb (String.eqb s "") && Re.all_in PyStr.is_digit s.

(** ** Scenarios *)

(** A Maven run of three tests, one of which ends in an error. *)
Definition surefire_one_error : string :=
  "Tests run: 3, Failures: 0, Errors: 1, Skipped: 0".

Definition junit_test : string :=
  "import org.junit.jupiter.api.Test; class CalcTest { @Test void adds() {} }".

Definition pytest_one_passed : string :=
  "test_m.py::test_add PASSED" ++ PyStr.nl ++
  "===== 1 passed, 2 skipped in 0.01s =====" ++ PyStr.nl.

Definition python_test : string :=
  "import m" ++ PyStr.nl ++ "def test_add(): assert m.add(2, 3) == 5".

Definition python_run_record : dict :=
  python_report (mkCompleted 0 pytest_one_passed "") 0.


(** Maven's output for three tests with one failure and one error. *)
Definition surefire_report : string :=
  "[INFO] Tests run: 3, Failures: 1, Errors: 1, Skipped: 0" ++ PyStr.nl.

(** Test code for Jest with its three structural markers. *)
Definition jest_test : string :=
  "import { add } from './calc.js'; test('adds', () => { expect(add(2, 3)).toBe(5); });".

(** The Java scenario of the specification: a class and a test class
    without an annotation. *)
Definition calc_java : string :=
  "public class Calc { int add(int a,int b){return a+b;} }".

Definition calc_test_unmarked : string :=
  "import org.junit.jupiter.api.Assertions; class CalcTest { void adds() {} }".

Definition local_validator : ModalSandboxValidator := mkValidator false false.

Definition timed_out (seconds : string) : outcome CompletedProcess :=
  Raise (TimeoutExpired ("Command timed out after " ++ seconds ++ " seconds")).

(** The record of a test script that exits with code 1 under node. *)
Definition node_run_record : dict :=
  local_exit_code_report (mkCompleted 1 "" "") 0.


(** ** Shapes of result records *)

(** A record of a run: it has [success] and the two counters the
    validator logs, and if it has an error message its [success] is
    false. *)
Definition is_false (o : option value) : bool :=
  match o with
  | Some (VBool false) => true
  | _ => false
  end.

Definition failure_marked (d : dict) : bool :=
  negb (has d "error") || is_false (get d "success").

Definition run_record (d : dict) : bool :=
  has d "success" && has d "tests_run" && has d "tests_passed" && failure_marked d.

(** A field that is known to be there. *)
Definition field (d : dict) (k : string) : value :=
  match get d k with
  | Some v => v
  | None => VNone
  end.

(** The validator that prefers Modal. *)
Definition modal_validator : ModalSandboxValidator := mkValidator true false.

Definition pytest_passed : string :=
  "test_module.py::test_add PASSED" ++ PyStr.nl ++
  "===== 1 passed in 0.01s =====" ++ PyStr.nl.

Definition connection_refused : outcome nat :=
  Raise (Other "connection refused").

(** A batch of three items. *)
Definition batch_of_three : list transformation :=
  [mkTransformation (Some "a.py") "def a(): pass" "def test_a(): pass" None;
   mkTransformation (Some "b.py") "def b(): pass" "def test_b(" None;
   mkTransformation (Some "c.py") "def c(): pass" "def test_c(): pass" None].

Definition pytest_exit_5 : outcome CompletedProcess := Sim.exited 5 "no tests ran".

Definition add_py : string := "def add(a, b): return a + b".

Definition local_pass_record : dict :=
  local_python_report (mkCompleted 0 pytest_passed "") 0.

(** ** Further record shapes *)

(** A counter that is an [int] between two bounds. *)
Definition int_between (lo hi : Z) (o : option value) : Prop :=
  exists n : Z, o = Some (VInt n) /\ lo <= n <= hi.

(** Counters that are integers with [0 <= tests_passed <= tests_run] and
    [0 <= tests_failed <= tests_run]. *)
Definition bounded_counts (d : dict) : Prop :=
  exists run : Z,
    get d "tests_run" = Some (VInt run) /\ 0 <= run
    /\ int_between 0 run (get d "tests_passed")
    /\ int_between 0 run (get d "tests_failed").

(** With an error message, [success] is false and the counters are
    zero. *)
Definition error_means_no_test (d : dict) : Prop :=
  has d "error" = true -> get d "success" = Some (VBool false) /\ zero_counts d.

(** A record of the local backend: it says where it ran, it has a
    Boolean [success], bounded counters, and no test with an error. *)
Definition local_record (d : dict) : Prop :=
  In (get d "execution_mode") [Some (VStr "local"); Some (VStr "unsupported")]
  /\ (exists b, get d "success" = Some (VBool b))
  /\ bounded_counts d
  /\ error_means_no_test d.

(** A failure record of a runner: [success] false, zero counts. *)
Definition failed_without_counts (d : dict) : Prop :=
  get d "success" = Some (VBool false) /\ zero_counts d.

(** ** workflow/orchestrator.py: the totals of the validation phase

    The orchestrator collects the records [validate_transformation]
    returns and computes the totals of the phase from them. Numbers are
    rationals here: an [int] and a [float] are read as their value, a
    [bool] as 0 or 1, and any other operand of [+] or [>] is a
    [TypeError]. *)

Definition as_number (v : value) : option Q :=
  match v with
  | VInt n => Some (inject_Z n)
  | VFloat q => Some q
  | VBool b => Some (if b then 1%Q else 0%Q)
  | VNone | VStr _ => None
  end.

(** [v.get(k, 0)] as a number *)
Definition get_number (d : dict) (k : string) : outcome Q :=
  match get d k with
  | None => Ok 0%Q
  | Some v =>
      match as_number v with
      | Some q => Ok q
      | None => Raise (Other "unsupported operand type(s)")
      end
  end.

(** [sum(v.get(k, 0) for v in validation_results)], from [acc] on *)
Fixpoint sum_field (k : string) (validation_results : list dict) (acc : Q) : outcome Q :=
  match validation_results with
  | [] => Ok acc
  | v :: rest =>
      match get_number v k with
      | Ok q => sum_field k rest (acc + q)%Q
      | Raise e => Raise e
      end
  end.

(** [[v.get('coverage_percent', 0) for v in validation_results
      if v.get('coverage_percent', 0) > 0]] *)
Fixpoint coverage_values (validation_results : list dict) : outcome (list Q) :=
  match validation_results with
  | [] => Ok []
  | v :: rest =>
      match get_number v "coverage_percent" with
      | Ok q =>
          match coverage_values rest with
          | Ok qs => Ok (if Qlt_le_dec 0 q then q :: qs else qs)
          | Raise e => Raise e
          end
      | Raise e => Raise e
      end
  end.

Definition sum_Q (l : list Q) : Q := fold_left Qplus l 0%Q.

Record validation_phase : Type := mkPhase {
  files_validated : nat;
  total_tests : Q;
  phase_tests_passed : Q;
  phase_tests_failed : Q;
  average_coverage : Q;
  pass_rate : Q
}.

(** [max(total_tests, 1)] *)
Definition Qmax1 (q : Q) : Q := if Qlt_le_dec q 1 then 1%Q else q.

(** [results['phases']['validation']] of [Orchestrator.modernize_repository] *)
Definition validation_totals (validation_results : list dict) : outcome validation_phase :=
  match sum_field "tests_run" validation_results 0 with
  | Raise e => Raise e
  | Ok total_tests =>
      match sum_field "tests_passed" validation_results 0 with
      | Raise e => Raise e
      | Ok total_passed =>
          match coverage_values validation_results with
          | Raise e => Raise e
          | Ok values =>
              let avg_coverage :=
                match values with
                | [] => 0%Q
                | _ => (sum_Q values / inject_Z (Z.of_nat (length values)))%Q
                end in
              Ok (mkPhase (length validation_results) total_tests total_passed
                    (total_tests - total_passed)%Q
                    (round_digits avg_coverage 2)
                    (round_digits (total_passed / Qmax1 total_tests * 100)%Q 2))
          end
      end
  end.

(** A record without a measured coverage: the key is absent or its
    value is [0.0]. *)
Definition no_coverage (d : dict) : Prop :=
  get d "coverage_percent" = None \/ get d "coverage_percent" = Some (VFloat 0).

(** The packages [_extract_requirements] can name for a language. *)
Definition known_packages (language : string) : list string :=
  if String.eqb language "python" then map snd python_import_map
  else if in_list language ["javascript"; "typescript"] then js_import_map
  else [].

(** A record of a runner: labelled [modal]; captured output of at most
    10000 characters on each stream; with an error message, [success]
    false and zero counts; and no negative count of run, failed, errored
    or skipped tests. *)
Definition runner_record (d : dict) : Prop :=
  get d "execution_mode" = Some (VStr "modal")
  /\ Z.of_nat (String.length (str_field d "stdout")) <= 10000
  /\ Z.of_nat (String.length (str_field d "stderr")) <= 10000
  /\ error_means_no_test d
  /\ 0 <= int_field d "tests_run" /\ 0 <= int_field d "tests_failed"
  /\ 0 <= int_field d "tests_errors" /\ 0 <= int_field d "tests_skipped".

(** The part of [_run_python_tests_locally] after the install step:
    the clock, pytest with its two handlers, the count of the result
    words. *)
Definition local_python_test_step {W : Type} (E : Env W) (tmpdir test_file : string)
    : M (W:=W) dict :=
  (start_time <- now E ;;
   r <- returning (subprocess_run E (pytest_cmd test_file) (Some tmpdir) 120)
          (fun e =>
             match e with
             | TimeoutExpired _ => ret (inr local_python_timeout)
             | FileNotFoundError _ =>
                 ret (inr (local_failure
                             "pytest not found. Install with: pip install pytest"))
             | _ => raise e
             end) ;;
   match r with
   | inr d => ret d
   | inl result =>
       end_time <- now E ;;
       ret (local_python_report result (end_time - start_time)%Q)
   end)%py.

(** [validate_environment] of [config.py], without its log lines. *)
Definition validate_environment (getenv : string -> option string)
    (modal_toml_exists : bool) : bool :=
  let mode := get_execution_mode getenv modal_toml_exists in
  let is_hf := is_huggingface_space getenv in
  let modal_ok := is_modal_configured getenv modal_toml_exists in
  if is_hf && negb modal_ok then false
  else if String.eqb mode "modal" && negb modal_ok then false
  else if String.eqb mode "local" && is_hf then false
  else true.

(** The environment of a Hugging Face Space that holds the two Modal
    tokens. *)
Definition space_getenv (name : string) : option string :=
  if String.eqb name "SPACE_ID" then Some "user/space"
  else if String.eqb name "MODAL_TOKEN_ID" then Some "ak-1"
  else if String.eqb name "MODAL_TOKEN_SECRET" then Some "as-1"
  else None.

(** The label of a record of a batch: [ok] on a run that returned,
    with its counters, [failed] on the record written for a run that
    raised, which has no counter. *)
Definition batch_record (ok failed : string) (d : dict) : Prop :=
  (get d "execution_mode" = Some (VStr ok)
   /\ has d "tests_run" = true /\ has d "tests_passed" = true)
  \/ (get d "execution_mode" = Some (VStr failed)
      /\ get d "success" = Some (VBool false)
      /\ get d "tests_run" = None /\ get d "tests_passed" = None).

(** The counters of a record that counts one test at most. *)
Definition one_test_at_most (d : dict) : Prop :=
  bounded_counts d
  /\ int_field d "tests_run" <= 1
  /\ int_field d "tests_run" = int_field d "tests_passed" + int_field d "tests_failed".

(** ** The test process of a request *)

(** The command line of the test process the local backend starts in
    the temporary directory [tmpdir], and its bound in seconds. *)
Definition local_test_command (language code module_name tmpdir : string)
    : list string * Z :=
  if String.eqb language "python"
  then (pytest_cmd (path_join tmpdir ("test_" ++ module_name ++ ".py")), 120)
  else if String.eqb language "java"
  then (["java"; local_class_name code module_name ++ "Test"], 120)
  else (["node"; path_join tmpdir (module_name ++ ".test" ++ js_ext language)], 60).

(** The test process of the local backend was started in a temporary
    directory the request entered, with the command line and the bound
    of its language, and came back as [p]. *)
Definition local_test_process {W : Type} (E : Env W)
    (language code module_name : string) (p : CompletedProcess) : Prop :=
  exists (tmpdir : string) (w0 w1 : W),
    subprocess_run E (fst (local_test_command language code module_name tmpdir))
      (Some tmpdir) (snd (local_test_command language code module_name tmpdir)) w0
    = (Ok p, w1).

(** The Python scenario of the specification, with a test that imports
    the module under the name the validator gives it. *)
Definition add_code : string := "def add(a,b): return a+b".

Definition add_module_test : string :=
  "from module import add" ++ PyStr.nl ++ PyStr.nl ++
  "def test_add():" ++ PyStr.nl ++
  "    assert add(2,3)==5" ++ PyStr.nl.

(** The record of a Java test class that exits with code 1 after a
    compilation that exited with code 0. *)
Definition java_run_record : dict :=
  local_exit_code_report (mkCompleted 1 "FAILED" "") 0.

(** Maven's output for two tests that pass, and a text of [n] spaces. *)
Definition surefire_two_passed : string :=
  "[INFO] Tests run: 2, Failures: 0, Errors: 0, Skipped: 0" ++ PyStr.nl.

Fixpoint spaces (n : nat) : string :=
  match n with
  | O => ""
  | S n' => String " " (spaces n')
  end.

(** A process that exits with [code] and has written to both streams. *)
Definition exited_with (code : Z) (out err : string) : outcome CompletedProcess :=
  Ok (mkCompleted code out err).

(** The text Jest's summary shows after [Tests:], empty when the
    output has no such line, and the figure a summary shows before a
    label, 0 when it shows none. *)
Definition jest_tests_line (stdout : string) : string :=
  match Re.search1 jest_line_re stdout with
  | Some tests_line => tests_line
  | None => ""
  end.

Definition figure (label line : string) : Z := count_of label line 0.

(** Jest's report of one test that is only announced. *)
Definition jest_one_todo : string :=
  "Tests:       1 todo, 1 total" ++ PyStr.nl.

(** Jest's report of four tests, one of them skipped. *)
Definition jest_one_skipped : string :=
  "Tests:       1 failed, 1 skipped, 2 passed, 4 total" ++ PyStr.nl.

(** The command line of the test process the remote executor starts in
    its sandbox, and its bound. *)
Definition remote_test_command (language module_name : string) : list string * Z :=
  if String.eqb language "python"
  then (["python"; "-m"; "pytest"; "/workspace/test_" ++ module_name ++ ".py";
         "-v"; "--tb=short"], 120)
  else if String.eqb language "java"
  then (["bash"; "-c"; "cd /workspace && mvn test -q 2>&1"], 120)
  else (["bash"; "-c";
         "cd /workspace && npm install --legacy-peer-deps && npm test 2>&1"], 180).

Definition remote_test_process {W : Type} (E : Env W)
    (language module_name : string) (p : CompletedProcess) : Prop :=
  exists (sb : nat) (w0 w1 : W),
    sb_exec E sb (fst (remote_test_command language module_name))
      (snd (remote_test_command language module_name)) w0
    = (Ok p, w1).

(** A line of the output of [p] is a report of Jest whose [success]
    is true. *)
Definition jest_reports_success {W : Type} (E : Env W) (p : CompletedProcess) : Prop :=
  exists (line : string) (total passed failed : option value) (v : value),
    In line (PyStr.split_on "010" (stdout p))
    /\ json_loads E line = Ok (total, passed, failed, Some v)
    /\ truthy v = true.

(** The test process of the request came back with exit code 0; in the
    sandbox for JavaScript, the report of Jest may say so in its
    place. *)
Definition test_passed_locally {W : Type} (E : Env W)
    (language code module_name : string) : Prop :=
  exists p : CompletedProcess,
    local_test_process E language code module_name p /\ returncode p = 0.

Definition test_passed_remotely {W : Type} (E : Env W)
    (language module_name : string) : Prop :=
  exists p : CompletedProcess,
    remote_test_process E language module_name p
    /\ (returncode p = 0
        \/ (in_list language ["javascript"; "typescript"] = true
            /\ jest_reports_success E p)).

(** ** The records of a batch *)

(** The language and the module name [validate_batch] works out for an
    item, the run it makes for it, on the remote or on the local
    backend, and the record it appends for the outcome of that run: the
    record of the run with the path of the item (and the label [modal]
    on the remote backend), or the failure record when the run raised. *)
Definition item_language (t : transformation) : string :=
  _detect_language (Some (t_path t)) (t_modernized_code t).

Definition item_module (t : transformation) : string :=
  module_name_of (Some (t_path t)).

Definition batch_run {W : Type} (E : Env W)
    (MODAL_AVAILABLE MODAL_EXECUTOR_AVAILABLE remote : bool) (t : transformation)
    : M (W:=W) dict :=
  if remote
  then run_tests_in_sandbox E MODAL_AVAILABLE MODAL_EXECUTOR_AVAILABLE
         (t_modernized_code t) (t_tests t) (t_reqs t) (item_module t) (item_language t)
  else run_tests_locally E
         (t_modernized_code t) (t_tests t) (t_reqs t) (item_module t) (item_language t).

Definition recorded (t : transformation) (remote : bool) (o : outcome dict) : dict :=
  match o with
  | Ok r =>
      let r := set r "file_path" (VStr (t_path t)) in
      if remote then set r "execution_mode" (VStr "modal") else r
  | Raise e =>
      batch_failure (t_path t) (if remote then "modal_failed" else "local_failed") e
  end.

(** [recorded_in_order run remote ts w ds w']: the items [ts] are run
    one after the other from the world [w] to the world [w'], each from
    the world the one before it left, and [ds] are the records of their
    outcomes, in the order of the items. *)
Inductive recorded_in_order {W : Type} (run : transformation -> M (W:=W) dict)
    (remote : bool) : list transformation -> W -> list dict -> W -> Prop :=
| recorded_nil (w : W) : recorded_in_order run remote [] w [] w
| recorded_cons (t : transformation) (ts : list transformation) (w w1 w2 : W)
    (o : outcome dict) (ds : list dict) :
    run t w = (o, w1) ->
    recorded_in_order run remote ts w1 ds w2 ->
    recorded_in_order run remote (t :: ts) w (recorded t remote o :: ds) w2.

(** What pytest prints for the three items of the batch: the first and
    the third pass, the test file of the second cannot be collected. *)
Definition pytest_passed_a : outcome CompletedProcess :=
  Sim.exited 0 ("test_a.py::test_a PASSED" ++ PyStr.nl ++
                "===== 1 passed in 0.01s =====" ++ PyStr.nl).

Definition pytest_collection_error : outcome CompletedProcess :=
  Sim.exited 2 ("ERROR test_b.py" ++ PyStr.nl ++
                "!!!!! Interrupted: 1 error during collection !!!!!" ++ PyStr.nl ++
                "===== 1 error in 0.05s =====" ++ PyStr.nl).

Definition pytest_passed_c : outcome CompletedProcess :=
  Sim.exited 0 ("test_c.py::test_c PASSED" ++ PyStr.nl ++
                "===== 1 passed in 0.01s =====" ++ PyStr.nl).

(** ** A ledger of temporary directories and sandboxes *)

(** A world with a ledger: the temporary directories that have been
    entered and not removed, the sandboxes that have been created and
    not terminated, and how many of each there have been. *)
Record ledger (W : Type) : Type := mkLedger {
  inner : W;
  open_dirs : list string;
  open_sandboxes : list nat;
  dirs_entered : Z;
  sandboxes_created : Z
}.

Arguments mkLedger {W}.
Arguments inner {W}.
Arguments open_dirs {W}.
Arguments open_sandboxes {W}.
Arguments dirs_entered {W}.
Arguments sandboxes_created {W}.

(** [l] without the first [x] in it. *)
Fixpoint without {A : Type} (eqb : A -> A -> bool) (x : A) (l : list A) : list A :=
  match l with
  | [] => []
  | y :: rest => if eqb x y then rest else y :: without eqb x rest
  end.

(** An operation that does not touch the ledger. *)
Definition lifted {W A : Type} (c : W -> A * W) : ledger W -> A * ledger W :=
  fun l =>
    let (a, w) := c (inner l) in
    (a, mkLedger w (open_dirs l) (open_sandboxes l) (dirs_entered l) (sandboxes_created l)).

(** The operating system of [E] with the ledger kept. A directory is
    entered in the ledger when [mkdtemp] returns it, and struck out when
    the removal of that very directory returns; a sandbox is entered
    when [Sandbox.create] returns it, and struck out when the call that
    terminates that very sandbox returns. A clean-up call that raises,
    or that is made for another directory or sandbox, strikes out
    nothing. *)
Definition audited {W : Type} (E : Env W) : Env (ledger W) :=
  {| mkdtemp := fun l =>
       match mkdtemp E (inner l) with
       | (Ok d, w) =>
           (Ok d, mkLedger w (d :: open_dirs l) (open_sandboxes l)
                    (dirs_entered l + 1) (sandboxes_created l))
       | (Raise e, w) =>
           (Raise e, mkLedger w (open_dirs l) (open_sandboxes l)
                       (dirs_entered l) (sandboxes_created l))
       end;
     rmtree := fun d l =>
       match rmtree E d (inner l) with
       | (Ok u, w) =>
           (Ok u, mkLedger w (without String.eqb d (open_dirs l)) (open_sandboxes l)
                    (dirs_entered l) (sandboxes_created l))
       | (Raise e, w) =>
           (Raise e, mkLedger w (open_dirs l) (open_sandboxes l)
                       (dirs_entered l) (sandboxes_created l))
       end;
     mkdir := fun p => lifted (mkdir E p);
     write_text := fun p s => lifted (write_text E p s);
     path_exists := fun p => lifted (path_exists E p);
     read_text := fun p => lifted (read_text E p);
     subprocess_run := fun cmd cwd t => lifted (subprocess_run E cmd cwd t);
     time_time := lifted (time_time E);
     py_compile := py_compile E;
     manifest := manifest E;
     sandbox_create := fun image l =>
       match sandbox_create E image (inner l) with
       | (Ok sb, w) =>
           (Ok sb, mkLedger w (open_dirs l) (sb :: open_sandboxes l)
                     (dirs_entered l) (sandboxes_created l + 1))
       | (Raise e, w) =>
           (Raise e, mkLedger w (open_dirs l) (open_sandboxes l)
                       (dirs_entered l) (sandboxes_created l))
       end;
     sb_write := fun sb p s => lifted (sb_write E sb p s);
     sb_exec := fun sb cmd t => lifted (sb_exec E sb cmd t);
     sb_terminate := fun sb l =>
       match sb_terminate E sb (inner l) with
       | (Ok u, w) =>
           (Ok u, mkLedger w (open_dirs l) (without Nat.eqb sb (open_sandboxes l))
                    (dirs_entered l) (sandboxes_created l))
       | (Raise e, w) =>
           (Raise e, mkLedger w (open_dirs l) (open_sandboxes l)
                       (dirs_entered l) (sandboxes_created l))
       end;
     json_loads := json_loads E |}.

(** The removal of the directory [d], or the call that terminates the
    sandbox [sb], raises somewhere in [E]. *)
Definition removal_raises {W : Type} (E : Env W) (d : string) : Prop :=
  exists (w0 : W) (e : exn) (w1 : W), rmtree E d w0 = (Raise e, w1).

Definition terminate_raises {W : Type} (E : Env W) (sb : nat) : Prop :=
  exists (w0 : W) (e : exn) (w1 : W), sb_terminate E sb w0 = (Raise e, w1).

(** [released E l l']: what is open in [l'] is what was open in [l]
    and, on top of it, only directories whose own removal raised and
    sandboxes whose own termination raised. *)
Definition released {W : Type} (E : Env W) (l l' : ledger W) : Prop :=
  exists (dirs : list string) (sandboxes : list nat),
    open_dirs l' = (dirs ++ open_dirs l)%list
    /\ open_sandboxes l' = (sandboxes ++ open_sandboxes l)%list
    /\ Forall (removal_raises E) dirs
    /\ Forall (terminate_raises E) sandboxes.

(** Between [l] and [l'], at most [dirs] directories were entered and
    at most [sandboxes] sandboxes created. *)
Definition entered_at_most {W : Type} (dirs sandboxes : Z) (l l' : ledger W) : Prop :=
  dirs_entered l <= dirs_entered l' <= dirs_entered l + dirs
  /\ sandboxes_created l <= sandboxes_created l' <= sandboxes_created l + sandboxes.

(** What a run over the ledger returns, seen without the ledger, and
    the relation between a computation over the ledger and the same
    computation without it: the same outcome and the same world. *)
Definition plain {W A : Type} (r : A * ledger W) : A * W := (fst r, inner (snd r)).

Definition observes {W A : Type} (c : M (W:=ledger W) A) (c' : M (W:=W) A) : Prop :=
  forall l : ledger W, plain (c l) = c' (inner l).
(** * Properties *)

(** ** Proof support *)

(** Case analysis on the innermost scrutinee of a hypothesis or of the
  goal, the way a run of the monadic code branches on what the world
  answers. *)
Ltac branch_in H :=
  match type of H with
  | context [match ?x with _ => _ end] =>
    lazymatch x with
    | context [match _ with _ => _ end] => fail
    | _ => let Hx := fresh "Hx" in destruct x eqn:Hx
    end
  end.

Ltac branch_goal :=
  match goal with
  | |- context [match ?x with _ => _ end] =>
    lazymatch x with
    | context [match _ with _ => _ end] => fail
    | _ => let Hx := fresh "Hx" in destruct x eqn:Hx
    end
  end.

Ltac unfold_monad_in H :=
  unfold with_tempdir, returning, try_except, try_finally, bind, ret, raise, now in H.

Ltac unfold_monad :=
  unfold with_tempdir, returning, try_except, try_finally, bind, ret, raise, now.

Ltac run_cases H :=
  unfold_monad_in H; cbv beta iota in H;
  repeat (branch_in H; cbv beta iota in H; try discriminate H);
  try (injection H as <- <-).

(** ** The pattern matcher on a Surefire line *)

Module ReFacts.
Import Re.

Lemma length_app (a b : string) :
  String.length (a ++ b) = (String.length a + String.length b)%nat.
Proof. induction a as [|c a IH]; simpl; [reflexivity | now rewrite IH]. Qed.

Lemma take_app (a b : string) : PyStr.take (String.length a) (a ++ b) = a.
Proof. induction a as [|c a IH]; simpl; [now destruct b | now rewrite IH]. Qed.

Lemma consumed_app (a b : string) : consumed (a ++ b) b = a.
Proof.
  unfold consumed. rewrite length_app.
  replace (String.length a + String.length b - String.length b)%nat
    with (String.length a) by lia.
  apply take_app.
Qed.

Lemma rmatch_lit {R} (l rest : string) (cs : caps) (k : string -> caps -> option R) :
  rmatch (Lit l) (l ++ rest) cs k = k rest cs.
Proof.
  revert k. induction l as [|c l IH]; intros k; simpl; [reflexivity|].
  rewrite Ascii.eqb_refl. apply IH.
Qed.

(** A greedy repetition of a class runs to the end of the run of its
    characters when the continuation accepts there. *)
Lemma star_class_greedy {R} (p : ascii -> bool) (ds rest : string) (cs : caps)
    (k : string -> caps -> option R) (x : R) (fuel : nat) :
  all_in p ds = true -> stops p rest = true ->
  (String.length (ds ++ rest) <= fuel)%nat ->
  k rest cs = Some x ->
  star_loop (fun s' cs' k' => rmatch (Cls p) s' cs' k') true k fuel (ds ++ rest) cs
  = Some x.
Proof.
  revert fuel. induction ds as [|a ds IH]; intros fuel Hall Hstop Hfuel Hk.
  - simpl. destruct fuel as [|fuel]; simpl; [exact Hk|].
    destruct rest as [|b rest]; simpl; [exact Hk|].
    simpl in Hstop. destruct (p b); [discriminate|exact Hk].
  - simpl in Hall. apply andb_prop in Hall as [Ha Hall].
    destruct fuel as [|fuel]; [simpl in Hfuel; lia|].
    simpl. rewrite Ha.
    destruct (Nat.ltb_spec (String.length (ds ++ rest)) (S (String.length (ds ++ rest))));
      [|lia].
    rewrite IH; auto. simpl in Hfuel. lia.
Qed.

Lemma rmatch_star_class {R} (p : ascii -> bool) (ds rest : string) (cs : caps)
    (k : string -> caps -> option R) (x : R) :
  all_in p ds = true -> stops p rest = true ->
  k rest cs = Some x ->
  rmatch (Star true (Cls p)) (ds ++ rest) cs k = Some x.
Proof. intros. simpl. apply star_class_greedy; auto. Qed.

(** [(p+)] as group [i] captures the whole run. *)
Lemma rmatch_group_plus {R} (i : nat) (p : ascii -> bool) (ds rest : string)
    (cs : caps) (k : string -> caps -> option R) (x : R) :
  ds <> EmptyString -> all_in p ds = true -> stops p rest = true ->
  k rest ((i, ds) :: cs) = Some x ->
  rmatch (Group i (Plus true (Cls p))) (ds ++ rest) cs k = Some x.
Proof.
  intros Hne Hall Hstop Hk.
  destruct ds as [|a ds]; [contradiction|].
  simpl in Hall. apply andb_prop in Hall as [Ha Hall].
  cbn [rmatch Plus]. cbn [append]. rewrite Ha.
  apply star_class_greedy; auto.
  change (String a (ds ++ rest)) with (String a ds ++ rest).
  rewrite consumed_app. exact Hk.
Qed.

(** [search] skips the positions where no match starts. *)
Lemma search_skip (r : regex) (pre s : string) :
  (forall i, (i < String.length pre)%nat ->
             match_here r (PyStr.drop i (pre ++ s)) = None) ->
  search r (pre ++ s) = search r s.
Proof.
  induction pre as [|a pre IH]; intros Hnone; [reflexivity|].
  cbn [append search].
  pose proof (Hnone O ltac:(simpl; lia)) as H0. cbn [PyStr.drop append] in H0.
  rewrite H0. apply IH.
  intros i Hi. apply (Hnone (S i)). simpl. lia.
Qed.


Lemma numeral_inv (s : string) :
  numeral s = true -> s <> EmptyString /\ all_in PyStr.is_digit s = true.
Proof.
  unfold numeral. intros H. apply andb_prop in H as [Hne Hall]. split; [|exact Hall].
  intros ->. discriminate.
Qed.

Lemma append_assoc (a b c : string) : (a ++ b) ++ c = a ++ b ++ c.
Proof. induction a as [|x a IH]; simpl; [reflexivity | now rewrite IH]. Qed.

Lemma rmatch_seq {R} (r1 r2 : regex) (s : string) (cs : caps)
    (k : string -> caps -> option R) :
  rmatch (Seq r1 r2) s cs k = rmatch r1 s cs (fun s' cs' => rmatch r2 s' cs' k).
Proof. reflexivity. Qed.

Lemma rmatch_chr {R} (c : ascii) (rest : string) (cs : caps)
    (k : string -> caps -> option R) :
  rmatch (Chr c) (String c EmptyString ++ rest) cs k = k rest cs.
Proof. simpl. now rewrite Ascii.eqb_refl. Qed.

(** The pattern of [run_java_tests] matches a Surefire line where it
    starts, and captures its four numerals. *)
Lemma surefire_match_here (x y z w post : string) :
  numeral x = true -> numeral y = true -> numeral z = true -> numeral w = true ->
  stops PyStr.is_digit post = true ->
  match_here surefire_re (surefire_line x y z w ++ post)
  = Some [(4%nat, w); (3%nat, z); (2%nat, y); (1%nat, x)].
Proof.
  intros Hx Hy Hz Hw Hpost.
  apply numeral_inv in Hx as [Hx1 Hx2]. apply numeral_inv in Hy as [Hy1 Hy2].
  apply numeral_inv in Hz as [Hz1 Hz2]. apply numeral_inv in Hw as [Hw1 Hw2].
  assert (Hs : surefire_line x y z w ++ post =
               "Tests run: " ++ x ++ "," ++ " " ++ "Failures: " ++ y ++ "," ++ " "
               ++ "Errors: " ++ z ++ "," ++ " " ++ "Skipped: " ++ w ++ post).
  { unfold surefire_line. repeat rewrite append_assoc. reflexivity. }
  rewrite Hs. clear Hs.
  unfold match_here, surefire_re. cbn [cat].
  rewrite rmatch_seq, rmatch_lit.
  rewrite rmatch_seq. apply rmatch_group_plus; try assumption; [reflexivity|].
  rewrite rmatch_seq, rmatch_chr.
  rewrite rmatch_seq. apply rmatch_star_class; try reflexivity.
  rewrite rmatch_seq, rmatch_lit.
  rewrite rmatch_seq. apply rmatch_group_plus; try assumption; [reflexivity|].
  rewrite rmatch_seq, rmatch_chr.
  rewrite rmatch_seq. apply rmatch_star_class; try reflexivity.
  rewrite rmatch_seq, rmatch_lit.
  rewrite rmatch_seq. apply rmatch_group_plus; try assumption; [reflexivity|].
  rewrite rmatch_seq, rmatch_chr.
  rewrite rmatch_seq. apply rmatch_star_class; try reflexivity.
  rewrite rmatch_seq, rmatch_lit.
  apply rmatch_group_plus; try assumption.
  reflexivity.
Qed.

(** [re.search] finds the first Surefire line of the output. *)
Lemma surefire_search_line (pre x y z w post : string) :
  numeral x = true -> numeral y = true -> numeral z = true -> numeral w = true ->
  stops PyStr.is_digit post = true ->
  (forall i, (i < String.length pre)%nat ->
     match_here surefire_re (PyStr.drop i (pre ++ surefire_line x y z w ++ post)) = None) ->
  surefire_search (pre ++ surefire_line x y z w ++ post)
  = Some (PyStr.int_of x, PyStr.int_of y, PyStr.int_of z, PyStr.int_of w).
Proof.
  intros Hx Hy Hz Hw Hpost Hfirst.
  unfold surefire_search. rewrite (search_skip _ _ _ Hfirst).
  assert (Hhere := surefire_match_here x y z w post Hx Hy Hz Hw Hpost).
  destruct (surefire_line x y z w ++ post) as [|c rest] eqn:Hl.
  - cbn [search]. rewrite Hhere. reflexivity.
  - cbn [search]. rewrite Hhere. reflexivity.
Qed.

End ReFacts.

Section ParserFacts.

Lemma pytest_summary_adds_up (stdout : string) :
  let c := pytest_summary_counts stdout in
  tests_run c = tests_passed c + tests_failed c + tests_errors c + tests_skipped c.
Proof.
  unfold pytest_summary_counts.
  destruct (Re.search1 pytest_summary_re stdout); reflexivity.
Qed.

Lemma pytest_fallback_adds_up (stdout : string) :
  let c := pytest_fallback_counts stdout in
  tests_run c = tests_passed c + tests_failed c + tests_errors c.
Proof. reflexivity. Qed.

Lemma surefire_counts_add_up (stdout : string) (rc : Z) (c : counts) :
  surefire_counts stdout rc = Some c ->
  tests_run c = tests_passed c + tests_failed c + tests_skipped c.
Proof.
  unfold surefire_counts.
  destruct (surefire_search stdout) as [[[[run failures] errors] skipped]|].
  - intros [= <-]. simpl. lia.
  - destruct (Z.eqb rc 0); intros [= <-]. reflexivity.
Qed.

End ParserFacts.

(** ** The counters of a parsed report *)

Section RunnerRecords.

Context {W : Type} (E : Env W).

(** A record of the Python runner without an error message is the
    report of a finished pytest process. *)
Lemma run_python_tests_record code tests reqs m w d w' :
  run_python_tests E code tests reqs m w = (Ok d, w') ->
  get d "error" = None ->
  exists result t, d = python_report result t.
Proof.
  unfold run_python_tests, python_install_step, python_test_step. intros H Herr.
  run_cases H; try discriminate Herr; eauto.
Qed.

Lemma python_report_adds_up result t :
  let out := PyStr.slice_to 10000 (stdout result) in
  tests_run (pytest_summary_counts out) <> 0
  \/ tests_skipped (pytest_fallback_counts out) = 0 ->
  counts_add_up (python_report result t).
Proof.
  intros out Hcase.
  assert (Hc : let c := pytest_counts out in
               tests_run c = tests_passed c + tests_failed c + tests_errors c
                             + tests_skipped c).
  { unfold pytest_counts.
    destruct (Z.eqb_spec (tests_run (pytest_summary_counts out)) 0) as [Hz|Hz].
    - destruct Hcase as [Hn|Hs]; [contradiction|].
      pose proof (pytest_fallback_adds_up out) as Hf. cbv zeta in *. lia.
    - apply pytest_summary_adds_up. }
  exact Hc.
Qed.

Lemma run_java_tests_adds_up code tests reqs m w d w' :
  run_java_tests E code tests reqs m w = (Ok d, w') ->
  get d "error" = None ->
  int_field d "tests_run" =
  int_field d "tests_passed" + int_field d "tests_failed" + int_field d "tests_skipped".
Proof.
  unfold run_java_tests, java_test_step, java_report, jacoco_coverage,
    _create_maven_project.
  intros H Herr.
  run_cases H; try discriminate Herr;
    match goal with
    | Hc : surefire_counts _ _ = Some _ |- _ =>
        apply surefire_counts_add_up in Hc; exact Hc
    end.
Qed.

End RunnerRecords.

(** C1, as stated, fails: Maven reports three tests with one error and
  exits with code 1; the Java runner returns a record without an error
  message whose counters are 3 run, 2 passed, 1 failed, 1 errored and 0
  skipped, and 2 + 1 + 1 + 0 is not 3. *)
Lemma java_error_breaks_the_sum :
  exists d w',
  run_java_tests (Sim.env (Ok O)) "public class Calc {}" junit_test [] "calc"
    (Sim.start [Sim.exited 1 surefire_one_error]) = (Ok d, w')
  /\ get d "error" = None
  /\ int_field d "tests_run" = 3
  /\ int_field d "tests_passed" + int_field d "tests_failed"
     + int_field d "tests_errors" + int_field d "tests_skipped" = 4
  /\ ~ counts_add_up d.
Proof.
  eexists. eexists. split; [vm_compute; reflexivity|].
  repeat split; try reflexivity.
  unfold counts_add_up. vm_compute. discriminate.
Qed.

Section JestRecords.
Context {W : Type} (E : Env W).

Lemma jest_counts_figures (out : string) :
  let line := jest_tests_line out in
  let c := jest_counts out in
  jest_run c = figure "total" line
  /\ jest_failed c = figure "failed" line
  /\ jest_passed c
     = (if Z.ltb 0 (figure "total" line) && Z.eqb (figure "passed" line) 0
           && Z.eqb (figure "failed" line) 0
        then figure "total" line - figure "failed" line - figure "skipped" line
        else figure "passed" line).
Proof.
  unfold jest_counts, jest_tests_line, figure.
  destruct (Re.search1 jest_line_re out) as [line|]; repeat split; reflexivity.
Qed.

(** A record of the JavaScript runner without an error message holds
    the counters of the Jest parse of the output it carries, and neither
    an errored nor a skipped counter. *)
Lemma run_javascript_tests_counters code tests reqs m language w d w' :
  run_javascript_tests E code tests reqs m language w = (Ok d, w') ->
  get d "error" = None ->
  get d "tests_errors" = None /\ get d "tests_skipped" = None
  /\ int_field d "tests_run" = jest_run (jest_counts (str_field d "stdout"))
  /\ int_field d "tests_passed" = jest_passed (jest_counts (str_field d "stdout"))
  /\ int_field d "tests_failed" = jest_failed (jest_counts (str_field d "stdout")).
Proof.
  unfold run_javascript_tests, js_test_step, js_install_and_test, js_report,
    jest_coverage, _create_nodejs_project.
  intros H Herr.
  run_cases H; try discriminate Herr; repeat split; reflexivity.
Qed.

End JestRecords.

(** Jest's summary [Tests: 1 todo, 1 total] is read as one test run
    and one passed, a figure Jest did not print; with a skipped test the
    three counters of the record do not add up. *)
Lemma jest_todo_and_skipped_figures :
  jest_passed (jest_counts jest_one_todo) = 1
  /\ jest_run (jest_counts jest_one_skipped) = 4
  /\ jest_passed (jest_counts jest_one_skipped) + jest_failed (jest_counts jest_one_skipped)
     = 3.
Proof. repeat split; vm_compute; reflexivity. Qed.

(** C1, amended. For a record without an error message:
    - Python: the four counters add up to [tests_run] when the summary
      line of the captured output yields at least one test, and in the
      fallback count when it counts no skipped line;
    - Java: [tests_run = tests_passed + tests_failed + tests_skipped],
      the errors being part of [tests_failed], so the four counters add
      up exactly when the record has no errored test;
    - Jest: the record has neither an errored nor a skipped counter;
      [tests_run] and [tests_failed] are the figures the [Tests:] line of
      the captured output shows before [total] and [failed], 0 when it
      shows none; [tests_passed] is the figure before [passed], but when
      the total is positive and both the passed and the failed figure
      are 0 it is the total less the failed and the skipped figure; the
      counters add up exactly when [tests_run] is the sum of
      [tests_passed] and [tests_failed], which the parse does not see
      to. *)
Theorem counts_add_up_by_runner :
  forall (W : Type) (E : Env W) (code tests : string) (reqs : list string)
       (m language : string) (w w' : W) (d : dict),
  get d "error" = None ->
  (run_python_tests E code tests reqs m w = (Ok d, w') ->
   tests_run (pytest_summary_counts (str_field d "stdout")) <> 0
   \/ tests_skipped (pytest_fallback_counts (str_field d "stdout")) = 0 ->
   counts_add_up d)
  /\ (run_java_tests E code tests reqs m w = (Ok d, w') ->
      int_field d "tests_run" =
      int_field d "tests_passed" + int_field d "tests_failed"
      + int_field d "tests_skipped"
      /\ (counts_add_up d <-> int_field d "tests_errors" = 0))
  /\ (run_javascript_tests E code tests reqs m language w = (Ok d, w') ->
      let line := jest_tests_line (str_field d "stdout") in
      get d "tests_errors" = None /\ get d "tests_skipped" = None
      /\ int_field d "tests_run" = figure "total" line
      /\ int_field d "tests_failed" = figure "failed" line
      /\ int_field d "tests_passed"
         = (if Z.ltb 0 (figure "total" line) && Z.eqb (figure "passed" line) 0
               && Z.eqb (figure "failed" line) 0
            then figure "total" line - figure "failed" line - figure "skipped" line
            else figure "passed" line)
      /\ (counts_add_up d <->
          int_field d "tests_run" =
          int_field d "tests_passed" + int_field d "tests_failed")).
Proof.
  intros W E code tests reqs m language w w' d Herr. split; [|split].
  - intros Hrun Hcase.
    destruct (run_python_tests_record E _ _ _ _ _ _ _ Hrun Herr) as (result & t & ->).
    apply python_report_adds_up. exact Hcase.
  - intros Hrun.
    pose proof (run_java_tests_adds_up E _ _ _ _ _ _ _ Hrun Herr) as Hsum.
    split; [exact Hsum|]. unfold counts_add_up. lia.
  - intros Hrun line.
    destruct (run_javascript_tests_counters E _ _ _ _ _ _ _ _ Hrun Herr)
      as (He & Hs & Hr & Hp & Hf).
    destruct (jest_counts_figures (str_field d "stdout")) as (Fr & Ff & Fp).
    split; [exact He|]. split; [exact Hs|].
    split; [rewrite Hr; exact Fr|]. split; [rewrite Hf; exact Ff|].
    split; [rewrite Hp; exact Fp|].
    unfold counts_add_up, int_field at 4 5. rewrite He, Hs. lia.
Qed.

Lemma counts_add_up_by_runner_witness : counts_add_up python_run_record.
Proof.
  refine (proj1 (counts_add_up_by_runner Sim.world (Sim.env (Ok O))
                 "def add(a, b): return a + b" python_test [] "m" "python"
                 (Sim.start [Sim.exited 0 pytest_one_passed])
                 (Sim.mkWorld [] [(pytest_cov_cmd "/tmp/sandbox/test_m.py" "m", 120)])
                 python_run_record _) _ _).
  - reflexivity.
  - vm_compute. reflexivity.
  - left. vm_compute. discriminate.
Defined.

(** ** The Java report *)

(** C6, as stated, fails on the build markers: with [COMPILATION ERROR]
    on the standard error only, and with [BUILD FAILURE] behind the
    first 10000 characters of the standard output, the Java runner goes
    on to the Surefire parse and returns a record with the counts of the
    line, without an error message. *)
Lemma java_marker_outside_the_parsed_text :
  (exists d w',
      run_java_tests (Sim.env (Ok O)) calc_java junit_test [] "calc"
        (Sim.start [exited_with 1 surefire_two_passed "COMPILATION ERROR"]) = (Ok d, w')
      /\ get d "error" = None
      /\ get d "tests_run" = Some (VInt 2)
      /\ get d "tests_passed" = Some (VInt 2)
      /\ ~ zero_counts d)
  /\ (exists d w',
         run_java_tests (Sim.env (Ok O)) calc_java junit_test [] "calc"
           (Sim.start [exited_with 1
                         (surefire_two_passed ++ spaces (100 * 100) ++ "BUILD FAILURE") ""])
         = (Ok d, w')
         /\ get d "error" = None
         /\ get d "tests_run" = Some (VInt 2)
         /\ get d "tests_passed" = Some (VInt 2)
         /\ ~ zero_counts d).
Proof.
  split.
  - eexists. eexists. split; [vm_compute; reflexivity|].
    repeat split; try reflexivity. intros (H & _). discriminate H.
  - eexists. eexists. split; [vm_compute; reflexivity|].
    repeat split; try reflexivity. intros (H & _). discriminate H.
Qed.

(** C6, amended. The Java parser reads the first 10000 characters of
    each stream of Maven. Where that text shows none of the build markers
    and its first match of the Surefire pattern is the line
    [Tests run: X, Failures: Y, Errors: Z, Skipped: W], with numerals of
    at most 4300 digits, it returns [tests_failed = Y + Z] and
    [tests_passed = X - tests_failed - W], with [success] by the exit
    code and no error message. Where the text of the standard output
    contains [BUILD FAILURE] or [COMPILATION ERROR], or the text of the
    standard error contains [BUILD FAILURE], it returns at once the
    failure record, with [success] false and every count zero, whatever
    Surefire line the output holds, and without a further step in the
    world. *)
Theorem java_parser_surefire_and_build_markers :
  forall (W : Type) (E : Env W) (tmpdir : string) (result : CompletedProcess)
         (t : Q) (w : W),
    let out := PyStr.slice_to 10000 (stdout result) in
    let err := PyStr.slice_to 10000 (stderr result) in
    (forall pre x y z k post : string,
        numeral x = true -> numeral y = true -> numeral z = true -> numeral k = true ->
        (String.length x <= 4300)%nat -> (String.length y <= 4300)%nat ->
        (String.length z <= 4300)%nat -> (String.length k <= 4300)%nat ->
        Re.stops PyStr.is_digit post = true ->
        out = pre ++ surefire_line x y z k ++ post ->
        (forall i, (i < String.length pre)%nat ->
           Re.match_here surefire_re (PyStr.drop i out) = None) ->
        PyStr.contains "BUILD FAILURE" out = false ->
        PyStr.contains "COMPILATION ERROR" out = false ->
        PyStr.contains "BUILD FAILURE" err = false ->
        exists d w',
          java_report E tmpdir result t w = (Ok d, w')
          /\ get d "tests_run" = Some (VInt (PyStr.int_of x))
          /\ get d "tests_failed" = Some (VInt (PyStr.int_of y + PyStr.int_of z))
          /\ get d "tests_passed"
             = Some (VInt (PyStr.int_of x - (PyStr.int_of y + PyStr.int_of z)
                           - PyStr.int_of k))
          /\ get d "tests_errors" = Some (VInt (PyStr.int_of z))
          /\ get d "tests_skipped" = Some (VInt (PyStr.int_of k))
          /\ get d "success" = Some (VBool (Z.eqb (returncode result) 0))
          /\ get d "error" = None)
    /\ (PyStr.contains "BUILD FAILURE" out = true
        \/ PyStr.contains "COMPILATION ERROR" out = true
        \/ PyStr.contains "BUILD FAILURE" err = true ->
        let d := java_failure_with_output (build_error_msg out) out err in
        java_report E tmpdir result t w = (Ok d, w)
        /\ get d "success" = Some (VBool false)
        /\ has d "error" = true
        /\ zero_counts d).
Proof.
  intros W E tmpdir result t w out err. split.
  - intros pre x y z k post Hx Hy Hz Hk _ _ _ _ Hpost Hout Hfirst Hb1 Hb2 Hb3.
    unfold java_report. fold out. fold err.
    unfold build_failed. rewrite Hb1, Hb2, Hb3. cbn [orb].
    unfold surefire_counts.
    rewrite Hout in Hfirst |- *.
    rewrite (ReFacts.surefire_search_line pre x y z k post Hx Hy Hz Hk Hpost Hfirst).
    unfold jacoco_coverage. unfold_monad. cbv beta iota.
    destruct (path_exists E _ w) as [[|] w1].
    + destruct (read_text E _ w1) as [[content|e] w2].
      * destruct (Re.search1 jacoco_re content);
          eexists; eexists; repeat split; reflexivity.
      * eexists; eexists; repeat split; reflexivity.
    + eexists; eexists; repeat split; reflexivity.
  - intros Hmarker d. unfold java_report. fold out. fold err.
    assert (Hb : build_failed out err = true).
    { unfold build_failed. destruct Hmarker as [H|[H|H]]; rewrite H;
        repeat rewrite orb_true_r; reflexivity. }
    rewrite Hb. repeat split.
Qed.

Lemma java_parser_surefire_and_build_markers_witness :
  (exists d w',
      java_report (Sim.env (Ok O)) "/tmp/sandbox" (mkCompleted 1 surefire_report "") 0
        (Sim.start []) = (Ok d, w')
      /\ get d "tests_run" = Some (VInt 3)
      /\ get d "tests_failed" = Some (VInt 2)
      /\ get d "tests_passed" = Some (VInt 1))
  /\ (exists d,
        java_report (Sim.env (Ok O)) "/tmp/sandbox"
          (mkCompleted 1 surefire_report "[ERROR] BUILD FAILURE") 0 (Sim.start [])
        = (Ok d, Sim.start [])
        /\ zero_counts d).
Proof.
  pose proof (java_parser_surefire_and_build_markers Sim.world (Sim.env (Ok O))
                "/tmp/sandbox" (mkCompleted 1 surefire_report "") 0 (Sim.start []))
    as [Hline _].
  pose proof (java_parser_surefire_and_build_markers Sim.world (Sim.env (Ok O))
                "/tmp/sandbox" (mkCompleted 1 surefire_report "[ERROR] BUILD FAILURE") 0
                (Sim.start []))
    as [_ Hbuild].
  split.
  - destruct (Hline "[INFO] " "3" "1" "1" "0" PyStr.nl) as (d & w' & Hrun & H1 & H2 & H3 & _);
      try reflexivity; try (simpl; lia).
    + intros i Hi.
      do 7 (destruct i as [|i]; [vm_compute; reflexivity|]).
      simpl in Hi. lia.
    + exists d, w'. split; [exact Hrun|]. split; [exact H1|]. split; [exact H2 | exact H3].
  - destruct (Hbuild (or_intror (or_intror eq_refl))) as (Hrun & _ & _ & Hzero).
    eexists. split; [exact Hrun | exact Hzero].
Defined.

(** ** Time-outs of the test step *)

Section Timeouts.

Context {W : Type} (E : Env W).

(** The Python runner reports the bound it gave to pytest. *)
Lemma python_test_step_timeout tmpdir test_file m w t0 w1 msg w2 :
  time_time E w = (t0, w1) ->
  subprocess_run E (pytest_cov_cmd test_file m) (Some tmpdir) 120 w1
  = (Raise (TimeoutExpired msg), w2) ->
  python_test_step E tmpdir test_file m w = (Ok python_timeout, w2)
  /\ get python_timeout "execution_time" = Some (VFloat 120).
Proof.
  intros Ht Hrun. unfold python_test_step. unfold_monad.
  rewrite Ht, Hrun. split; reflexivity.
Qed.

(** The Java runner reports the bound it gave to Maven. *)
Lemma java_test_step_timeout tmpdir w t0 w1 msg w2 :
  time_time E w = (t0, w1) ->
  subprocess_run E mvn_cmd (Some tmpdir) 300 w1 = (Raise (TimeoutExpired msg), w2) ->
  java_test_step E tmpdir w = (Ok java_timeout, w2)
  /\ get java_timeout "execution_time" = Some (VFloat 300).
Proof.
  intros Ht Hrun. unfold java_test_step. unfold_monad.
  rewrite Ht, Hrun. split; reflexivity.
Qed.

(** The JavaScript runner reports 300 seconds for the test step, which
    it runs under a bound of 120 seconds. *)
Lemma js_test_step_timeout tmpdir language w t0 w1 install w2 msg w3 :
  time_time E w = (t0, w1) ->
  subprocess_run E npm_install_cmd (Some tmpdir) 180 w1 = (Ok install, w2) ->
  returncode install = 0 ->
  subprocess_run E npm_test_cmd (Some tmpdir) 120 w2 = (Raise (TimeoutExpired msg), w3) ->
  js_test_step E tmpdir language w = (Ok (js_timeout language (TimeoutExpired msg)), w3)
  /\ get (js_timeout language (TimeoutExpired msg)) "execution_time" = Some (VFloat 300).
Proof.
  intros Ht Hinstall Hrc Hrun. unfold js_test_step, js_install_and_test. unfold_monad.
  rewrite Ht, Hinstall, Hrc. cbn [negb Z.eqb]. cbv beta iota.
  rewrite Hrun. split; reflexivity.
Qed.

End Timeouts.

(** C7 at the failing input: [npm install] succeeds and [npm test] runs
    into its bound of 120 seconds. The record of the JavaScript runner has
    [success] false, an error message that names the time-out and zero
    counts, but an [execution_time] of 300 seconds, not 120. *)
Theorem js_test_timeout_reports_300 :
  exists d w',
    run_javascript_tests (Sim.env (Ok O)) "export const add = (a, b) => a + b;"
      jest_test [] "calc" "javascript"
      (Sim.start [Sim.exited 0 ""; timed_out "120"]) = (Ok d, w')
    /\ Sim.log w' = [(npm_install_cmd, 180); (npm_test_cmd, 120)]
    /\ get d "success" = Some (VBool false)
    /\ PyStr.contains "timeout" (str_field d "error") = true
    /\ zero_counts d
    /\ get d "execution_time" = Some (VFloat 300)
    /\ get d "execution_time" <> Some (VFloat 120).
Proof.
  eexists. eexists. split; [vm_compute; reflexivity|].
  repeat split; try reflexivity. discriminate.
Qed.

(** ** The check of the test code before a run *)




(** ** A failed install step *)

(** C9. With the project written, an install step that exits with a
    code other than 0 leaves the Python runner to go on with the test
    step, from the world the install left, and the record is the one of
    that step; the JavaScript runner returns its failure record, with
    zero counts and the message of npm, and only leaves the temporary
    directory: no test process is started. *)
Theorem install_failure_python_goes_on_javascript_stops :
  forall (W : Type) (E : Env W) (code tests : string) (reqs : list string)
         (m language tmpdir : string) (w w1 w2 w3 w4 : W) (t0 : Q)
         (install : CompletedProcess),
    returncode install <> 0 ->
    mkdtemp E w = (Ok tmpdir, w1) ->
    (fst (_validate_python_tests E tests) = true ->
     reqs <> [] ->
     write_text E (path_join tmpdir (m ++ ".py")) code w1 = (Ok tt, w2) ->
     write_text E (path_join tmpdir ("test_" ++ m ++ ".py")) (with_path_setup tests) w2
     = (Ok tt, w3) ->
     subprocess_run E (pip_install reqs) None 120 w3 = (Ok install, w4) ->
     run_python_tests E code tests reqs m w
     = try_finally (python_test_step E tmpdir (path_join tmpdir ("test_" ++ m ++ ".py")) m)
         (rmtree E tmpdir) w4)
    /\ (fst (_validate_javascript_tests tests language) = true ->
        _create_nodejs_project E tmpdir m code tests language w1 = (Ok tt, w2) ->
        time_time E w2 = (t0, w3) ->
        subprocess_run E npm_install_cmd (Some tmpdir) 180 w3 = (Ok install, w4) ->
        let d := js_failure language ("npm install failed: " ++ stderr install) in
        run_javascript_tests E code tests reqs m language w
        = try_finally (ret d) (rmtree E tmpdir) w4
        /\ get d "success" = Some (VBool false)
        /\ zero_counts d
        /\ has d "error" = true).
Proof.
  intros W E code tests reqs m language tmpdir w w1 w2 w3 w4 t0 install Hrc Htmp.
  split.
  - intros Hvalid Hreqs Hcode Htests Hpip.
    unfold run_python_tests.
    destruct (_validate_python_tests E tests) as [valid msg]. simpl in Hvalid. subst valid.
    destruct reqs as [|r reqs]; [contradiction|].
    unfold python_install_step. unfold_monad. cbn [negb]. cbv beta iota.
    rewrite Htmp. cbv beta iota. rewrite Hcode. cbv beta iota.
    rewrite Htests. cbv beta iota. rewrite Hpip. reflexivity.
  - intros Hvalid Hproject Ht Hnpm d.
    split; [|repeat split].
    unfold run_javascript_tests.
    destruct (_validate_javascript_tests tests language) as [valid msg].
    simpl in Hvalid. subst valid.
    unfold js_test_step, js_install_and_test. unfold_monad. cbn [negb]. cbv beta iota.
    rewrite Htmp. cbv beta iota. rewrite Hproject. cbv beta iota.
    rewrite Ht. cbv beta iota. rewrite Hnpm. cbv beta iota.
    destruct (Z.eqb_spec (returncode install) 0) as [Hz|Hz]; [contradiction|].
    reflexivity.
Qed.

Lemma install_failure_python_goes_on_javascript_stops_witness :
  (exists d w',
      run_python_tests (Sim.env (Ok O)) "def add(a, b): return a + b" python_test
        ["requests"] "m" (Sim.start [Sim.exited 1 ""; Sim.exited 0 pytest_one_passed])
      = (Ok d, w')
      /\ get d "tests_run" = Some (VInt 3)
      /\ Sim.log w' = [(pip_install ["requests"], 120);
                       (pytest_cov_cmd "/tmp/sandbox/test_m.py" "m", 120)])
  /\ (exists d w',
         run_javascript_tests (Sim.env (Ok O)) "export const add = (a, b) => a + b;"
           jest_test [] "calc" "javascript" (Sim.start [Sim.exited 1 ""; Sim.exited 0 ""])
         = (Ok d, w')
         /\ get d "error" = Some (VStr "npm install failed: ")
         /\ Sim.log w' = [(npm_install_cmd, 180)]).
Proof.
  split.
  - destruct (install_failure_python_goes_on_javascript_stops Sim.world (Sim.env (Ok O))
                "def add(a, b): return a + b" python_test ["requests"] "m" "python"
                "/tmp/sandbox"
                (Sim.start [Sim.exited 1 ""; Sim.exited 0 pytest_one_passed])
                (Sim.start [Sim.exited 1 ""; Sim.exited 0 pytest_one_passed])
                (Sim.start [Sim.exited 1 ""; Sim.exited 0 pytest_one_passed])
                (Sim.start [Sim.exited 1 ""; Sim.exited 0 pytest_one_passed])
                (Sim.mkWorld [Sim.exited 0 pytest_one_passed]
                   [(pip_install ["requests"], 120)])
                0%Q (mkCompleted 1 "" ""))
      as [Hpy _]; [discriminate | reflexivity |].
    rewrite Hpy; try reflexivity; [|discriminate].
    eexists. eexists. split; [vm_compute; reflexivity|]. split; reflexivity.
  - destruct (install_failure_python_goes_on_javascript_stops Sim.world (Sim.env (Ok O))
                "export const add = (a, b) => a + b;" jest_test [] "calc" "javascript"
                "/tmp/sandbox"
                (Sim.start [Sim.exited 1 ""; Sim.exited 0 ""])
                (Sim.start [Sim.exited 1 ""; Sim.exited 0 ""])
                (Sim.start [Sim.exited 1 ""; Sim.exited 0 ""])
                (Sim.start [Sim.exited 1 ""; Sim.exited 0 ""])
                (Sim.mkWorld [Sim.exited 0 ""] [(npm_install_cmd, 180)])
                0%Q (mkCompleted 1 "" ""))
      as [_ Hjs]; [discriminate | reflexivity |].
    destruct Hjs as [Hrun _]; try reflexivity.
    rewrite Hrun.
    eexists. eexists. split; [vm_compute; reflexivity|]. split; reflexivity.
Defined.

(** ** The local backend for Java and JavaScript *)

(** C10, as stated, fails: the compiler is present and exits in time
    with code 1; the local backend for Java reports no test at all. *)
Lemma local_java_compile_failure_reports_no_test :
  exists d w',
    run_tests_locally (Sim.env (Ok O)) calc_java junit_test [] "calc" "java"
      (Sim.start [Sim.exited 1 ""]) = (Ok d, w')
    /\ Sim.log w' = [(["javac"; "/tmp/sandbox/Calc.java"; "/tmp/sandbox/CalcTest.java"], 60)]
    /\ get d "error" = Some (VStr "Compilation failed: ")
    /\ get d "tests_run" = Some (VInt 0)
    /\ get d "tests_run" <> Some (VInt 1).
Proof.
  eexists. eexists. split; [vm_compute; reflexivity|].
  repeat split; try reflexivity. discriminate.
Qed.

(** C10, amended. A record of the local backend for Java, JavaScript
    or TypeScript that carries no error message (the run met no time-out,
    no missing tool and, for Java, no failed compilation) is the record
    of the test process: the process was started in the temporary
    directory of the request with the command line of the language
    ([java <Class>Test], [node <module>.test.<ext>]), the record carries
    its exit code and its output, and it reports exactly one test,
    passed when that exit code is 0 and failed otherwise. *)
Theorem local_java_js_report_one_test :
  forall (W : Type) (E : Env W) (code tests : string) (reqs : list string)
         (m language : string) (w w' : W) (d : dict),
    in_list language ["java"; "javascript"; "typescript"] = true ->
    run_tests_locally E code tests reqs m language w = (Ok d, w') ->
    get d "error" = None ->
    exists (tmpdir : string) (w0 w1 w2 : W) (p : CompletedProcess),
      mkdtemp E w = (Ok tmpdir, w0)
      /\ subprocess_run E (fst (local_test_command language code m tmpdir))
           (Some tmpdir) (snd (local_test_command language code m tmpdir)) w1
         = (Ok p, w2)
      /\ get d "exit_code" = Some (VInt (returncode p))
      /\ get d "stdout" = Some (VStr (stdout p))
      /\ get d "tests_run" = Some (VInt 1)
      /\ get d "tests_passed" = Some (VInt (if Z.eqb (returncode p) 0 then 1 else 0))
      /\ get d "tests_failed" = Some (VInt (if Z.eqb (returncode p) 0 then 0 else 1))
      /\ get d "success" = Some (VBool (Z.eqb (returncode p) 0)).
Proof.
  intros W E code tests reqs m language w w' d Hlang Hrun Herr.
  unfold run_tests_locally in Hrun.
  assert (Hsup : in_list language supported_languages = true).
  { unfold in_list, supported_languages in *. simpl in *.
    destruct (String.eqb language "java"), (String.eqb language "javascript"),
      (String.eqb language "typescript"), (String.eqb language "python");
      simpl in *; congruence. }
  rewrite Hsup in Hrun. cbn [negb] in Hrun.
  assert (Hpy : String.eqb language "python" = false).
  { unfold in_list in Hlang. simpl in Hlang.
    destruct (String.eqb_spec language "python") as [->|]; [discriminate|reflexivity]. }
  rewrite Hpy in Hrun. unfold local_test_command. rewrite Hpy.
  destruct (String.eqb language "java"); cbn [fst snd].
  - unfold _run_java_tests_locally in Hrun.
    run_cases Hrun; try discriminate Herr;
      do 5 eexists; (split; [reflexivity|]); (split; [eassumption|]);
      repeat split; reflexivity.
  - unfold _run_js_tests_locally in Hrun.
    run_cases Hrun; try discriminate Herr;
      do 5 eexists; (split; [reflexivity|]); (split; [eassumption|]);
      repeat split; reflexivity.
Qed.

Lemma local_java_js_report_one_test_witness :
  exists (tmpdir : string) (w0 w1 w2 : Sim.world) (p : CompletedProcess),
    mkdtemp (Sim.env (Ok O)) (Sim.start [Sim.exited 0 ""; Sim.exited 1 "FAILED"])
    = (Ok tmpdir, w0)
    /\ subprocess_run (Sim.env (Ok O))
         (fst (local_test_command "java" calc_java "calc" tmpdir))
         (Some tmpdir) (snd (local_test_command "java" calc_java "calc" tmpdir)) w1
       = (Ok p, w2)
    /\ get java_run_record "exit_code" = Some (VInt (returncode p))
    /\ get java_run_record "stdout" = Some (VStr (stdout p))
    /\ get java_run_record "tests_run" = Some (VInt 1)
    /\ get java_run_record "tests_passed"
       = Some (VInt (if Z.eqb (returncode p) 0 then 1 else 0))
    /\ get java_run_record "tests_failed"
       = Some (VInt (if Z.eqb (returncode p) 0 then 0 else 1))
    /\ get java_run_record "success" = Some (VBool (Z.eqb (returncode p) 0)).
Proof.
  refine (local_java_js_report_one_test Sim.world (Sim.env (Ok O))
            calc_java junit_test [] "calc" "java"
            (Sim.start [Sim.exited 0 ""; Sim.exited 1 "FAILED"])
            (Sim.mkWorld []
               [(["javac"; "/tmp/sandbox/Calc.java"; "/tmp/sandbox/CalcTest.java"], 60);
                (["java"; "CalcTest"], 120)])
            java_run_record _ _ _).
  - reflexivity.
  - vm_compute. reflexivity.
  - reflexivity.
Defined.

(** ** Records of the validator *)

Lemma get_set_other (d : dict) (k k' : string) (v : value) :
  String.eqb k' k = false -> get (set d k v) k' = get d k'.
Proof.
  intros Hne. induction d as [|[k0 v0] d IH]; simpl.
  - rewrite Hne. reflexivity.
  - destruct (String.eqb_spec k k0) as [->|Hk]; simpl.
    + rewrite Hne. reflexivity.
    + destruct (String.eqb k' k0); [reflexivity | exact IH].
Qed.

Lemma get_set_same (d : dict) (k : string) (v : value) :
  get (set d k v) k = Some v.
Proof.
  induction d as [|[k0 v0] d IH]; simpl.
  - rewrite String.eqb_refl. reflexivity.
  - destruct (String.eqb_spec k k0) as [->|Hk]; simpl.
    + rewrite String.eqb_refl. reflexivity.
    + destruct (String.eqb_spec k k0); [contradiction | exact IH].
Qed.

Lemma run_record_set (d : dict) (k : string) (v : value) :
  in_list k ["success"; "tests_run"; "tests_passed"; "error"] = false ->
  run_record d = true -> run_record (set d k v) = true.
Proof.
  intros Hk. unfold run_record, failure_marked, has.
  unfold in_list in Hk. simpl in Hk.
  repeat (apply orb_false_elim in Hk as [? Hk]).
  rewrite !get_set_other by (rewrite String.eqb_sym; assumption).
  auto.
Qed.

Section Records.
Context {W : Type} (E : Env W) (MODAL_AVAILABLE MODAL_EXECUTOR_AVAILABLE : bool).

Lemma run_tests_locally_record code tests reqs m language w d w' :
  run_tests_locally E code tests reqs m language w = (Ok d, w') ->
  run_record d = true.
Proof.
  unfold run_tests_locally, _run_python_tests_locally, _run_java_tests_locally,
    _run_js_tests_locally.
  intros H. run_cases H; reflexivity.
Qed.

Lemma execute_in_modal_total code tests reqs m language w :
  exists d w',
    execute_in_modal E MODAL_AVAILABLE code tests reqs m language w = (Ok d, w')
    /\ run_record d = true.
Proof.
  unfold execute_in_modal, _execute_python_in_sandbox, _execute_java_in_sandbox,
    _execute_javascript_in_sandbox.
  unfold_monad. cbv beta iota.
  repeat (branch_goal; cbv beta iota);
    eexists; eexists; (split; [reflexivity|]); reflexivity.
Qed.

Lemma run_tests_in_sandbox_record code tests reqs m language w d w' :
  run_tests_in_sandbox E MODAL_AVAILABLE MODAL_EXECUTOR_AVAILABLE
    code tests reqs m language w = (Ok d, w') ->
  run_record d = true.
Proof.
  unfold run_tests_in_sandbox. destruct MODAL_EXECUTOR_AVAILABLE.
  - unfold try_except.
    destruct (execute_in_modal_total code tests reqs m language w)
      as (d0 & w0 & -> & Hd0).
    intros [= <- <-]. exact Hd0.
  - apply run_tests_locally_record.
Qed.

Lemma log_passed_of_run_ok (d : dict) (w : W) :
  run_record d = true -> log_passed_of_run d w = (Ok tt, w).
Proof.
  unfold run_record, has, log_passed_of_run, getitem. intros H.
  destruct (get d "success"); [|discriminate].
  destruct (get d "tests_run"); [|discriminate].
  destruct (get d "tests_passed"); [|discriminate].
  reflexivity.
Qed.

(** The local leg of [validate_transformation], the error boundary of
    the validator. *)
Lemma local_leg_total code tests reqs m language w :
  exists d w',
    try_except
      (results <- run_tests_locally E code tests reqs m language ;;
       log_passed_of_run results ;;; ret results)%py
      (fun e => ret (validation_failed e)) w = (Ok d, w')
    /\ run_record d = true
    /\ (forall e w1, run_tests_locally E code tests reqs m language w = (Raise e, w1) ->
                     d = validation_failed e /\ w' = w1).
Proof.
  unfold try_except, bind.
  destruct (run_tests_locally E code tests reqs m language w) as [[d|e] w1] eqn:Hrun.
  - rewrite (log_passed_of_run_ok d w1) by (eapply run_tests_locally_record; eauto).
    eexists; eexists; split; [reflexivity|]. split.
    + eapply run_tests_locally_record; eauto.
    + intros e w2 [=].
  - eexists; eexists; split; [reflexivity|]. split; [reflexivity|].
    intros e' w2 [= <- <-]. split; reflexivity.
Qed.

End Records.

Lemma validate_transformation_records {W : Type} (E : Env W)
    (MODAL_AVAILABLE MODAL_EXECUTOR_AVAILABLE : bool)
    (self : ModalSandboxValidator) (original_code modernized_code tests : string)
    (requirements : option (list string)) (file_path : option string) (w : W) :
  exists d w',
    validate_transformation E MODAL_AVAILABLE MODAL_EXECUTOR_AVAILABLE self
      original_code modernized_code tests requirements file_path w = (Ok d, w')
    /\ run_record d = true.
Proof.
  unfold validate_transformation.
  set (language := _detect_language file_path modernized_code).
  set (reqs := match requirements with
               | Some r => r
               | None => _extract_requirements modernized_code language
               end).
  set (m := module_name_of file_path).
  unfold bind at 1.
  destruct (prefer_modal self && MODAL_AVAILABLE).
  - unfold try_except at 1. unfold bind at 1.
    destruct (run_tests_in_sandbox E MODAL_AVAILABLE MODAL_EXECUTOR_AVAILABLE
                modernized_code tests reqs m language w) as [[d0|e] w0] eqn:Hrun.
    + apply run_tests_in_sandbox_record in Hrun.
      assert (Hd : run_record (set d0 "execution_mode" (VStr "modal")) = true)
        by (apply run_record_set; [reflexivity | exact Hrun]).
      unfold bind. rewrite (log_passed_of_run_ok _ w0 Hd). cbn [ret].
      eexists; eexists; split; [reflexivity|]. exact Hd.
    + cbn [ret].
      destruct (local_leg_total E modernized_code tests reqs m language w0)
        as (d & w' & Hleg & Hd & _).
      exists d, w'. split; [exact Hleg|]. exact Hd.
  - cbn [ret].
    destruct (local_leg_total E modernized_code tests reqs m language w)
      as (d & w' & Hleg & Hd & _).
    exists d, w'. split; [exact Hleg|]. exact Hd.
Qed.


Lemma run_record_shape (d : dict) :
  run_record d = true ->
  has d "success" = true
  /\ (has d "error" = true -> get d "success" = Some (VBool false)).
Proof.
  intros Hd. unfold run_record, failure_marked in Hd.
  apply andb_prop in Hd as [Hd Hm]. apply andb_prop in Hd as [Hd _].
  apply andb_prop in Hd as [Hs _]. split; [exact Hs|].
  intros He. rewrite He in Hm. simpl in Hm. unfold is_false in Hm.
  destruct (get d "success") as [[| [|] | | |]|]; try discriminate. reflexivity.
Qed.

(** ** The language of a request *)

Lemma detect_from_content_supported (code : string) :
  in_list (detect_from_content code) supported_languages = true.
Proof.
  unfold detect_from_content.
  repeat match goal with |- context [if ?b then _ else _] => destruct b end; reflexivity.
Qed.

Lemma _detect_language_supported (file_path : option string) (code : string) :
  in_list (_detect_language file_path code) supported_languages = true.
Proof.
  unfold _detect_language.
  destruct file_path as [[|c path]|]; try apply detect_from_content_supported.
  destruct (assoc _ extension_map) as [language|] eqn:Hext;
    [|apply detect_from_content_supported].
  unfold extension_map in Hext. simpl in Hext.
  repeat match type of Hext with
         | (if ?b then _ else _) = _ => destruct b; [injection Hext as <-; reflexivity|]
         end.
  discriminate.
Qed.

(** ** What a reported success rests on *)

Lemma field_set_other (d : dict) (k k' : string) (v : value) :
  String.eqb k' k = false -> field (set d k v) k' = field d k'.
Proof. intros H. unfold field. rewrite get_set_other by exact H. reflexivity. Qed.

Lemma lower_supported (language : string) :
  in_list language supported_languages = true -> PyStr.lower language = language.
Proof.
  unfold in_list, supported_languages. cbn [existsb]. intros H.
  repeat (apply orb_prop in H as [H|H];
          [apply String.eqb_eq in H; subst; reflexivity|]).
  discriminate.
Qed.

Lemma find_json_line_In (lines : list string) (line : string) :
  find_json_line lines = Some line -> In line lines.
Proof.
  induction lines as [|l lines IH]; [discriminate|]. cbn [find_json_line].
  destruct (PyStr.startswith "{" (PyStr.strip l) && PyStr.contains "numTotalTests" l).
  - intros [= ->]. left. reflexivity.
  - intros H. right. apply IH, H.
Qed.

Section Success.
Context {W : Type} (E : Env W) (MODAL_AVAILABLE MODAL_EXECUTOR_AVAILABLE : bool).

(** A record of the local backend reports success only for a test
    process that came back with exit code 0. *)
Lemma run_tests_locally_success code tests reqs m language w d w' :
  run_tests_locally E code tests reqs m language w = (Ok d, w') ->
  truthy (field d "success") = true ->
  test_passed_locally E language code m.
Proof.
  unfold run_tests_locally, _run_python_tests_locally, _run_java_tests_locally,
    _run_js_tests_locally, test_passed_locally, local_test_process, local_test_command.
  intros H Hs.
  run_cases H; try discriminate Hs;
    repeat match goal with
           | Hl : String.eqb language _ = _ |- _ => rewrite Hl; clear Hl
           end;
    cbn [fst snd];
    eexists; (split; [do 3 eexists; eassumption|]);
    apply Z.eqb_eq; exact Hs.
Qed.

Lemma jest_json_counts_success (p : CompletedProcess) success run passed failed :
  jest_json_counts E (stdout p) (returncode p) = (success, run, passed, failed) ->
  truthy success = true ->
  returncode p = 0 \/ jest_reports_success E p.
Proof.
  unfold jest_json_counts, jest_reports_success.
  destruct (find_json_line (PyStr.split_on "010" (stdout p))) as [line|] eqn:Hline.
  - apply find_json_line_In in Hline.
    destruct (json_loads E line) as [[[[total ps] fl] [v|]]|e] eqn:Hjson.
    + intros [= <- _ _ _] Ht. right. cbn [or_default] in Ht. eauto 10.
    + intros [= <- _ _ _] Ht. discriminate Ht.
    + intros [= <- _ _ _] Ht. left. apply Z.eqb_eq. exact Ht.
  - intros [= <- _ _ _] Ht. left. apply Z.eqb_eq. exact Ht.
Qed.

Lemma execute_in_modal_success code tests reqs m language w d w' :
  execute_in_modal E MODAL_AVAILABLE code tests reqs m language w = (Ok d, w') ->
  truthy (field d "success") = true ->
  test_passed_remotely E (PyStr.lower language) m.
Proof.
  unfold execute_in_modal, _execute_python_in_sandbox, _execute_java_in_sandbox,
    _execute_javascript_in_sandbox, test_passed_remotely, remote_test_process,
    remote_test_command.
  intros H Hs.
  run_cases H; try discriminate Hs;
    repeat match goal with
           | Hl : String.eqb (PyStr.lower _) _ = _ |- _ => rewrite Hl
           end;
    cbn [fst snd]; subst;
    unfold field in Hs; cbn [get String.eqb Ascii.eqb Bool.eqb] in Hs;
    eexists; (split; [do 3 eexists; eassumption|]);
    first [ left; apply Z.eqb_eq; first [exact Hs | assumption]
          | match goal with
            | Hj : jest_json_counts _ _ _ = _ |- _ =>
                destruct (jest_json_counts_success _ _ _ _ _ Hj Hs) as [Hz|Hz];
                [left; exact Hz | right; split; [reflexivity | exact Hz]]
            end ].
Qed.

Lemma run_tests_in_sandbox_success code tests reqs m language w d w' :
  in_list language supported_languages = true ->
  run_tests_in_sandbox E MODAL_AVAILABLE MODAL_EXECUTOR_AVAILABLE
    code tests reqs m language w = (Ok d, w') ->
  truthy (field d "success") = true ->
  if MODAL_EXECUTOR_AVAILABLE
  then test_passed_remotely E language m
  else test_passed_locally E language code m.
Proof.
  intros Hsup. unfold run_tests_in_sandbox. destruct MODAL_EXECUTOR_AVAILABLE.
  - unfold try_except.
    destruct (execute_in_modal_total E MODAL_AVAILABLE code tests reqs m language w)
      as (d0 & w0 & Hexec & _).
    rewrite Hexec. intros [= <- <-] Hs.
    rewrite <- (lower_supported language Hsup).
    eapply execute_in_modal_success; eauto.
  - apply run_tests_locally_success.
Qed.

End Success.

Section Boundary.
Context {W : Type} (E : Env W) (MODAL_AVAILABLE MODAL_EXECUTOR_AVAILABLE : bool).

(** The local leg of the validator returns a record of the local
    backend or, when that raises, the record of a failed validation; it
    reports success only for a test process that came back with exit
    code 0. *)
Lemma local_leg_outcome code tests reqs m language w :
  exists d w',
    try_except
      (results <- run_tests_locally E code tests reqs m language ;;
       log_passed_of_run results ;;; ret results)%py
      (fun e => ret (validation_failed e)) w = (Ok d, w')
    /\ run_record d = true
    /\ (truthy (field d "success") = true -> test_passed_locally E language code m)
    /\ (forall d0 w1, run_tests_locally E code tests reqs m language w = (Ok d0, w1) ->
                      d = d0 /\ w' = w1)
    /\ (forall e w1, run_tests_locally E code tests reqs m language w = (Raise e, w1) ->
                     d = validation_failed e /\ w' = w1).
Proof.
  unfold try_except, bind.
  destruct (run_tests_locally E code tests reqs m language w) as [[d|e] w1] eqn:Hrun.
  - rewrite (log_passed_of_run_ok d w1) by (eapply run_tests_locally_record; eauto).
    eexists; eexists; split; [reflexivity|]. split; [|split; [|split]].
    + eapply run_tests_locally_record; eauto.
    + intros Hs. eapply run_tests_locally_success; eauto.
    + intros d0 w2 [= <- <-]. split; reflexivity.
    + intros e w2 [=].
  - eexists; eexists; split; [reflexivity|]. split; [reflexivity|]. split; [|split].
    + intros Hs. discriminate Hs.
    + intros d0 w2 [=].
    + intros e' w2 [= <- <-]. split; reflexivity.
Qed.

End Boundary.

(** C2. For every input, [validate_transformation] returns a record and
    raises nothing, whatever the file system, the child processes and
    the Modal SDK do. The record is the one of the backend that was used:
    the record of the local backend when that returns one, and the
    record of a failed validation, with the text of the exception as its
    error message, when the local backend raises; the record of the
    remote run, labelled [modal], when Modal is preferred and importable
    and that run returns one. The record has a [success], which is false
    whenever the record carries an error message, and which is true only
    if the test process of the request, on the backend that was used,
    came back with exit code 0 (in the sandbox for JavaScript, if that or
    the report of Jest says so): a directory that cannot be made, a file
    that cannot be written, a process that cannot be started, times out
    or fails, and a sandbox that cannot be created all end in a record
    whose [success] is false. *)
Theorem validate_transformation_never_raises :
  forall (W : Type) (E : Env W) (MODAL_AVAILABLE MODAL_EXECUTOR_AVAILABLE : bool)
         (self : ModalSandboxValidator) (original_code modernized_code tests : string)
         (requirements : option (list string)) (file_path : option string) (w : W),
  let language := _detect_language file_path modernized_code in
  let reqs := match requirements with
              | Some r => r
              | None => _extract_requirements modernized_code language
              end in
  let m := module_name_of file_path in
  exists d w',
    validate_transformation E MODAL_AVAILABLE MODAL_EXECUTOR_AVAILABLE self
      original_code modernized_code tests requirements file_path w = (Ok d, w')
    /\ has d "success" = true
    /\ (has d "error" = true -> get d "success" = Some (VBool false))
    /\ (truthy (field d "success") = true ->
        if prefer_modal self && MODAL_AVAILABLE && MODAL_EXECUTOR_AVAILABLE
        then test_passed_remotely E language m
        else test_passed_locally E language modernized_code m)
    /\ (prefer_modal self && MODAL_AVAILABLE = false ->
        (forall d0 w1,
            run_tests_locally E modernized_code tests reqs m language w = (Ok d0, w1) ->
            d = d0 /\ w' = w1)
        /\ (forall e w1,
              run_tests_locally E modernized_code tests reqs m language w = (Raise e, w1) ->
              d = validation_failed e /\ w' = w1
              /\ get d "success" = Some (VBool false)
              /\ get d "error" = Some (VStr (exn_str e))))
    /\ (prefer_modal self && MODAL_AVAILABLE = true ->
        forall d0 w1,
          run_tests_in_sandbox E MODAL_AVAILABLE MODAL_EXECUTOR_AVAILABLE
            modernized_code tests reqs m language w = (Ok d0, w1) ->
          d = set d0 "execution_mode" (VStr "modal") /\ w' = w1).
Proof.
  intros W E MA MEA self oc mc tests requirements file_path w language reqs m.
  assert (Hsup : in_list language supported_languages = true)
    by apply _detect_language_supported.
  unfold validate_transformation. fold language. fold reqs. fold m.
  unfold bind at 1.
  destruct (prefer_modal self && MA) eqn:Hprefer.
  - unfold try_except at 1. unfold bind at 1.
    destruct (run_tests_in_sandbox E MA MEA mc tests reqs m language w)
      as [[d0|e] w0] eqn:Hrun.
    + pose proof (run_tests_in_sandbox_record E MA MEA _ _ _ _ _ _ _ _ Hrun) as Hd0.
      assert (Hd : run_record (set d0 "execution_mode" (VStr "modal")) = true)
        by (apply run_record_set; [reflexivity | exact Hd0]).
      unfold bind. rewrite (log_passed_of_run_ok _ w0 Hd). cbn [ret].
      eexists; eexists; split; [reflexivity|].
      destruct (run_record_shape _ Hd) as [Hs He].
      split; [exact Hs|]. split; [exact He|]. split; [|split; [discriminate|]].
      * rewrite field_set_other by reflexivity. cbn [andb].
        apply (run_tests_in_sandbox_success E MA MEA _ _ _ _ _ _ _ _ Hsup Hrun).
      * intros _ d1 w1 [= <- <-]. split; reflexivity.
    + cbn [ret].
      assert (HMEA : MEA = false).
      { destruct MEA; [|reflexivity]. unfold run_tests_in_sandbox, try_except in Hrun.
        destruct (execute_in_modal_total E MA mc tests reqs m language w)
          as (d1 & w1 & Hexec & _).
        rewrite Hexec in Hrun. discriminate Hrun. }
      destruct (local_leg_outcome E mc tests reqs m language w0)
        as (d & w' & Hleg & Hd & Hsucc & _).
      exists d, w'. split; [exact Hleg|].
      destruct (run_record_shape _ Hd) as [Hs He].
      split; [exact Hs|]. split; [exact He|]. split; [|split; [discriminate|]].
      * rewrite HMEA, andb_false_r. exact Hsucc.
      * intros _ d1 w1 [=].
  - cbn [ret andb].
    destruct (local_leg_outcome E mc tests reqs m language w)
      as (d & w' & Hleg & Hd & Hsucc & Hok & Hraise).
    exists d, w'. split; [exact Hleg|].
    destruct (run_record_shape _ Hd) as [Hs He].
    split; [exact Hs|]. split; [exact He|]. split; [exact Hsucc|].
    split; [|discriminate].
    intros _. split; [exact Hok|].
    intros e w1 Hr. destruct (Hraise e w1 Hr) as [-> ->].
    repeat split.
Qed.

Lemma validate_transformation_never_raises_witness :
  exists d w',
    validate_transformation (Sim.env connection_refused) true false modal_validator
      add_py add_py "def test_add(): assert add(2, 3) == 5" None (Some "m.py")
      (Sim.start [Raise (Other "Permission denied"); Raise (Other "Permission denied")])
    = (Ok d, w')
    /\ get d "success" = Some (VBool false)
    /\ get d "error" = Some (VStr "Permission denied")
    /\ get d "execution_mode" = Some (VStr "failed")
    /\ Sim.log w' = [(pytest_cmd "/tmp/sandbox/test_m.py", 120);
                     (pytest_cmd "/tmp/sandbox/test_m.py", 120)].
Proof.
  destruct (validate_transformation_never_raises Sim.world (Sim.env connection_refused)
              true false modal_validator add_py add_py
              "def test_add(): assert add(2, 3) == 5" None (Some "m.py")
              (Sim.start [Raise (Other "Permission denied");
                          Raise (Other "Permission denied")]))
    as (d & w' & Hrun & _).
  exists d, w'. split; [exact Hrun|].
  vm_compute in Hrun. injection Hrun as <- <-. repeat split.
Defined.

(** ** The fallback from Modal to the local backend *)

Section Fallback.
Context {W : Type} (E : Env W).

(** With Modal preferred and its executor imported, the validator
    returns what the executor returns, labelled [modal]: the local
    backend is not reached. *)
Lemma preferred_modal_returns_executor_record
    (self : ModalSandboxValidator) (original_code modernized_code tests : string)
    (requirements : option (list string)) (file_path : option string) (w : W) :
  prefer_modal self = true ->
  exists d w',
    execute_in_modal E true modernized_code tests
      (match requirements with
       | Some r => r
       | None => _extract_requirements modernized_code
                   (_detect_language file_path modernized_code)
       end)
      (module_name_of file_path) (_detect_language file_path modernized_code) w
    = (Ok d, w')
    /\ validate_transformation E true true self original_code modernized_code tests
         requirements file_path w
       = (Ok (set d "execution_mode" (VStr "modal")), w').
Proof.
  intros Hprefer. unfold validate_transformation. rewrite Hprefer.
  set (language := _detect_language file_path modernized_code).
  set (reqs := match requirements with
               | Some r => r
               | None => _extract_requirements modernized_code language
               end).
  set (m := module_name_of file_path).
  destruct (execute_in_modal_total E true modernized_code tests reqs m language w)
    as (d & w' & Hexec & Hd).
  exists d, w'. split; [exact Hexec|].
  unfold run_tests_in_sandbox. cbn [andb].
  unfold bind at 1. unfold try_except at 1. unfold bind at 1.
  unfold try_except at 1. rewrite Hexec.
  assert (Hd' : run_record (set d "execution_mode" (VStr "modal")) = true)
    by (apply run_record_set; [reflexivity | exact Hd]).
  unfold bind. rewrite (log_passed_of_run_ok _ w' Hd'). reflexivity.
Qed.

End Fallback.

(** C3 at the failing input: Modal is preferred, its executor is
    imported, [Sandbox.create] raises, and pytest on the host passes the
    one test, which imports the module. The validator returns the record
    of the executor's handler, labelled [modal], with [success] false and
    no test counted; no process is started on the host. The local
    backend, asked the same from the same world, reports the test as
    passed under the label [local]. *)
Theorem modal_failure_is_not_retried_locally :
  let E := Sim.env connection_refused in
  let w := Sim.start [Sim.exited 0 pytest_passed] in
  (exists d w',
      validate_transformation E true true modal_validator
        add_code add_code add_module_test None None w = (Ok d, w')
      /\ w' = w
      /\ Sim.log w' = []
      /\ get d "execution_mode" = Some (VStr "modal")
      /\ get d "success" = Some (VBool false)
      /\ get d "error" = Some (VStr "Modal sandbox error: connection refused")
      /\ get d "tests_run" = Some (VInt 0))
  /\ (exists d w',
         run_tests_locally E add_code add_module_test
           (_extract_requirements add_code (_detect_language None add_code))
           (module_name_of None) (_detect_language None add_code) w = (Ok d, w')
         /\ Sim.log w' = [(pytest_cmd "/tmp/sandbox/test_module.py", 120)]
         /\ get d "execution_mode" = Some (VStr "local")
         /\ get d "success" = Some (VBool true)
         /\ get d "tests_run" = Some (VInt 1)
         /\ get d "tests_passed" = Some (VInt 1)).
Proof.
  split.
  - eexists. eexists. split; [vm_compute; reflexivity|]. repeat split; reflexivity.
  - eexists. eexists. split; [vm_compute; reflexivity|]. repeat split; reflexivity.
Qed.

(** ** Batches *)

Section BatchRecords.
Context {W : Type} (E : Env W) (MODAL_AVAILABLE MODAL_EXECUTOR_AVAILABLE : bool).

Lemma batch_item_local_recorded (t : transformation) (w : W) :
  batch_item_local E t w
  = (Ok (recorded t false
           (fst (batch_run E MODAL_AVAILABLE MODAL_EXECUTOR_AVAILABLE false t w))),
     snd (batch_run E MODAL_AVAILABLE MODAL_EXECUTOR_AVAILABLE false t w)).
Proof.
  unfold batch_item_local, batch_run, item_module, item_language, try_except, bind, ret.
  destruct (run_tests_locally E _ _ _ _ _ w) as [[d|e] w1]; reflexivity.
Qed.

Lemma batch_item_modal_recorded (t : transformation) (w : W) :
  batch_item_modal E MODAL_AVAILABLE MODAL_EXECUTOR_AVAILABLE t w
  = (Ok (recorded t true
           (fst (batch_run E MODAL_AVAILABLE MODAL_EXECUTOR_AVAILABLE true t w))),
     snd (batch_run E MODAL_AVAILABLE MODAL_EXECUTOR_AVAILABLE true t w)).
Proof.
  unfold batch_item_modal, batch_run, item_module, item_language, try_except, bind, ret.
  destruct (run_tests_in_sandbox E _ _ _ _ _ _ _ w) as [[d|e] w1]; reflexivity.
Qed.

(** The record of an item: the path of the item, a [success] that is
    false with an error message, and true only for a test process that
    came back with exit code 0. *)
Lemma recorded_item (remote : bool) (t : transformation) (w : W) :
  let d := recorded t remote
             (fst (batch_run E MODAL_AVAILABLE MODAL_EXECUTOR_AVAILABLE remote t w)) in
  get d "file_path" = Some (VStr (t_path t))
  /\ has d "success" = true
  /\ (has d "error" = true -> get d "success" = Some (VBool false))
  /\ (truthy (field d "success") = true ->
      if remote && MODAL_EXECUTOR_AVAILABLE
      then test_passed_remotely E (item_language t) (item_module t)
      else test_passed_locally E (item_language t) (t_modernized_code t) (item_module t)).
Proof.
  assert (Hsup : in_list (item_language t) supported_languages = true)
    by apply _detect_language_supported.
  unfold batch_run. destruct remote; cbn [andb].
  - destruct (run_tests_in_sandbox E _ _ _ _ _ _ _ w) as [[r|e] w1] eqn:Hrun;
      cbn [fst recorded].
    + pose proof (run_tests_in_sandbox_record E _ _ _ _ _ _ _ _ _ _ Hrun) as Hr.
      destruct (run_record_shape _ Hr) as [Hs He].
      split; [rewrite get_set_other by reflexivity; apply get_set_same|].
      split; [unfold has; rewrite !get_set_other by reflexivity; exact Hs|].
      split.
      * unfold has. rewrite !get_set_other by reflexivity. exact He.
      * rewrite !field_set_other by reflexivity.
        apply (run_tests_in_sandbox_success E _ _ _ _ _ _ _ _ _ _ Hsup Hrun).
    + repeat split. intros Hs. discriminate Hs.
  - destruct (run_tests_locally E _ _ _ _ _ w) as [[r|e] w1] eqn:Hrun;
      cbn [fst recorded].
    + pose proof (run_tests_locally_record E _ _ _ _ _ _ _ _ Hrun) as Hr.
      destruct (run_record_shape _ Hr) as [Hs He].
      split; [apply get_set_same|].
      split; [unfold has; rewrite !get_set_other by reflexivity; exact Hs|].
      split.
      * unfold has. rewrite !get_set_other by reflexivity. exact He.
      * rewrite !field_set_other by reflexivity.
        apply (run_tests_locally_success E _ _ _ _ _ _ _ _ Hrun).
    + repeat split. intros Hs. discriminate Hs.
Qed.

(** The loop appends the record of each item in its turn and goes on
    from the world the run of the item left. *)
Lemma batch_loop_recorded (item : transformation -> M (W:=W) dict)
    (run : transformation -> M (W:=W) dict) (remote : bool)
    (P : transformation -> dict -> Prop) (ts : list transformation) :
  (forall t w, item t w = (Ok (recorded t remote (fst (run t w))), snd (run t w))) ->
  (forall t w, P t (recorded t remote (fst (run t w)))) ->
  forall (acc : list dict) (w : W),
  exists ds w',
    batch_loop item ts acc w = (Ok (acc ++ ds)%list, w')
    /\ recorded_in_order run remote ts w ds w'
    /\ Forall2 P ts ds.
Proof.
  intros Hitem HP. induction ts as [|t ts IH]; intros acc w.
  - exists [], w. cbn [batch_loop]. rewrite app_nil_r.
    split; [reflexivity|]. split; constructor.
  - destruct (IH (acc ++ [recorded t remote (fst (run t w))])%list (snd (run t w)))
      as (ds & w' & Hloop & Horder & Hall).
    exists (recorded t remote (fst (run t w)) :: ds), w'.
    cbn [batch_loop]. unfold bind. rewrite Hitem, Hloop, <- app_assoc.
    split; [reflexivity|]. split.
    + econstructor; [|exact Horder]. destruct (run t w); reflexivity.
    + constructor; [apply HP | exact Hall].
Qed.

End BatchRecords.

(** C5. For every batch, [validate_batch] returns, without raising,
    one record for each item, in the order of the items. The items are
    run one after the other, each from the world the one before it left,
    on the backend chosen for the batch; the record of an item is the
    record of its own run with the path of the item, or, when its run
    raised, the failure record with [success] false, and the loop goes
    on to the next item in either case. Each record has a [success],
    which is false with an error message and true only if the test
    process of the item came back with exit code 0 (in the sandbox for
    JavaScript, if that or the report of Jest says so). *)
Theorem validate_batch_one_record_per_item :
  forall (W : Type) (E : Env W) (MODAL_AVAILABLE MODAL_EXECUTOR_AVAILABLE : bool)
         (self : ModalSandboxValidator) (transformations : list transformation) (w : W),
  let remote := prefer_modal self && MODAL_AVAILABLE in
  exists (results : list dict) (w' : W),
    validate_batch E MODAL_AVAILABLE MODAL_EXECUTOR_AVAILABLE self transformations w
    = (Ok results, w')
    /\ length results = length transformations
    /\ recorded_in_order (batch_run E MODAL_AVAILABLE MODAL_EXECUTOR_AVAILABLE remote)
         remote transformations w results w'
    /\ Forall2 (fun t d =>
                  get d "file_path" = Some (VStr (t_path t))
                  /\ has d "success" = true
                  /\ (has d "error" = true -> get d "success" = Some (VBool false))
                  /\ (truthy (field d "success") = true ->
                      if remote && MODAL_EXECUTOR_AVAILABLE
                      then test_passed_remotely E (item_language t) (item_module t)
                      else test_passed_locally E (item_language t)
                             (t_modernized_code t) (item_module t)))
         transformations results.
Proof.
  intros W E MA MEA self ts w remote. subst remote.
  unfold validate_batch, bind.
  destruct (prefer_modal self && MA).
  - destruct (batch_loop_recorded (batch_item_modal E MA MEA) (batch_run E MA MEA true) true
                (fun t d =>
                   get d "file_path" = Some (VStr (t_path t))
                   /\ has d "success" = true
                   /\ (has d "error" = true -> get d "success" = Some (VBool false))
                   /\ (truthy (field d "success") = true ->
                       if true && MEA
                       then test_passed_remotely E (item_language t) (item_module t)
                       else test_passed_locally E (item_language t)
                              (t_modernized_code t) (item_module t)))
                ts (batch_item_modal_recorded E MA MEA) (recorded_item E MA MEA true) [] w)
      as (ds & w' & Hloop & Horder & Hall).
    exists ds, w'. unfold try_except, bind. rewrite Hloop. cbn [app ret].
    split; [reflexivity|]. split; [symmetry; eapply Forall2_length; eauto|].
    split; [exact Horder | exact Hall].
  - destruct (batch_loop_recorded (batch_item_local E) (batch_run E MA MEA false) false
                (fun t d =>
                   get d "file_path" = Some (VStr (t_path t))
                   /\ has d "success" = true
                   /\ (has d "error" = true -> get d "success" = Some (VBool false))
                   /\ (truthy (field d "success") = true ->
                       if false && MEA
                       then test_passed_remotely E (item_language t) (item_module t)
                       else test_passed_locally E (item_language t)
                              (t_modernized_code t) (item_module t)))
                ts (batch_item_local_recorded E MA MEA) (recorded_item E MA MEA false) [] w)
      as (ds & w' & Hloop & Horder & Hall).
    exists ds, w'. cbn [ret]. rewrite Hloop. cbn [app].
    split; [reflexivity|]. split; [symmetry; eapply Forall2_length; eauto|].
    split; [exact Horder | exact Hall].
Qed.

(** The batch of three items on the local backend: the test file of
    the second cannot be collected, pytest exits with code 2 and raises
    nothing; its record is the record of that run, with [success] false,
    between the records of the two runs that pass. *)
Lemma validate_batch_one_record_per_item_witness :
  exists results w',
    validate_batch (Sim.env (Ok O)) false false local_validator batch_of_three
      (Sim.start [pytest_passed_a; pytest_collection_error; pytest_passed_c])
    = (Ok results, w')
    /\ length results = 3%nat
    /\ map (fun d => get d "success") results
       = [Some (VBool true); Some (VBool false); Some (VBool true)]
    /\ map (fun d => get d "file_path") results
       = [Some (VStr "a.py"); Some (VStr "b.py"); Some (VStr "c.py")]
    /\ map (fun d => get d "tests_passed") results
       = [Some (VInt 1); Some (VInt 0); Some (VInt 1)]
    /\ map (fun d => get d "exit_code") results
       = [Some (VInt 0); Some (VInt 2); Some (VInt 0)]
    /\ Sim.log w' = [(pytest_cmd "/tmp/sandbox/test_a.py", 120);
                     (pytest_cmd "/tmp/sandbox/test_b.py", 120);
                     (pytest_cmd "/tmp/sandbox/test_c.py", 120)].
Proof.
  destruct (validate_batch_one_record_per_item Sim.world (Sim.env (Ok O)) false false
              local_validator batch_of_three
              (Sim.start [pytest_passed_a; pytest_collection_error; pytest_passed_c]))
    as (results & w' & Hrun & Hlen & _).
  exists results, w'. split; [exact Hrun|]. split; [exact Hlen|].
  vm_compute in Hrun. injection Hrun as <- <-. repeat split.
Defined.

(** ** Behavioural equivalence *)

Lemma value_eqb_refl (v : value) : value_eqb v v = true.
Proof.
  destruct v; simpl; auto using Bool.eqb_reflx, Z.eqb_refl, String.eqb_refl.
  apply Qeq_bool_iff. reflexivity.
Qed.

Lemma getitem_field {W : Type} (d : dict) (k : string) (w : W) :
  has d k = true -> getitem d k w = (Ok (field d k), w).
Proof.
  unfold has, getitem, field. destruct (get d k); [reflexivity | discriminate].
Qed.

(** C4, as stated, fails: the code is identical and the list of test
    cases empty; the generated test file holds no test, pytest collects
    nothing and exits with code 5, both runs report [success] false, and
    the comparison returns a score of 0 and no equivalence. *)
Lemma identical_code_without_tests_scores_zero :
  exists r w',
    test_behavioral_equivalence (Sim.env (Ok O)) false false local_validator
      add_py add_py [] (Sim.start [pytest_exit_5; pytest_exit_5]) = (Ok r, w')
    /\ get (original_results r) "success" = Some (VBool false)
    /\ get (modernized_results r) "success" = Some (VBool false)
    /\ equivalence_score r = 0%Q
    /\ behavioral_equivalence r = false.
Proof.
  eexists. eexists. split; [vm_compute; reflexivity|]. repeat split; reflexivity.
Qed.

(** C4, amended. For identical code, the comparison makes one and the
    same validation request twice, the second time from the world the
    first left; both runs return a record. When the second run reports
    the same [success] and the same number of passed tests as the
    first, as it does whenever the environment answers the request the
    second time as it did the first, the comparison returns the two
    records with a score of 1 and the equivalence if the run reports
    success, and with a score of 0 and no equivalence if it does not. *)
Theorem identical_code_equivalence :
  forall (W : Type) (E : Env W) (MODAL_AVAILABLE MODAL_EXECUTOR_AVAILABLE : bool)
         (self : ModalSandboxValidator) (code : string) (test_cases : list test_case)
         (w : W),
  let request :=
    validate_transformation E MODAL_AVAILABLE MODAL_EXECUTOR_AVAILABLE self code code
      (_generate_equivalence_test test_cases) None None in
  exists (o m : dict) (w1 w2 : W),
    request w = (Ok o, w1)
    /\ request w1 = (Ok m, w2)
    /\ (get m "success" = get o "success" ->
        get m "tests_passed" = get o "tests_passed" ->
        test_behavioral_equivalence E MODAL_AVAILABLE MODAL_EXECUTOR_AVAILABLE self
          code code test_cases w
        = (Ok (if truthy (field o "success")
               then mkEquivalence true 1 o m
               else mkEquivalence false 0 o m), w2)).
Proof.
  intros W E MA MEA self code cases w request. subst request.
  destruct (validate_transformation_records E MA MEA self code code
              (_generate_equivalence_test cases) None None w) as (o & w1 & Ho & Hro).
  destruct (validate_transformation_records E MA MEA self code code
              (_generate_equivalence_test cases) None None w1) as (m & w2 & Hm & Hrm).
  exists o, m, w1, w2. split; [exact Ho|]. split; [exact Hm|].
  intros Hsuccess Hpassed.
  assert (Hkeys : forall d, run_record d = true ->
            has d "success" = true /\ has d "tests_passed" = true).
  { intros d Hd. unfold run_record in Hd. apply andb_prop in Hd as [Hd _].
    apply andb_prop in Hd as [Hd Hp]. apply andb_prop in Hd as [Hs _]. auto. }
  destruct (Hkeys o Hro) as [Hos Hop]. destruct (Hkeys m Hrm) as [Hms Hmp].
  assert (Hfs : field m "success" = field o "success")
    by (unfold field; rewrite Hsuccess; reflexivity).
  assert (Hfp : field m "tests_passed" = field o "tests_passed")
    by (unfold field; rewrite Hpassed; reflexivity).
  unfold test_behavioral_equivalence, bind. rewrite Ho, Hm.
  rewrite (getitem_field o "success" w2 Hos).
  destruct (truthy (field o "success")) eqn:Hto; [|reflexivity].
  rewrite (getitem_field m "success" w2 Hms), Hfs, Hto.
  rewrite (getitem_field o "tests_passed" w2 Hop).
  rewrite (getitem_field m "tests_passed" w2 Hmp).
  rewrite Hfp, value_eqb_refl. reflexivity.
Qed.

Lemma identical_code_equivalence_witness :
  test_behavioral_equivalence (Sim.env (Ok O)) false false local_validator
    add_py add_py [mkCase None]
    (Sim.start [Sim.exited 0 pytest_passed; Sim.exited 0 pytest_passed])
  = (Ok (mkEquivalence true 1 local_pass_record local_pass_record),
     Sim.mkWorld [] [(pytest_cmd "/tmp/sandbox/test_module.py", 120);
                     (pytest_cmd "/tmp/sandbox/test_module.py", 120)]).
Proof.
  destruct (identical_code_equivalence Sim.world (Sim.env (Ok O)) false false
              local_validator add_py [mkCase None]
              (Sim.start [Sim.exited 0 pytest_passed; Sim.exited 0 pytest_passed]))
    as (o & m & w1 & w2 & Ho & Hm & Hsame).
  vm_compute in Ho. injection Ho as <- <-.
  vm_compute in Hm. injection Hm as <- <-.
  apply Hsame; reflexivity.
Defined.

(** ** The scenarios of the specification *)

(** The Python scenario on the local backend: one test, passed. *)
Lemma python_scenario_passes :
  exists d w',
    validate_transformation (Sim.env (Ok O)) false false local_validator
      add_code add_code add_module_test None None
      (Sim.start [Sim.exited 0 pytest_passed]) = (Ok d, w')
    /\ get d "success" = Some (VBool true)
    /\ get d "tests_run" = Some (VInt 1)
    /\ get d "tests_passed" = Some (VInt 1)
    /\ get d "tests_failed" = Some (VInt 0).
Proof.
  eexists. eexists. split; [vm_compute; reflexivity|]. repeat split; reflexivity.
Qed.

(** The Java scenario on the Java runner: rejected before any process. *)
Lemma java_scenario_rejected_by_runner :
  exists d,
    run_java_tests (Sim.env (Ok O)) calc_java calc_test_unmarked [] "Calc"
      (Sim.start []) = (Ok d, Sim.start [])
    /\ get d "success" = Some (VBool false)
    /\ get d "tests_run" = Some (VInt 0)
    /\ PyStr.contains "@Test" (str_field d "error") = true.
Proof.
  eexists. split; [vm_compute; reflexivity|]. repeat split; reflexivity.
Qed.

(** The JavaScript scenario on the JavaScript runner: [describe] without
    [expect] is rejected before any process. *)
Lemma javascript_scenario_rejected_by_runner :
  exists d,
    run_javascript_tests (Sim.env (Ok O)) "export const f = () => 1;"
      "import { f } from './m.js'; describe('f', () => {});" [] "m" "javascript"
      (Sim.start []) = (Ok d, Sim.start [])
    /\ get d "success" = Some (VBool false)
    /\ get d "error" = Some (VStr "Test validation failed: No expect() assertions found").
Proof.
  eexists. split; [vm_compute; reflexivity|]. repeat split; reflexivity.
Qed.

(** * Further properties *)

(** ** Counters are never negative *)

Lemma count_from_nonneg (sub s : string) (skip : nat) : 0 <= PyStr.count_from sub s skip.
Proof.
  revert skip. induction s as [|a s IH]; intros skip; cbn [PyStr.count_from]; [lia|].
  destruct skip as [|k]; [|apply IH].
  destruct (PyStr.startswith sub (String a s)).
  - specialize (IH (String.length sub - 1)%nat). lia.
  - apply IH.
Qed.

Lemma count_nonneg (sub s : string) : 0 <= PyStr.count sub s.
Proof. apply count_from_nonneg. Qed.

Lemma int_digits_nonneg (s : string) (acc : Z) : 0 <= acc -> 0 <= PyStr.int_digits acc s.
Proof.
  revert acc. induction s as [|a s IH]; intros acc Hacc; cbn [PyStr.int_digits];
    [exact Hacc|].
  apply IH. lia.
Qed.

Lemma int_of_nonneg (s : string) : 0 <= PyStr.int_of s.
Proof. apply int_digits_nonneg. lia. Qed.

(** ** Records of the local backend *)

Lemma local_failure_record (msg : string) : local_record (local_failure msg).
Proof.
  unfold local_record, bounded_counts, error_means_no_test, int_between, zero_counts.
  split; [simpl; auto|]. split; [eexists; reflexivity|]. split.
  - exists 0. split; [reflexivity|]. split; [lia|].
    split; exists 0; (split; [reflexivity | lia]).
  - intros _. repeat split.
Qed.

Lemma local_python_timeout_record : local_record local_python_timeout.
Proof.
  unfold local_record, bounded_counts, error_means_no_test, int_between, zero_counts.
  split; [simpl; auto|]. split; [eexists; reflexivity|]. split.
  - exists 0. split; [reflexivity|]. split; [lia|].
    split; exists 0; (split; [reflexivity | lia]).
  - intros _. repeat split.
Qed.

Lemma unsupported_language_record (language : string) :
  local_record (unsupported_language language).
Proof.
  unfold local_record, bounded_counts, error_means_no_test, int_between, zero_counts.
  split; [simpl; auto|]. split; [eexists; reflexivity|]. split.
  - exists 0. split; [reflexivity|]. split; [lia|].
    split; exists 0; (split; [reflexivity | lia]).
  - intros _. repeat split.
Qed.

Lemma local_python_report_record (result : CompletedProcess) (t : Q) :
  local_record (local_python_report result t).
Proof.
  unfold local_record, bounded_counts, error_means_no_test, int_between, zero_counts, local_python_report, has. cbn [get String.eqb Ascii.eqb Bool.eqb].
  pose proof (count_nonneg " PASSED" (stdout result)).
  pose proof (count_nonneg " FAILED" (stdout result)).
  pose proof (count_nonneg " ERROR" (stdout result)).
  split; [simpl; auto|]. split; [eauto|]. split; [|discriminate].
  eexists. split; [reflexivity|]. split; [lia|].
  split; eexists; (split; [reflexivity | lia]).
Qed.

Lemma local_exit_code_report_record (result : CompletedProcess) (t : Q) :
  local_record (local_exit_code_report result t).
Proof.
  unfold local_record, bounded_counts, error_means_no_test, int_between, zero_counts, local_exit_code_report, has. cbn [get String.eqb Ascii.eqb Bool.eqb].
  split; [simpl; auto|]. split; [eauto|]. split; [|discriminate].
  exists 1. split; [reflexivity|]. split; [lia|].
  destruct (returncode result =? 0); split; eexists; (split; [reflexivity | lia]).
Qed.

Section LocalRecords.
Context {W : Type} (E : Env W).

(** Every record of the local backend is a [local_record]. *)
Lemma run_tests_locally_local_record code tests reqs m language w d w' :
  run_tests_locally E code tests reqs m language w = (Ok d, w') ->
  local_record d.
Proof.
  unfold run_tests_locally, _run_python_tests_locally, _run_java_tests_locally,
    _run_js_tests_locally.
  intros H. run_cases H;
    first [ apply local_failure_record | apply local_python_timeout_record
          | apply unsupported_language_record | apply local_python_report_record
          | apply local_exit_code_report_record ].
Qed.
End LocalRecords.

Section ValidatorModes.
Context {W : Type} (E : Env W) (MODAL_AVAILABLE MODAL_EXECUTOR_AVAILABLE : bool).

(** For a supported language the local backend labels its record
    [local]. *)
Lemma run_tests_locally_mode code tests reqs m language w d w' :
  in_list language supported_languages = true ->
  run_tests_locally E code tests reqs m language w = (Ok d, w') ->
  get d "execution_mode" = Some (VStr "local").
Proof.
  intros Hsup. unfold run_tests_locally. rewrite Hsup. cbn [negb].
  unfold _run_python_tests_locally, _run_java_tests_locally, _run_js_tests_locally.
  intros H. run_cases H; reflexivity.
Qed.

Lemma run_tests_locally_no_coverage code tests reqs m language w d w' :
  run_tests_locally E code tests reqs m language w = (Ok d, w') ->
  no_coverage d.
Proof.
  unfold run_tests_locally, _run_python_tests_locally, _run_java_tests_locally,
    _run_js_tests_locally.
  intros H. run_cases H; unfold no_coverage;
    first [left; reflexivity | right; reflexivity].
Qed.

Lemma validation_failed_record (e : exn) :
  bounded_counts (validation_failed e) /\ error_means_no_test (validation_failed e).
Proof.
  unfold bounded_counts, error_means_no_test, int_between, zero_counts. split.
  - exists 0. split; [reflexivity|]. split; [lia|].
    split; exists 0; (split; [reflexivity | lia]).
  - intros _. repeat split.
Qed.

(** The local leg of the validator: a record of the local backend
    labelled [local], or the record of a failed validation. *)
Lemma local_leg_record code tests reqs m language w :
  in_list language supported_languages = true ->
  exists d w',
    try_except
      (results <- run_tests_locally E code tests reqs m language ;;
       log_passed_of_run results ;;; ret results)%py
      (fun e => ret (validation_failed e)) w = (Ok d, w')
    /\ In (get d "execution_mode") [Some (VStr "local"); Some (VStr "failed")]
    /\ bounded_counts d /\ error_means_no_test d /\ no_coverage d.
Proof.
  intros Hsup. unfold try_except, bind.
  destruct (run_tests_locally E code tests reqs m language w) as [[d|e] w1] eqn:Hrun.
  - rewrite (log_passed_of_run_ok d w1) by (eapply run_tests_locally_record; eauto).
    eexists; eexists; split; [reflexivity|].
    pose proof (run_tests_locally_mode _ _ _ _ _ _ _ _ Hsup Hrun) as Hmode.
    destruct (run_tests_locally_local_record E _ _ _ _ _ _ _ _ Hrun) as (_ & _ & Hb & He).
    rewrite Hmode. split; [simpl; auto|]. split; [assumption|]. split; [assumption|].
    eapply run_tests_locally_no_coverage; eauto.
  - eexists; eexists; split; [reflexivity|]. split; [simpl; auto|].
    split; [apply validation_failed_record|]. split; [apply validation_failed_record|].
    left. reflexivity.
Qed.

End ValidatorModes.

(** X1. [validate_transformation] returns a record labelled [modal],
    [local] or [failed], and never [modal] when Modal is not preferred or
    not importable: the labels [unsupported], [modal_error] and
    [modal_unavailable] of the backends do not reach the caller, because
    the detected language is always a supported one and the validator
    writes its own label over the one of the remote executor. *)
Theorem validate_transformation_execution_mode :
  forall (W : Type) (E : Env W) (MODAL_AVAILABLE MODAL_EXECUTOR_AVAILABLE : bool)
         (self : ModalSandboxValidator) (original_code modernized_code tests : string)
         (requirements : option (list string)) (file_path : option string) (w : W),
  exists d w',
    validate_transformation E MODAL_AVAILABLE MODAL_EXECUTOR_AVAILABLE self
      original_code modernized_code tests requirements file_path w = (Ok d, w')
    /\ In (get d "execution_mode")
         (if prefer_modal self && MODAL_AVAILABLE
          then [Some (VStr "modal"); Some (VStr "local"); Some (VStr "failed")]
          else [Some (VStr "local"); Some (VStr "failed")]).
Proof.
  intros. unfold validate_transformation.
  set (language := _detect_language file_path modernized_code).
  assert (Hsup : in_list language supported_languages = true)
    by apply _detect_language_supported.
  set (reqs := match requirements with
               | Some r => r
               | None => _extract_requirements modernized_code language
               end).
  set (m := module_name_of file_path).
  unfold bind at 1.
  destruct (prefer_modal self && MODAL_AVAILABLE).
  - unfold try_except at 1. unfold bind at 1.
    destruct (run_tests_in_sandbox E MODAL_AVAILABLE MODAL_EXECUTOR_AVAILABLE
                modernized_code tests reqs m language w) as [[d0|e] w0] eqn:Hrun.
    + apply run_tests_in_sandbox_record in Hrun.
      assert (Hd : run_record (set d0 "execution_mode" (VStr "modal")) = true)
        by (apply run_record_set; [reflexivity | exact Hrun]).
      unfold bind. rewrite (log_passed_of_run_ok _ w0 Hd). cbn [ret].
      eexists; eexists; split; [reflexivity|]. rewrite get_set_same. simpl; auto.
    + cbn [ret].
      destruct (local_leg_record E modernized_code tests reqs m language w0 Hsup)
        as (d & w' & Hleg & Hmode & _).
      exists d, w'. split; [exact Hleg|]. simpl in *. tauto.
  - cbn [ret].
    destruct (local_leg_record E modernized_code tests reqs m language w Hsup)
      as (d & w' & Hleg & Hmode & _).
    exists d, w'. split; [exact Hleg|]. exact Hmode.
Qed.

(** X2. When Modal is not preferred or not importable, the record of
    [validate_transformation] has integer counters with
    [0 <= tests_passed <= tests_run] and [0 <= tests_failed <= tests_run],
    no measured coverage, and, if it carries an error message, [success]
    false and the three counters zero. *)
Theorem local_validation_record :
  forall (W : Type) (E : Env W) (MODAL_AVAILABLE MODAL_EXECUTOR_AVAILABLE : bool)
         (self : ModalSandboxValidator) (original_code modernized_code tests : string)
         (requirements : option (list string)) (file_path : option string) (w : W),
    prefer_modal self && MODAL_AVAILABLE = false ->
    exists d w',
      validate_transformation E MODAL_AVAILABLE MODAL_EXECUTOR_AVAILABLE self
        original_code modernized_code tests requirements file_path w = (Ok d, w')
      /\ bounded_counts d /\ error_means_no_test d /\ no_coverage d.
Proof.
  intros W E MA MEA self oc mc tests requirements file_path w Hlocal.
  unfold validate_transformation. rewrite Hlocal.
  unfold bind at 1. cbn [ret].
  destruct (local_leg_record E mc tests
              (match requirements with
               | Some r => r
               | None => _extract_requirements mc (_detect_language file_path mc)
               end)
              (module_name_of file_path) (_detect_language file_path mc) w
              (_detect_language_supported file_path mc))
    as (d & w' & Hleg & _ & Hb & He & Hc).
  exists d, w'. split; [exact Hleg|]. split; [exact Hb|]. split; [exact He | exact Hc].
Qed.

Lemma local_validation_record_witness :
  exists d w',
    validate_transformation (Sim.env (Ok O)) false false local_validator
      add_py add_py python_test None (Some "m.py")
      (Sim.start [Sim.exited 0 pytest_passed]) = (Ok d, w')
    /\ bounded_counts d /\ error_means_no_test d /\ no_coverage d.
Proof.
  exact (local_validation_record Sim.world (Sim.env (Ok O)) false false local_validator
           add_py add_py python_test None (Some "m.py")
           (Sim.start [Sim.exited 0 pytest_passed]) eq_refl).
Defined.


(** ** The totals of the validation phase *)

Lemma round_half_even_bounds (q : Q) (n : Z) :
  (0 <= q)%Q -> (q <= inject_Z n)%Q -> 0 <= round_half_even q <= n.
Proof.
  intros H0 Hn. unfold round_half_even.
  pose proof (Qfloor_le q) as Hfl. pose proof (Qlt_floor q) as Hlt.
  assert (Hf0 : 0 <= Qfloor q).
  { change 0 with (Qfloor 0). apply Qfloor_resp_le. exact H0. }
  assert (Hfn : Qfloor q <= n).
  { rewrite <- (Qfloor_Z n). apply Qfloor_resp_le. exact Hn. }
  destruct (Qcompare (q - inject_Z (Qfloor q)) (1 # 2)) eqn:Hc.
  - apply Qeq_alt in Hc.
    destruct (Z.even (Qfloor q)); [lia|].
    assert (Hs : (inject_Z (Qfloor q) < inject_Z n)%Q) by lra.
    rewrite <- Zlt_Qlt in Hs. lia.
  - lia.
  - apply Qgt_alt in Hc.
    assert (Hs : (inject_Z (Qfloor q) < inject_Z n)%Q) by lra.
    rewrite <- Zlt_Qlt in Hs. lia.
Qed.

(** [round(x, 2)] keeps a percentage between 0 and 100. *)
Lemma round_percentage (q : Q) :
  (0 <= q)%Q -> (q <= 100)%Q -> (0 <= round_digits q 2 <= 100)%Q.
Proof.
  intros H0 H100. unfold round_digits. rewrite Qred_correct.
  change (Z.pow 10 (Z.of_nat 2)) with 100.
  destruct (round_half_even_bounds (q * inject_Z 100) 10000) as [Hlo Hhi].
  - change (inject_Z 100) with 100%Q. lra.
  - change (inject_Z 100) with 100%Q. change (inject_Z 10000) with 10000%Q. lra.
  - set (z := round_half_even (q * inject_Z 100)) in *.
    unfold Qle. simpl. lia.
Qed.

Lemma sum_field_ints (k : string) (rs : list dict) (acc : Z) :
  Forall (fun d => exists n, get d k = Some (VInt n)) rs ->
  exists total : Z,
    sum_field k rs (inject_Z acc) = Ok (inject_Z total)
    /\ total = acc + fold_right (fun d s => int_field d k + s) 0 rs.
Proof.
  intros Hall. revert acc. induction Hall as [|d rs (n & Hn) _ IH]; intros acc.
  - exists acc. split; [reflexivity | simpl; lia].
  - cbn [sum_field]. unfold get_number. rewrite Hn. cbn [as_number].
    assert (Hq : (inject_Z acc + inject_Z n)%Q = inject_Z (acc + n)).
    { unfold Qplus, inject_Z. simpl. f_equal. lia. }
    rewrite Hq. destruct (IH (acc + n)) as (total & Hsum & Htotal).
    exists total. split; [exact Hsum|].
    cbn [fold_right]. unfold int_field at 1. rewrite Hn. lia.
Qed.

Lemma coverage_values_none (rs : list dict) :
  Forall no_coverage rs -> coverage_values rs = Ok [].
Proof.
  induction 1 as [|d rs Hd _ IH]; [reflexivity|].
  cbn [coverage_values]. rewrite IH. unfold get_number.
  destruct Hd as [-> | ->]; reflexivity.
Qed.

Lemma bounded_counts_fields (d : dict) :
  bounded_counts d ->
  (exists n, get d "tests_run" = Some (VInt n))
  /\ (exists n, get d "tests_passed" = Some (VInt n))
  /\ 0 <= int_field d "tests_passed" <= int_field d "tests_run".
Proof.
  intros (run & Hrun & H0 & (p & Hp & Hpb) & _).
  split; [eauto|]. split; [eauto|]. unfold int_field. rewrite Hrun, Hp. exact Hpb.
Qed.

Lemma bounded_totals (rs : list dict) :
  Forall bounded_counts rs ->
  0 <= fold_right (fun d s => int_field d "tests_passed" + s) 0 rs
    <= fold_right (fun d s => int_field d "tests_run" + s) 0 rs.
Proof.
  induction 1 as [|d rs Hd _ IH]; cbn [fold_right]; [lia|].
  apply bounded_counts_fields in Hd as (_ & _ & Hd). lia.
Qed.

(** X3. The totals the orchestrator computes from validation records
    with bounded integer counters and no measured coverage, as the local
    backend returns them: the computation raises nothing, counts every
    record, and gives [0 <= tests_passed <= total_tests], a
    [tests_failed] that is not negative and adds up with [tests_passed]
    to [total_tests], a pass rate between 0 and 100, and an average
    coverage of 0. *)
Theorem validation_totals_of_bounded_records :
  forall validation_results : list dict,
    Forall bounded_counts validation_results ->
    Forall no_coverage validation_results ->
    exists phase : validation_phase,
      validation_totals validation_results = Ok phase
      /\ files_validated phase = length validation_results
      /\ (0 <= phase_tests_passed phase)%Q
      /\ (phase_tests_passed phase <= total_tests phase)%Q
      /\ (0 <= phase_tests_failed phase)%Q
      /\ (phase_tests_passed phase + phase_tests_failed phase == total_tests phase)%Q
      /\ (0 <= pass_rate phase <= 100)%Q
      /\ average_coverage phase = 0%Q.
Proof.
  intros rs Hb Hc.
  assert (Hruns : Forall (fun d => exists n, get d "tests_run" = Some (VInt n)) rs).
  { eapply Forall_impl; [|exact Hb]. intros d Hd. apply bounded_counts_fields in Hd. tauto. }
  assert (Hpass : Forall (fun d => exists n, get d "tests_passed" = Some (VInt n)) rs).
  { eapply Forall_impl; [|exact Hb]. intros d Hd. apply bounded_counts_fields in Hd. tauto. }
  destruct (sum_field_ints "tests_run" rs 0 Hruns) as (R & HR & HRv).
  destruct (sum_field_ints "tests_passed" rs 0 Hpass) as (P & HP & HPv).
  pose proof (bounded_totals rs Hb) as Hbound.
  assert (HPR : 0 <= P <= R) by lia. clear HRv HPv Hbound.
  change (inject_Z 0) with 0%Q in HR, HP.
  unfold validation_totals. rewrite HR, HP.
  rewrite (coverage_values_none rs Hc).
  eexists. split; [reflexivity|]. cbn [files_validated phase_tests_passed total_tests
    phase_tests_failed pass_rate average_coverage].
  assert (HP0 : (0 <= inject_Z P)%Q) by (change 0%Q with (inject_Z 0); rewrite <- Zle_Qle; lia).
  assert (HPRq : (inject_Z P <= inject_Z R)%Q) by (rewrite <- Zle_Qle; lia).
  split; [reflexivity|]. split; [exact HP0|]. split; [exact HPRq|].
  split; [lra|]. split; [lra|]. split; [|reflexivity].
  assert (Hm : (0 < Qmax1 (inject_Z R))%Q /\ (inject_Z P <= Qmax1 (inject_Z R))%Q).
  { unfold Qmax1. destruct (Qlt_le_dec (inject_Z R) 1); split; lra. }
  destruct Hm as [Hm0 HmP].
  set (M := Qmax1 (inject_Z R)) in *.
  assert (Hratio : (0 <= inject_Z P / M <= 1)%Q).
  { split.
    - apply Qle_shift_div_l; [exact Hm0 | lra].
    - apply Qle_shift_div_r; [exact Hm0 | lra]. }
  apply round_percentage; lra.
Qed.

Lemma validation_totals_of_bounded_records_witness :
  exists phase : validation_phase,
    validation_totals [local_pass_record; node_run_record] = Ok phase
    /\ files_validated phase = 2%nat
    /\ (0 <= phase_tests_passed phase)%Q
    /\ (phase_tests_passed phase <= total_tests phase)%Q
    /\ (0 <= phase_tests_failed phase)%Q
    /\ (phase_tests_passed phase + phase_tests_failed phase == total_tests phase)%Q
    /\ (0 <= pass_rate phase <= 100)%Q
    /\ average_coverage phase = 0%Q.
Proof.
  apply (validation_totals_of_bounded_records [local_pass_record; node_run_record]).
  - constructor; [|constructor; [|constructor]].
    + exists 1. split; [reflexivity|]. split; [lia|].
      split; [exists 1 | exists 0]; (split; [reflexivity | lia]).
    + exists 1. split; [reflexivity|]. split; [lia|].
      split; [exists 0 | exists 1]; (split; [reflexivity | lia]).
  - constructor; [right; reflexivity|]. constructor; [left; reflexivity | constructor].
Defined.


(** ** The requirements read off the imports *)

Lemma in_list_In (x : string) (l : list string) : in_list x l = true <-> In x l.
Proof.
  unfold in_list. rewrite existsb_exists. split.
  - intros (y & Hy & Heq). apply String.eqb_eq in Heq. subst. exact Hy.
  - intros H. exists x. split; [exact H | apply String.eqb_refl].
Qed.

Lemma add_once_keeps (known : list string) (pkg : string) (reqs : list string) :
  In pkg known -> NoDup reqs /\ incl reqs known ->
  NoDup (add_once pkg reqs) /\ incl (add_once pkg reqs) known.
Proof.
  intros Hk [Hnd Hincl]. unfold add_once.
  destruct (in_list pkg reqs) eqn:Hin; [split; assumption|].
  split.
  - apply NoDup_app; [exact Hnd | repeat constructor; auto | ].
    intros x Hx [<- | []]. apply in_list_In in Hx. congruence.
  - apply incl_app; [exact Hincl|]. intros x [<- | []]. exact Hk.
Qed.

Lemma assoc_In (k v : string) (l : list (string * string)) :
  assoc k l = Some v -> In v (map snd l).
Proof.
  induction l as [|[k0 v0] l IH]; simpl; [discriminate|].
  destruct (String.eqb k k0); [intros [= <-]; auto | auto].
Qed.

Lemma python_requirement_keeps (line : string) (reqs : list string) :
  NoDup reqs /\ incl reqs (map snd python_import_map) ->
  NoDup (python_requirement line reqs)
  /\ incl (python_requirement line reqs) (map snd python_import_map).
Proof.
  intros H. unfold python_requirement.
  destruct (_ || _); [|exact H].
  destruct (PyStr.words (PyStr.strip line)) as [|w0 [|part rest]]; try exact H.
  destruct (assoc _ python_import_map) as [pkg|] eqn:Ha; [|exact H].
  apply add_once_keeps; [eapply assoc_In; eauto | exact H].
Qed.

Lemma js_requirement_keeps (line : string) (reqs : list string) :
  NoDup reqs /\ incl reqs js_import_map ->
  NoDup (js_requirement line reqs) /\ incl (js_requirement line reqs) js_import_map.
Proof.
  unfold js_requirement.
  assert (Hgen : forall pkgs, incl pkgs js_import_map ->
            forall reqs0, NoDup reqs0 /\ incl reqs0 js_import_map ->
            let step := fun reqs1 pkg =>
              if PyStr.contains ("'" ++ pkg ++ "'") (PyStr.strip line)
                 || PyStr.contains (PyStr.dquote ++ pkg ++ PyStr.dquote) (PyStr.strip line)
              then add_once pkg reqs1 else reqs1 in
            NoDup (fold_left step pkgs reqs0)
            /\ incl (fold_left step pkgs reqs0) js_import_map).
  { induction pkgs as [|pkg pkgs IH]; intros Hp reqs0 H0 step; [exact H0|].
    cbn [fold_left]. apply IH; [intros x Hx; apply Hp; right; exact Hx|].
    unfold step. destruct (_ || _); [|exact H0].
    apply add_once_keeps; [apply Hp; left; reflexivity | exact H0]. }
  intros H. apply (Hgen js_import_map (incl_refl _) reqs H).
Qed.

Lemma fold_left_keeps {A B : Type} (P : A -> Prop) (f : A -> B -> A) (l : list B) (a : A) :
  (forall a b, P a -> P (f a b)) -> P a -> P (fold_left f l a).
Proof.
  intros Hf. revert a. induction l as [|b l IH]; intros a Ha; [exact Ha|].
  cbn [fold_left]. apply IH. apply Hf. exact Ha.
Qed.

(** X4. [_extract_requirements] names no package twice and only
    packages of the table of its language: for Python the values of its
    import map, for JavaScript and TypeScript the six packages it looks
    for, for Java and any other language none. *)
Theorem extract_requirements_known_once :
  forall code language : string,
    NoDup (_extract_requirements code language)
    /\ incl (_extract_requirements code language) (known_packages language).
Proof.
  intros code language. unfold _extract_requirements, known_packages.
  destruct (String.eqb language "python").
  - apply (fold_left_keeps
             (fun reqs => NoDup reqs /\ incl reqs (map snd python_import_map))).
    + intros reqs line. apply python_requirement_keeps.
    + split; [constructor | intros x []].
  - destruct (String.eqb language "java") eqn:Hj.
    + split; [constructor | intros x []].
    + destruct (in_list language ["javascript"; "typescript"]).
      * apply (fold_left_keeps (fun reqs => NoDup reqs /\ incl reqs js_import_map)).
        -- intros reqs line. apply js_requirement_keeps.
        -- split; [constructor | intros x []].
      * split; [constructor | intros x []].
Qed.

(** ** Records of the runners *)

Lemma take_length (n : nat) (s : string) : (String.length (PyStr.take n s) <= n)%nat.
Proof.
  revert s. induction n as [|n IH]; intros s; [simpl; lia|].
  destruct s as [|a s]; simpl; [lia|]. specialize (IH s). lia.
Qed.

Lemma slice_to_length (n : Z) (s : string) :
  0 <= n -> Z.of_nat (String.length (PyStr.slice_to n s)) <= n.
Proof.
  intros Hn. unfold PyStr.slice_to.
  pose proof (take_length (Z.to_nat n) s). lia.
Qed.

Lemma count_of_nonneg (label text : string) (default : Z) :
  0 <= default -> 0 <= count_of label text default.
Proof.
  intros H. unfold count_of. destruct (Re.search1 _ text); [apply int_of_nonneg | exact H].
Qed.

Lemma pytest_counts_bounds (out : string) :
  let c := pytest_counts out in
  0 <= tests_passed c <= tests_run c /\ 0 <= tests_failed c <= tests_run c
  /\ 0 <= tests_errors c <= tests_run c /\ 0 <= tests_skipped c.
Proof.
  unfold pytest_counts, pytest_summary_counts, pytest_fallback_counts.
  pose proof (count_nonneg (" PASSED" ++ PyStr.nl) out).
  pose proof (count_nonneg (" FAILED" ++ PyStr.nl) out).
  pose proof (count_nonneg (" ERROR" ++ PyStr.nl) out).
  pose proof (count_nonneg (" SKIPPED" ++ PyStr.nl) out).
  destruct (Re.search1 pytest_summary_re out) as [summary|].
  - pose proof (count_of_nonneg "passed" summary 0 ltac:(lia)).
    pose proof (count_of_nonneg "failed" summary 0 ltac:(lia)).
    pose proof (count_of_nonneg "error" summary 0 ltac:(lia)).
    pose proof (count_of_nonneg "skipped" summary 0 ltac:(lia)).
    cbn [tests_run]. destruct (Z.eqb _ 0); cbn [tests_run tests_passed tests_failed
      tests_errors tests_skipped]; lia.
  - cbn [tests_run Z.eqb tests_passed tests_failed tests_errors tests_skipped]. lia.
Qed.

Lemma surefire_counts_nonneg (out : string) (rc : Z) (c : counts) :
  surefire_counts out rc = Some c ->
  0 <= tests_run c /\ 0 <= tests_errors c <= tests_failed c /\ 0 <= tests_skipped c.
Proof.
  unfold surefire_counts, surefire_search.
  destruct (Re.search surefire_re out) as [cs|].
  - destruct (Re.group cs 1) as [x|], (Re.group cs 2) as [y|], (Re.group cs 3) as [z|],
      (Re.group cs 4) as [k|];
      try (destruct (Z.eqb rc 0); intros [= <-]; cbn; lia).
    intros [= <-]. cbn [tests_run tests_errors tests_failed tests_skipped].
    pose proof (int_of_nonneg x). pose proof (int_of_nonneg y).
    pose proof (int_of_nonneg z). pose proof (int_of_nonneg k). lia.
  - destruct (Z.eqb rc 0); intros [= <-]; cbn; lia.
Qed.

Lemma jest_counts_nonneg (out : string) :
  0 <= jest_run (jest_counts out) /\ 0 <= jest_failed (jest_counts out).
Proof.
  unfold jest_counts. destruct (Re.search1 jest_line_re out) as [line|]; cbn; [|lia].
  split; apply count_of_nonneg; lia.
Qed.

Ltac runner_leaf :=
  unfold runner_record, error_means_no_test, zero_counts, has, str_field;
  cbn [get String.eqb Ascii.eqb Bool.eqb app
       python_failure python_timeout python_report
       java_failure java_timeout java_failure_with_output
       js_failure js_timeout js_failure_with_output];
  split; [reflexivity|];
  split; [first [apply slice_to_length; lia | simpl; lia]|];
  split; [first [apply slice_to_length; lia | simpl; lia]|];
  split; [first [discriminate | intros _; repeat split]|];
  unfold int_field;
  cbn [get String.eqb Ascii.eqb Bool.eqb app
       python_failure python_timeout python_report
       java_failure java_timeout java_failure_with_output
       js_failure js_timeout js_failure_with_output];
  try match goal with
      | H : surefire_counts _ _ = Some _ |- _ => apply surefire_counts_nonneg in H
      end;
  try match goal with
      | |- context [pytest_counts ?o] => pose proof (pytest_counts_bounds o)
      end;
  try match goal with
      | |- context [jest_counts ?o] => pose proof (jest_counts_nonneg o)
      end;
  cbv zeta in *; lia.

Section RunnerRecordsMore.
Context {W : Type} (E : Env W).

Lemma run_python_tests_runner_record code tests reqs m w d w' :
  run_python_tests E code tests reqs m w = (Ok d, w') -> runner_record d.
Proof.
  unfold run_python_tests, python_install_step, python_test_step. intros H.
  run_cases H; runner_leaf.
Qed.

Lemma run_java_tests_runner_record code tests reqs m w d w' :
  run_java_tests E code tests reqs m w = (Ok d, w') -> runner_record d.
Proof.
  unfold run_java_tests, java_test_step, java_report, jacoco_coverage,
    _create_maven_project.
  intros H. run_cases H; runner_leaf.
Qed.

Lemma run_javascript_tests_runner_record code tests reqs m language w d w' :
  run_javascript_tests E code tests reqs m language w = (Ok d, w') -> runner_record d.
Proof.
  unfold run_javascript_tests, js_test_step, js_install_and_test, js_report,
    jest_coverage, _create_nodejs_project.
  intros H. run_cases H; runner_leaf.
Qed.

Lemma run_python_tests_passed_bounded code tests reqs m w d w' :
  run_python_tests E code tests reqs m w = (Ok d, w') ->
  0 <= int_field d "tests_passed" <= int_field d "tests_run".
Proof.
  unfold run_python_tests, python_install_step, python_test_step. intros H.
  run_cases H; unfold int_field; cbn [get String.eqb Ascii.eqb Bool.eqb python_failure
    python_timeout python_report]; try lia;
    match goal with
    | |- context [pytest_counts ?o] => pose proof (pytest_counts_bounds o)
    end;
    cbv zeta in *; lia.
Qed.

End RunnerRecordsMore.

(** X5. Every record the Python, Java or JavaScript runner returns is
    labelled [modal], holds at most 10000 characters of each captured
    stream, has [success] false and zero counts whenever it carries an
    error message, and counts no negative number of run, failed, errored
    or skipped tests; for the Python runner [tests_passed] lies between 0
    and [tests_run] as well. *)
Theorem runner_records_marked_and_bounded :
  forall (W : Type) (E : Env W) (code tests : string) (reqs : list string)
         (m language : string) (w w' : W) (d : dict),
    run_python_tests E code tests reqs m w = (Ok d, w')
    \/ run_java_tests E code tests reqs m w = (Ok d, w')
    \/ run_javascript_tests E code tests reqs m language w = (Ok d, w') ->
    runner_record d
    /\ (run_python_tests E code tests reqs m w = (Ok d, w') ->
        0 <= int_field d "tests_passed" <= int_field d "tests_run").
Proof.
  intros W E code tests reqs m language w w' d Hrun. split.
  - destruct Hrun as [H | [H | H]].
    + eapply run_python_tests_runner_record; eauto.
    + eapply run_java_tests_runner_record; eauto.
    + eapply run_javascript_tests_runner_record; eauto.
  - apply run_python_tests_passed_bounded.
Qed.

Lemma runner_records_marked_and_bounded_witness : runner_record python_run_record.
Proof.
  refine (proj1 (runner_records_marked_and_bounded Sim.world (Sim.env (Ok O))
                   "def add(a, b): return a + b" python_test [] "m" "python"
                   (Sim.start [Sim.exited 0 pytest_one_passed])
                   (Sim.mkWorld [] [(pytest_cov_cmd "/tmp/sandbox/test_m.py" "m", 120)])
                   python_run_record _)).
  left. vm_compute. reflexivity.
Defined.


(** ** The Python runner before and around pytest *)

(** X6. The Python runner returns a failed record with zero counts and
    the error [Test validation failed: ...] without touching the file
    system or starting a process when the tests contain neither
    [def test_] nor [class Test], or do not contain [import], or do not
    compile; in the first case the message is the one about missing test
    functions. *)
Theorem python_runner_rejects_unmarked_tests :
  forall (W : Type) (E : Env W) (code tests : string) (reqs : list string)
         (m : string) (w : W),
    (PyStr.contains "def test_" tests = false /\ PyStr.contains "class Test" tests = false)
    \/ PyStr.contains "import" tests = false
    \/ py_compile E tests <> None ->
    exists msg,
      let d := python_failure ("Test validation failed: " ++ msg) in
      run_python_tests E code tests reqs m w = (Ok d, w)
      /\ failed_without_counts d
      /\ (PyStr.contains "def test_" tests = false /\ PyStr.contains "class Test" tests = false ->
          msg = "No test functions found (must start with 'test_' or be in 'Test' class)").
Proof.
  intros W E code tests reqs m w Hcase.
  unfold run_python_tests, _validate_python_tests.
  destruct (PyStr.contains "def test_" tests) eqn:Hd;
    destruct (PyStr.contains "class Test" tests) eqn:Hc; cbn [negb andb].
  4: { eexists. split; [reflexivity|]. split; [repeat split|]. reflexivity. }
  all: destruct (PyStr.contains "import" tests) eqn:Hi; cbn [negb];
    [|eexists; split; [reflexivity|]; split; [repeat split|];
      intros [? ?]; discriminate].
  all: destruct (py_compile E tests) as [err|] eqn:Hp;
    [eexists; split; [reflexivity|]; split; [repeat split|];
     intros [? ?]; discriminate|].
  all: exfalso; destruct Hcase as [[? ?] | [? | ?]]; congruence.
Qed.

Lemma python_runner_rejects_unmarked_tests_witness :
  exists msg,
    run_python_tests (Sim.env (Ok O)) add_py "import m" [] "m" (Sim.start [])
    = (Ok (python_failure ("Test validation failed: " ++ msg)), Sim.start []).
Proof.
  destruct (python_runner_rejects_unmarked_tests Sim.world (Sim.env (Ok O)) add_py
              "import m" [] "m" (Sim.start [])) as (msg & Hrun & _).
  - left. split; reflexivity.
  - exists msg. exact Hrun.
Defined.

(** X7. With a non-empty requirements list, whatever the pip process
    does (any exit code, a timeout, any other exception) has no effect on
    what follows: both the Python runner (pip timeout 120) and the local
    Python path of the validator (pip timeout 60) go on to run pytest on
    the files they wrote and remove the temporary directory afterwards. *)
Theorem python_install_outcome_is_ignored :
  forall (W : Type) (E : Env W) (code tests : string) (reqs : list string)
         (m tmpdir : string) (w w1 w2 w3 w4 w5 : W)
         (install install_local : outcome CompletedProcess),
    reqs <> [] ->
    mkdtemp E w = (Ok tmpdir, w1) ->
    write_text E (path_join tmpdir (m ++ ".py")) code w1 = (Ok tt, w2) ->
    write_text E (path_join tmpdir ("test_" ++ m ++ ".py")) (with_path_setup tests) w2
    = (Ok tt, w3) ->
    (fst (_validate_python_tests E tests) = true ->
     subprocess_run E (pip_install reqs) None 120 w3 = (install, w4) ->
     run_python_tests E code tests reqs m w
     = try_finally (python_test_step E tmpdir (path_join tmpdir ("test_" ++ m ++ ".py")) m)
         (rmtree E tmpdir) w4)
    /\ (subprocess_run E (pip_install reqs) None 60 w3 = (install_local, w5) ->
        _run_python_tests_locally E code tests reqs m w
        = try_finally
            (local_python_test_step E tmpdir (path_join tmpdir ("test_" ++ m ++ ".py")))
            (rmtree E tmpdir) w5).
Proof.
  intros W E code tests reqs m tmpdir w w1 w2 w3 w4 w5 install install_local
    Hreqs Htmp Hcode Htests.
  destruct reqs as [|r reqs]; [contradiction|]. split.
  - intros Hvalid Hpip. unfold run_python_tests.
    destruct (_validate_python_tests E tests) as [valid msg]. simpl in Hvalid. subst valid.
    unfold python_install_step. unfold_monad. cbn [negb]. cbv beta iota.
    rewrite Htmp. cbv beta iota. rewrite Hcode. cbv beta iota.
    rewrite Htests. cbv beta iota. rewrite Hpip.
    destruct install; reflexivity.
  - intros Hpip. unfold _run_python_tests_locally, local_python_test_step.
    unfold_monad. cbv beta iota.
    rewrite Htmp. cbv beta iota. rewrite Hcode. cbv beta iota.
    rewrite Htests. cbv beta iota. rewrite Hpip.
    destruct install_local; reflexivity.
Qed.

Lemma python_install_outcome_is_ignored_witness :
  exists d w',
    run_tests_locally (Sim.env (Ok O)) add_py python_test ["requests"] "m" "python"
      (Sim.start [timed_out "60"; Sim.exited 0 pytest_passed]) = (Ok d, w')
    /\ get d "tests_passed" = Some (VInt 1)
    /\ Sim.log w' = [(pip_install ["requests"], 60);
                     (pytest_cmd "/tmp/sandbox/test_m.py", 120)].
Proof.
  destruct (python_install_outcome_is_ignored Sim.world (Sim.env (Ok O))
              add_py python_test ["requests"] "m" "/tmp/sandbox"
              (Sim.start [timed_out "60"; Sim.exited 0 pytest_passed])
              (Sim.start [timed_out "60"; Sim.exited 0 pytest_passed])
              (Sim.start [timed_out "60"; Sim.exited 0 pytest_passed])
              (Sim.start [timed_out "60"; Sim.exited 0 pytest_passed])
              (Sim.mkWorld [Sim.exited 0 pytest_passed] [(pip_install ["requests"], 120)])
              (Sim.mkWorld [Sim.exited 0 pytest_passed] [(pip_install ["requests"], 60)])
              (timed_out "60") (timed_out "60"))
    as [_ Hlocal]; [discriminate | reflexivity | reflexivity | reflexivity |].
  change (run_tests_locally (Sim.env (Ok O)) add_py python_test ["requests"] "m" "python")
    with (_run_python_tests_locally (Sim.env (Ok O)) add_py python_test ["requests"] "m").
  rewrite Hlocal; [|reflexivity].
  eexists. eexists. split; [vm_compute; reflexivity|]. split; reflexivity.
Defined.

(** X8. When [npm install] raises in the JavaScript runner, a
    [TimeoutExpired] gives the timeout record, a [FileNotFoundError] gives
    the record [Node.js/npm not found in container], and any other
    exception leaves the step; in no case is [npm test] started. *)
Theorem javascript_install_exception :
  forall (W : Type) (E : Env W) (tmpdir language : string) (w w1 w2 : W) (t0 : Q)
         (e : exn),
    time_time E w = (t0, w1) ->
    subprocess_run E npm_install_cmd (Some tmpdir) 180 w1 = (Raise e, w2) ->
    js_test_step E tmpdir language w
    = match e with
      | TimeoutExpired _ => (Ok (js_timeout language e), w2)
      | FileNotFoundError _ =>
          (Ok (js_failure language "Node.js/npm not found in container"), w2)
      | _ => (Raise e, w2)
      end.
Proof.
  intros W E tmpdir language w w1 w2 t0 e Ht Hnpm.
  unfold js_test_step, js_install_and_test. unfold_monad. cbv beta iota.
  rewrite Ht. cbv beta iota. rewrite Hnpm. destruct e; reflexivity.
Qed.

Lemma javascript_install_exception_witness :
  exists d w',
    run_javascript_tests (Sim.env (Ok O)) "export const add = (a, b) => a + b;"
      jest_test [] "calc" "javascript" (Sim.start [timed_out "180"; Sim.exited 0 ""])
    = (Ok d, w')
    /\ get d "execution_time" = Some (VFloat 300)
    /\ get d "error"
       = Some (VStr "Test execution timeout: Command timed out after 180 seconds")
    /\ Sim.log w' = [(npm_install_cmd, 180)].
Proof.
  pose proof (javascript_install_exception Sim.world (Sim.env (Ok O)) "/tmp/sandbox"
                "javascript" (Sim.start [timed_out "180"; Sim.exited 0 ""])
                (Sim.start [timed_out "180"; Sim.exited 0 ""])
                (Sim.mkWorld [Sim.exited 0 ""] [(npm_install_cmd, 180)]) 0%Q
                (TimeoutExpired "Command timed out after 180 seconds")
                eq_refl eq_refl) as Hstep.
  assert (Hrun : run_javascript_tests (Sim.env (Ok O)) "export const add = (a, b) => a + b;"
                   jest_test [] "calc" "javascript"
                   (Sim.start [timed_out "180"; Sim.exited 0 ""])
                 = js_test_step (Sim.env (Ok O)) "/tmp/sandbox" "javascript"
                     (Sim.start [timed_out "180"; Sim.exited 0 ""])).
  { vm_compute. reflexivity. }
  rewrite Hrun, Hstep. eexists. eexists. split; [reflexivity|]. repeat split.
Defined.

(** ** Scaffolding twice *)

Lemma contains_prefix (sub a b : string) :
  PyStr.startswith sub a = true -> PyStr.contains sub (a ++ b) = true.
Proof.
  intros H. destruct (a ++ b) eqn:Hab.
  - destruct a; [|discriminate]. simpl in *. destruct sub; [reflexivity|discriminate].
  - rewrite <- Hab. clear Hab.
    assert (Hs : PyStr.startswith sub (a ++ b) = true).
    { revert a H. induction sub as [|c sub IH]; intros a H; [reflexivity|].
      destruct a as [|x a]; [discriminate|]. simpl in *.
      apply andb_prop in H as [-> H]. simpl. apply IH. exact H. }
    destruct (a ++ b); simpl in *; rewrite Hs; reflexivity.
Qed.

(** X9. The prologues the runners put in front of the tests are added
    at most once: the Python path set-up applied to its own result, and
    the Java package line applied to its own result, change nothing. *)
Theorem scaffold_prologues_are_idempotent :
  forall src : string,
    with_path_setup (with_path_setup src) = with_path_setup src
    /\ with_package (with_package src) = with_package src.
Proof.
  intros src. split.
  - unfold with_path_setup at 2 3.
    destruct (negb (PyStr.contains "sys.path" src) && negb (PyStr.contains "import sys" src))
      eqn:Hc.
    + unfold with_path_setup.
      assert (Hs : PyStr.contains "import sys" (path_setup ++ src) = true)
        by (apply contains_prefix; reflexivity).
      rewrite Hs. rewrite andb_false_r. reflexivity.
    + unfold with_path_setup. rewrite Hc. reflexivity.
  - unfold with_package at 2 3.
    destruct (negb (PyStr.contains "package " src)) eqn:Hc.
    + unfold with_package.
      assert (Hs : PyStr.contains "package "
                     ("package com.modernizer;" ++ PyStr.nl ++ PyStr.nl ++ src) = true)
        by (apply contains_prefix; reflexivity).
      rewrite Hs. reflexivity.
    + unfold with_package. rewrite Hc. reflexivity.
Qed.

(** ** The configuration *)

(** X10. In an environment that [validate_environment] accepts, the
    execution mode is [modal], [local] or [auto], Modal is preferred only
    if it is configured, and on a Hugging Face Space Modal is always
    preferred. *)
Theorem validated_environment_prefers_configured_modal :
  forall (getenv : string -> option string) (modal_toml_exists : bool),
    validate_environment getenv modal_toml_exists = true ->
    In (get_execution_mode getenv modal_toml_exists) ["modal"; "local"; "auto"]
    /\ (should_prefer_modal getenv modal_toml_exists = true ->
        is_modal_configured getenv modal_toml_exists = true)
    /\ (is_huggingface_space getenv = true ->
        should_prefer_modal getenv modal_toml_exists = true).
Proof.
  intros getenv toml. unfold validate_environment, should_prefer_modal, get_execution_mode.
  set (mode := PyStr.lower _). unfold in_list. cbn [existsb].
  destruct (String.eqb_spec mode "modal") as [->|_]; cbn [orb].
  - cbn [String.eqb Ascii.eqb Bool.eqb andb].
    destruct (is_huggingface_space getenv), (is_modal_configured getenv toml);
      cbn; intros H; try discriminate H; repeat split; auto.
  - destruct (String.eqb_spec mode "local") as [->|_]; cbn [orb].
    + cbn [String.eqb Ascii.eqb Bool.eqb andb].
      destruct (is_huggingface_space getenv), (is_modal_configured getenv toml);
        cbn; intros H; try discriminate H; repeat split; auto; discriminate.
    + destruct (String.eqb_spec mode "auto") as [->|_]; cbn [orb].
      * cbn [String.eqb Ascii.eqb Bool.eqb andb].
        destruct (is_huggingface_space getenv), (is_modal_configured getenv toml);
          cbn; intros H; try discriminate H; repeat split; auto; discriminate.
      * destruct (is_huggingface_space getenv), (is_modal_configured getenv toml);
          cbn; intros H; try discriminate H; repeat split; auto; discriminate.
Qed.

Lemma validated_environment_prefers_configured_modal_witness :
  should_prefer_modal space_getenv false = true.
Proof.
  refine (proj2 (proj2 (validated_environment_prefers_configured_modal
                          space_getenv false _)) _); reflexivity.
Defined.

(** ** Behavioural equivalence on the local backend *)

Section EquivalenceLocal.
Context {W : Type} (E : Env W) (MODAL_AVAILABLE MODAL_EXECUTOR_AVAILABLE : bool).

(** Without Modal, the validator returns a record with a truth value
    under [success] and a natural number under [tests_passed]. *)
Lemma local_validation_fields self oc mc tests reqs file_path w :
  prefer_modal self && MODAL_AVAILABLE = false ->
  exists d w',
    validate_transformation E MODAL_AVAILABLE MODAL_EXECUTOR_AVAILABLE self
      oc mc tests reqs file_path w = (Ok d, w')
    /\ (exists b, get d "success" = Some (VBool b))
    /\ (exists n, get d "tests_passed" = Some (VInt n) /\ 0 <= n).
Proof.
  intros Hlocal. unfold validate_transformation. rewrite Hlocal.
  unfold bind at 1. cbn [ret]. unfold try_except, bind.
  match goal with
  | |- context [run_tests_locally E ?c ?t ?r ?m ?l w] =>
    destruct (run_tests_locally E c t r m l w) as [[d|e] w1] eqn:Hrun
  end.
  - rewrite (log_passed_of_run_ok d w1) by (eapply run_tests_locally_record; eauto).
    eexists; eexists; split; [reflexivity|].
    destruct (run_tests_locally_local_record E _ _ _ _ _ _ _ _ Hrun)
      as (_ & Hs & (run & _ & _ & (n & Hn & Hle) & _) & _).
    split; [exact Hs|]. exists n. split; [exact Hn | lia].
  - eexists; eexists; split; [reflexivity|].
    split; [exists false; reflexivity|]. exists 0. split; [reflexivity | lia].
Qed.

End EquivalenceLocal.

Lemma ratio_reaches_threshold (m o : Z) :
  Qle_bool (95 # 100) (Qmake m (Z.to_pos (Z.max o 1))) = true
  <-> 95 * Z.max o 1 <= 100 * m.
Proof.
  rewrite Qle_bool_iff. unfold Qle. cbn [Qnum Qden].
  rewrite Z2Pos.id by lia. lia.
Qed.

(** X11. When Modal is not preferred or not importable,
    [test_behavioral_equivalence] always returns, and it reports
    equivalence exactly when both runs succeeded and the modernised run
    passed the same number of tests as the original one or at least 95
    percent of [max(original, 1)]. *)
Theorem behavioral_equivalence_in_local_mode :
  forall (W : Type) (E : Env W) (MODAL_AVAILABLE MODAL_EXECUTOR_AVAILABLE : bool)
         (self : ModalSandboxValidator) (original_code modernized_code : string)
         (test_cases : list test_case) (w : W),
    prefer_modal self && MODAL_AVAILABLE = false ->
    exists r w',
      test_behavioral_equivalence E MODAL_AVAILABLE MODAL_EXECUTOR_AVAILABLE self
        original_code modernized_code test_cases w = (Ok r, w')
      /\ (behavioral_equivalence r = true <->
          get (original_results r) "success" = Some (VBool true)
          /\ get (modernized_results r) "success" = Some (VBool true)
          /\ (int_field (modernized_results r) "tests_passed"
              = int_field (original_results r) "tests_passed"
              \/ 95 * Z.max (int_field (original_results r) "tests_passed") 1
                 <= 100 * int_field (modernized_results r) "tests_passed")).
Proof.
  intros W E MA MEA self oc mc cases w Hlocal.
  unfold test_behavioral_equivalence.
  destruct (local_validation_fields E MA MEA self oc oc
              (_generate_equivalence_test cases) None None w Hlocal)
    as (d1 & w1 & Hrun1 & (b1 & Hs1) & (n1 & Hp1 & Hn1)).
  destruct (local_validation_fields E MA MEA self oc mc
              (_generate_equivalence_test cases) None None w1 Hlocal)
    as (d2 & w2 & Hrun2 & (b2 & Hs2) & (n2 & Hp2 & Hn2)).
  unfold bind. rewrite Hrun1, Hrun2. unfold getitem. rewrite Hs1. cbn [ret truthy].
  destruct b1.
  - rewrite Hs2. cbn [ret truthy]. destruct b2.
    + rewrite Hp1, Hp2. cbn [ret value_eqb passed_ratio].
      destruct (Z.eqb_spec n1 n2) as [Heq|Hne].
      * eexists; eexists; split; [reflexivity|]. cbn [behavioral_equivalence
          original_results modernized_results]. unfold int_field. rewrite Hp1, Hp2.
        split; [intros _; repeat split; auto | reflexivity].
      * eexists; eexists; split; [reflexivity|]. cbn [behavioral_equivalence
          original_results modernized_results]. unfold int_field. rewrite Hp1, Hp2.
        rewrite ratio_reaches_threshold. split.
        -- intros H. repeat split; auto.
        -- intros (_ & _ & [H|H]); [congruence | exact H].
    + eexists; eexists; split; [reflexivity|]. cbn [behavioral_equivalence
        original_results modernized_results].
      split; [discriminate|]. intros (_ & H & _). congruence.
  - eexists; eexists; split; [reflexivity|]. cbn [behavioral_equivalence
      original_results modernized_results].
    split; [discriminate|]. intros (H & _). congruence.
Qed.

Lemma behavioral_equivalence_in_local_mode_witness :
  exists r w',
    test_behavioral_equivalence (Sim.env (Ok O)) false false local_validator
      add_py add_py [mkCase None] (Sim.start [Sim.exited 0 pytest_passed;
                                              Sim.exited 0 pytest_passed]) = (Ok r, w')
    /\ behavioral_equivalence r = true.
Proof.
  destruct (behavioral_equivalence_in_local_mode Sim.world (Sim.env (Ok O)) false false
              local_validator add_py add_py [mkCase None]
              (Sim.start [Sim.exited 0 pytest_passed; Sim.exited 0 pytest_passed])
              eq_refl) as (r & w' & Hrun & Hiff).
  exists r, w'. split; [exact Hrun|].
  vm_compute in Hrun. injection Hrun as <- <-. reflexivity.
Defined.

(** ** The labels of a batch *)

Section BatchLabels.
Context {W : Type} (E : Env W) (MODAL_AVAILABLE MODAL_EXECUTOR_AVAILABLE : bool).

Lemma run_record_counters (d : dict) :
  run_record d = true -> has d "tests_run" = true /\ has d "tests_passed" = true.
Proof.
  unfold run_record. intros H.
  apply andb_prop in H as [H _]. apply andb_prop in H as [H Hp].
  apply andb_prop in H as [_ Hr]. auto.
Qed.

Lemma batch_item_local_label (t : transformation) (w : W) :
  exists d w',
    batch_item_local E t w = (Ok d, w') /\ batch_record "local" "local_failed" d.
Proof.
  unfold batch_item_local, try_except, bind, ret.
  destruct (run_tests_locally E _ _ _ _ _ w) as [[d|e] w1] eqn:Hrun.
  - eexists; eexists; split; [reflexivity|]. left.
    pose proof (run_tests_locally_mode E _ _ _ _ _ _ _ _
                  (_detect_language_supported _ _) Hrun) as Hmode.
    apply run_tests_locally_record, run_record_counters in Hrun as [Hr Hp].
    unfold has. rewrite !get_set_other by reflexivity. auto.
  - eexists; eexists; split; [reflexivity|]. right. repeat split.
Qed.

Lemma batch_item_modal_label (t : transformation) (w : W) :
  exists d w',
    batch_item_modal E MODAL_AVAILABLE MODAL_EXECUTOR_AVAILABLE t w = (Ok d, w')
    /\ batch_record "modal" "modal_failed" d.
Proof.
  unfold batch_item_modal, try_except, bind, ret.
  destruct (run_tests_in_sandbox E _ _ _ _ _ _ _ w) as [[d|e] w1] eqn:Hrun.
  - eexists; eexists; split; [reflexivity|]. left.
    apply run_tests_in_sandbox_record, run_record_counters in Hrun as [Hr Hp].
    rewrite get_set_same. unfold has. rewrite !get_set_other by reflexivity. auto.
  - eexists; eexists; split; [reflexivity|]. right. repeat split.
Qed.

Lemma batch_loop_all (P : dict -> Prop) (item : transformation -> M (W:=W) dict)
    (ts : list transformation) :
  (forall t w, exists d w', item t w = (Ok d, w') /\ P d) ->
  forall (acc : list dict) (w : W),
    Forall P acc ->
    exists ds w', batch_loop item ts acc w = (Ok ds, w') /\ Forall P ds.
Proof.
  intros Hitem. induction ts as [|t ts IH]; intros acc w Hacc.
  - exists acc, w. split; [reflexivity | exact Hacc].
  - destruct (Hitem t w) as (d & w1 & Hd & Hp).
    cbn [batch_loop]. unfold bind. rewrite Hd. apply IH.
    apply Forall_app. split; [exact Hacc | constructor; [exact Hp | constructor]].
Qed.

End BatchLabels.

(** X12. Every record of [validate_batch] is labelled by the backend
    that was chosen for the whole batch: [modal] or [modal_failed] when
    Modal is preferred and importable, [local] or [local_failed]
    otherwise, so a batch never mixes the two backends. The records
    labelled [modal] or [local] carry [tests_run] and [tests_passed]; the
    records of a run that raised have [success] false and neither
    counter. *)
Theorem validate_batch_labels :
  forall (W : Type) (E : Env W) (MODAL_AVAILABLE MODAL_EXECUTOR_AVAILABLE : bool)
         (self : ModalSandboxValidator) (transformations : list transformation) (w : W),
  exists (results : list dict) (w' : W),
    validate_batch E MODAL_AVAILABLE MODAL_EXECUTOR_AVAILABLE self transformations w
    = (Ok results, w')
    /\ Forall (if prefer_modal self && MODAL_AVAILABLE
               then batch_record "modal" "modal_failed"
               else batch_record "local" "local_failed") results.
Proof.
  intros W E MA MEA self ts w. unfold validate_batch, bind.
  destruct (prefer_modal self && MA).
  - destruct (batch_loop_all (batch_record "modal" "modal_failed")
                (batch_item_modal E MA MEA) ts (batch_item_modal_label E MA MEA) [] w)
      as (ds & w' & Hloop & Hall); [constructor|].
    exists ds, w'. unfold try_except, bind. rewrite Hloop. split; [reflexivity | exact Hall].
  - cbn [ret].
    destruct (batch_loop_all (batch_record "local" "local_failed")
                (batch_item_local E) ts (batch_item_local_label E) [] w)
      as (ds & w' & Hloop & Hall); [constructor|].
    exists ds, w'. split; [exact Hloop | exact Hall].
Qed.

(** ** Temporary directories and sandboxes *)

Lemma released_same {W : Type} (E : Env W) (l l' : ledger W) :
  open_dirs l' = open_dirs l -> open_sandboxes l' = open_sandboxes l ->
  released E l l'.
Proof. intros Hd Hs. exists [], []. repeat split; auto. Qed.

Lemma released_but_dir {W : Type} (E : Env W) (l l' : ledger W) (d : string) :
  open_dirs l' = d :: open_dirs l -> open_sandboxes l' = open_sandboxes l ->
  removal_raises E d ->
  released E l l'.
Proof. intros Hd Hs Hr. exists [d], []. repeat split; auto. Qed.

Lemma released_but_sandbox {W : Type} (E : Env W) (l l' : ledger W) (sb : nat) :
  open_dirs l' = open_dirs l -> open_sandboxes l' = sb :: open_sandboxes l ->
  terminate_raises E sb ->
  released E l l'.
Proof. intros Hd Hs Hr. exists [], [sb]. repeat split; auto. Qed.

Lemma released_refl {W : Type} (E : Env W) (l : ledger W) : released E l l.
Proof. apply released_same; reflexivity. Qed.

Lemma released_trans {W : Type} (E : Env W) (a b c : ledger W) :
  released E a b -> released E b c -> released E a c.
Proof.
  intros (d1 & s1 & Hd1 & Hs1 & Fd1 & Fs1) (d2 & s2 & Hd2 & Hs2 & Fd2 & Fs2).
  exists (d2 ++ d1)%list, (s2 ++ s1)%list.
  rewrite Hd2, Hd1, Hs2, Hs1, !app_assoc.
  repeat split; apply Forall_app; auto.
Qed.

(** Where no clean-up call raises, nothing stays open. *)
Lemma released_clean {W : Type} (E : Env W) (l l' : ledger W) :
  (forall d, ~ removal_raises E d) -> (forall sb, ~ terminate_raises E sb) ->
  released E l l' ->
  open_dirs l' = open_dirs l /\ open_sandboxes l' = open_sandboxes l.
Proof.
  intros Hd Hs (dirs & sbs & -> & -> & Fd & Fs).
  destruct dirs as [|d dirs]; [|inversion Fd; subst; exfalso; eapply Hd; eauto].
  destruct sbs as [|sb sbs]; [|inversion Fs; subst; exfalso; eapply Hs; eauto].
  split; reflexivity.
Qed.

Lemma entered_refl {W : Type} (l : ledger W) : entered_at_most 0 0 l l.
Proof. unfold entered_at_most. lia. Qed.

Lemma entered_trans {W : Type} (d1 s1 d2 s2 : Z) (a b c : ledger W) :
  entered_at_most d1 s1 a b -> entered_at_most d2 s2 b c ->
  entered_at_most (d1 + d2) (s1 + s2) a c.
Proof. unfold entered_at_most. lia. Qed.

Lemma entered_more {W : Type} (d1 s1 d2 s2 : Z) (a b : ledger W) :
  d1 <= d2 -> s1 <= s2 -> entered_at_most d1 s1 a b -> entered_at_most d2 s2 a b.
Proof. unfold entered_at_most. lia. Qed.

Ltac ledger_leaf :=
  cbn [inner open_dirs open_sandboxes dirs_entered sandboxes_created without];
  rewrite ?String.eqb_refl, ?Nat.eqb_refl;
  split;
  [ first [ apply released_same; reflexivity
          | eapply released_but_dir;
            [reflexivity | reflexivity | do 3 eexists; eassumption]
          | eapply released_but_sandbox;
            [reflexivity | reflexivity | do 3 eexists; eassumption] ]
  | unfold entered_at_most;
    cbn [inner open_dirs open_sandboxes dirs_entered sandboxes_created]; lia ].

Ltac ledger_paths H :=
  unfold audited, lifted in H; unfold_monad_in H;
  cbn [mkdtemp rmtree mkdir write_text path_exists read_text subprocess_run time_time
       py_compile manifest sandbox_create sb_write sb_exec sb_terminate json_loads
       inner open_dirs open_sandboxes dirs_entered sandboxes_created] in H;
  cbv beta iota in H;
  repeat (branch_in H;
          cbn [inner open_dirs open_sandboxes dirs_entered sandboxes_created] in H;
          cbv beta iota in H;
          try discriminate H);
  try (injection H as <- <-).

Ltac ledger_cases H := ledger_paths H; ledger_leaf.

Ltac no_sandbox H := ledger_paths H; reflexivity.

Section Ledger.
Context {W : Type} (E : Env W) (MODAL_AVAILABLE MODAL_EXECUTOR_AVAILABLE : bool).

Lemma run_tests_locally_released code tests reqs m language l r l' :
  run_tests_locally (audited E) code tests reqs m language l = (r, l') ->
  released E l l' /\ entered_at_most 1 0 l l'.
Proof.
  unfold run_tests_locally, _run_python_tests_locally, _run_java_tests_locally,
    _run_js_tests_locally.
  intros H. ledger_cases H.
Qed.

Lemma execute_in_modal_released code tests reqs m language l r l' :
  execute_in_modal (audited E) MODAL_AVAILABLE code tests reqs m language l = (r, l') ->
  released E l l' /\ entered_at_most 0 1 l l'.
Proof.
  unfold execute_in_modal, _execute_python_in_sandbox, _execute_java_in_sandbox,
    _execute_javascript_in_sandbox.
  change (jest_json_counts (audited E)) with (jest_json_counts E).
  intros H. ledger_cases H.
Qed.

Lemma run_tests_in_sandbox_released code tests reqs m language l r l' :
  run_tests_in_sandbox (audited E) MODAL_AVAILABLE MODAL_EXECUTOR_AVAILABLE
    code tests reqs m language l = (r, l') ->
  released E l l' /\ entered_at_most 1 1 l l'.
Proof.
  unfold run_tests_in_sandbox. destruct MODAL_EXECUTOR_AVAILABLE.
  - unfold try_except.
    destruct (execute_in_modal (audited E) MODAL_AVAILABLE code tests reqs m language l)
      as [[d|e] l1] eqn:Hrun; apply execute_in_modal_released in Hrun as [Hr He].
    + intros [= <- <-]. split; [exact Hr|].
      eapply entered_more; [| |exact He]; lia.
    + intros Hlocal. apply run_tests_locally_released in Hlocal as [Hr' He'].
      split; [eapply released_trans; eauto|].
      apply (entered_trans 0 1 1 0 _ _ _ He He').
  - intros H. apply run_tests_locally_released in H as [Hr He].
    split; [exact Hr|]. eapply entered_more; [| |exact He]; lia.
Qed.

Lemma log_passed_of_run_world {V : Type} (d : dict) (v : V) :
  snd (log_passed_of_run d v) = v.
Proof.
  unfold log_passed_of_run, getitem. unfold_monad.
  destruct (get d "tests_passed"); [|reflexivity].
  destruct (get d "tests_run"); reflexivity.
Qed.

Lemma local_leg_released code tests reqs m language l r l' :
  try_except
    (results <- run_tests_locally (audited E) code tests reqs m language ;;
     log_passed_of_run results ;;; ret results)%py
    (fun e => ret (validation_failed e)) l = (r, l') ->
  released E l l' /\ entered_at_most 1 0 l l'.
Proof.
  unfold try_except, bind.
  destruct (run_tests_locally (audited E) code tests reqs m language l)
    as [[d|e] l1] eqn:Hrun; apply run_tests_locally_released in Hrun.
  - pose proof (log_passed_of_run_world d l1) as Hlog.
    destruct (log_passed_of_run d l1) as [[[]|e] l2]; simpl in Hlog; subst l2;
      intros [= <- <-]; exact Hrun.
  - intros [= <- <-]. exact Hrun.
Qed.

Lemma validate_transformation_released self oc mc tests reqs file_path l r l' :
  validate_transformation (audited E) MODAL_AVAILABLE MODAL_EXECUTOR_AVAILABLE self
    oc mc tests reqs file_path l = (r, l') ->
  released E l l' /\ entered_at_most 2 1 l l'.
Proof.
  unfold validate_transformation. unfold bind at 1.
  destruct (prefer_modal self && MODAL_AVAILABLE).
  - unfold try_except at 1. unfold bind at 1.
    match goal with
    | |- context [run_tests_in_sandbox (audited E) ?a ?b ?c ?t ?rq ?mm ?lg l] =>
      destruct (run_tests_in_sandbox (audited E) a b c t rq mm lg l)
        as [[d|e] l1] eqn:Hrun; apply run_tests_in_sandbox_released in Hrun as [Hr He]
    end.
    + unfold bind at 1.
      match goal with
      | |- context [log_passed_of_run ?d' l1] =>
        pose proof (log_passed_of_run_world d' l1) as Hlog;
        destruct (log_passed_of_run d' l1) as [[[]|e] l2]; simpl in Hlog; subst l2
      end.
      * cbn [ret]. intros [= <- <-]. split; [exact Hr|].
        eapply entered_more; [| |exact He]; lia.
      * cbn [ret]. intros Hleg. apply local_leg_released in Hleg as [Hr' He'].
        split; [eapply released_trans; eauto|].
        apply (entered_trans 1 1 1 0 _ _ _ He He').
    + cbn [ret]. intros Hleg. apply local_leg_released in Hleg as [Hr' He'].
      split; [eapply released_trans; eauto|].
      apply (entered_trans 1 1 1 0 _ _ _ He He').
  - cbn [ret]. intros Hleg. apply local_leg_released in Hleg as [Hr He].
    split; [exact Hr|]. eapply entered_more; [| |exact He]; lia.
Qed.

Lemma batch_loop_released (item : transformation -> M (W:=ledger W) dict)
    (ts : list transformation) :
  (forall t l r l', item t l = (r, l') -> released E l l') ->
  forall acc l r l', batch_loop item ts acc l = (r, l') -> released E l l'.
Proof.
  intros Hitem. induction ts as [|t ts IH]; intros acc l r l'.
  - intros [= <- <-]. apply released_refl.
  - cbn [batch_loop]. unfold bind.
    destruct (item t l) as [[d|e] l1] eqn:Hd; apply Hitem in Hd.
    + intros Hrest. apply IH in Hrest. eapply released_trans; eauto.
    + intros [= <- <-]. exact Hd.
Qed.

Lemma batch_item_local_released t l r l' :
  batch_item_local (audited E) t l = (r, l') -> released E l l'.
Proof.
  unfold batch_item_local, try_except, bind, ret.
  destruct (run_tests_locally (audited E) _ _ _ _ _ l) as [[d|e] l1] eqn:Hrun;
    apply run_tests_locally_released in Hrun as [Hrun _]; intros [= <- <-]; exact Hrun.
Qed.

Lemma batch_item_modal_released t l r l' :
  batch_item_modal (audited E) MODAL_AVAILABLE MODAL_EXECUTOR_AVAILABLE t l = (r, l') ->
  released E l l'.
Proof.
  unfold batch_item_modal, try_except, bind, ret.
  destruct (run_tests_in_sandbox (audited E) _ _ _ _ _ _ _ l) as [[d|e] l1] eqn:Hrun;
    apply run_tests_in_sandbox_released in Hrun as [Hrun _]; intros [= <- <-]; exact Hrun.
Qed.

Lemma validate_batch_released self ts l r l' :
  validate_batch (audited E) MODAL_AVAILABLE MODAL_EXECUTOR_AVAILABLE self ts l = (r, l') ->
  released E l l'.
Proof.
  unfold validate_batch. unfold bind at 1.
  destruct (prefer_modal self && MODAL_AVAILABLE).
  - unfold try_except, bind.
    destruct (batch_loop (batch_item_modal (audited E) MODAL_AVAILABLE
                            MODAL_EXECUTOR_AVAILABLE) ts [] l) as [[ds|e] l1] eqn:Hloop;
      apply (batch_loop_released _ ts batch_item_modal_released) in Hloop.
    + cbn [ret]. intros [= <- <-]. exact Hloop.
    + cbn [ret]. intros Hlocal.
      apply (batch_loop_released _ ts batch_item_local_released) in Hlocal.
      eapply released_trans; eauto.
  - cbn [ret]. apply (batch_loop_released _ ts batch_item_local_released).
Qed.

Lemma run_python_tests_released code tests reqs m l r l' :
  run_python_tests (audited E) code tests reqs m l = (r, l') ->
  released E l l' /\ entered_at_most 1 0 l l'.
Proof.
  unfold run_python_tests, python_install_step, python_test_step.
  change (_validate_python_tests (audited E)) with (_validate_python_tests E).
  intros H. ledger_cases H.
Qed.

Lemma run_java_tests_released code tests reqs m l r l' :
  run_java_tests (audited E) code tests reqs m l = (r, l') ->
  released E l l' /\ entered_at_most 1 0 l l'.
Proof.
  unfold run_java_tests, java_test_step, java_report, jacoco_coverage,
    _create_maven_project.
  intros H. ledger_cases H.
Qed.

Lemma run_javascript_tests_released code tests reqs m language l r l' :
  run_javascript_tests (audited E) code tests reqs m language l = (r, l') ->
  released E l l' /\ entered_at_most 1 0 l l'.
Proof.
  unfold run_javascript_tests, js_test_step, js_install_and_test, js_report,
    jest_coverage, _create_nodejs_project.
  intros H. ledger_cases H.
Qed.

Lemma run_python_tests_no_sandbox code tests reqs m l r l' :
  run_python_tests (audited E) code tests reqs m l = (r, l') ->
  open_sandboxes l' = open_sandboxes l.
Proof.
  unfold run_python_tests, python_install_step, python_test_step.
  change (_validate_python_tests (audited E)) with (_validate_python_tests E).
  intros H. no_sandbox H.
Qed.

Lemma run_java_tests_no_sandbox code tests reqs m l r l' :
  run_java_tests (audited E) code tests reqs m l = (r, l') ->
  open_sandboxes l' = open_sandboxes l.
Proof.
  unfold run_java_tests, java_test_step, java_report, jacoco_coverage,
    _create_maven_project.
  intros H. no_sandbox H.
Qed.

Lemma run_javascript_tests_no_sandbox code tests reqs m language l r l' :
  run_javascript_tests (audited E) code tests reqs m language l = (r, l') ->
  open_sandboxes l' = open_sandboxes l.
Proof.
  unfold run_javascript_tests, js_test_step, js_install_and_test, js_report,
    jest_coverage, _create_nodejs_project.
  intros H. no_sandbox H.
Qed.

End Ledger.

(** ** The ledger only observes *)

Section Observer.
Context {W : Type} (E : Env W) (MODAL_AVAILABLE MODAL_EXECUTOR_AVAILABLE : bool).

Lemma observes_ret {A : Type} (a : A) : observes (W:=W) (ret a) (ret a).
Proof. intros l. reflexivity. Qed.

Lemma observes_raise {A : Type} (e : exn) : observes (W:=W) (A:=A) (raise e) (raise e).
Proof. intros l. reflexivity. Qed.

Lemma observes_bind {A B : Type} (c : M (W:=ledger W) A) (c' : M (W:=W) A)
    (k : A -> M (W:=ledger W) B) (k' : A -> M (W:=W) B) :
  observes c c' -> (forall a, observes (k a) (k' a)) -> observes (bind c k) (bind c' k').
Proof.
  intros Hc Hk l. unfold bind. specialize (Hc l). unfold plain in Hc.
  destruct (c l) as [[a|e] l1]; cbn [fst snd] in Hc; rewrite <- Hc.
  - apply Hk.
  - reflexivity.
Qed.

Lemma observes_try_except {A : Type} (c : M (W:=ledger W) A) (c' : M (W:=W) A)
    (h : exn -> M (W:=ledger W) A) (h' : exn -> M (W:=W) A) :
  observes c c' -> (forall e, observes (h e) (h' e)) ->
  observes (try_except c h) (try_except c' h').
Proof.
  intros Hc Hh l. unfold try_except. specialize (Hc l). unfold plain in Hc.
  destruct (c l) as [[a|e] l1]; cbn [fst snd] in Hc; rewrite <- Hc.
  - reflexivity.
  - apply Hh.
Qed.

Lemma observes_try_finally {A : Type} (c : M (W:=ledger W) A) (c' : M (W:=W) A)
    (f : M (W:=ledger W) unit) (f' : M (W:=W) unit) :
  observes c c' -> observes f f' -> observes (try_finally c f) (try_finally c' f').
Proof.
  intros Hc Hf l. unfold try_finally. specialize (Hc l). unfold plain in Hc.
  destruct (c l) as [o l1]; cbn [fst snd] in Hc; rewrite <- Hc.
  specialize (Hf l1). unfold plain in Hf.
  destruct (f l1) as [[[]|e] l2]; cbn [fst snd] in Hf; rewrite <- Hf; reflexivity.
Qed.

Lemma observes_lifted {A : Type} (c : W -> A * W) :
  forall l, plain (lifted c l) = c (inner l).
Proof. intros l. unfold plain, lifted. destruct (c (inner l)); reflexivity. Qed.

Lemma observes_mkdtemp : observes (mkdtemp (audited E)) (mkdtemp E).
Proof.
  intros l. unfold plain. cbn [audited mkdtemp].
  destruct (mkdtemp E (inner l)) as [[d|e] w]; reflexivity.
Qed.

Lemma observes_rmtree d : observes (rmtree (audited E) d) (rmtree E d).
Proof.
  intros l. unfold plain. cbn [audited rmtree].
  destruct (rmtree E d (inner l)) as [[u|e] w]; reflexivity.
Qed.

Lemma observes_write_text p s : observes (write_text (audited E) p s) (write_text E p s).
Proof. intros l. apply observes_lifted. Qed.

Lemma observes_subprocess_run cmd cwd t :
  observes (subprocess_run (audited E) cmd cwd t) (subprocess_run E cmd cwd t).
Proof. intros l. apply observes_lifted. Qed.

Lemma observes_now : observes (now (audited E)) (now E).
Proof.
  intros l. unfold plain, now. cbn [audited time_time]. unfold lifted.
  destruct (time_time E (inner l)); reflexivity.
Qed.

Lemma observes_sandbox_create image :
  observes (sandbox_create (audited E) image) (sandbox_create E image).
Proof.
  intros l. unfold plain. cbn [audited sandbox_create].
  destruct (sandbox_create E image (inner l)) as [[d|e] w]; reflexivity.
Qed.

Lemma observes_sb_write sb p s : observes (sb_write (audited E) sb p s) (sb_write E sb p s).
Proof. intros l. apply observes_lifted. Qed.

Lemma observes_sb_exec sb cmd t : observes (sb_exec (audited E) sb cmd t) (sb_exec E sb cmd t).
Proof. intros l. apply observes_lifted. Qed.

Lemma observes_sb_terminate sb : observes (sb_terminate (audited E) sb) (sb_terminate E sb).
Proof.
  intros l. unfold plain. cbn [audited sb_terminate].
  destruct (sb_terminate E sb (inner l)) as [[u|e] w]; reflexivity.
Qed.

Lemma observes_mkdir p : observes (mkdir (audited E) p) (mkdir E p).
Proof. intros l. apply observes_lifted. Qed.

Lemma observes_read_text p : observes (read_text (audited E) p) (read_text E p).
Proof. intros l. apply observes_lifted. Qed.

Lemma observes_path_exists p :
  observes (fun l => let (b, l') := path_exists (audited E) p l in (Ok b, l'))
           (fun w => let (b, w') := path_exists E p w in (Ok b, w')).
Proof.
  intros l. unfold plain. cbn [audited path_exists]. unfold lifted.
  destruct (path_exists E p (inner l)); reflexivity.
Qed.

Lemma observes_getitem (d : dict) (k : string) : observes (W:=W) (getitem d k) (getitem d k).
Proof. intros l. unfold getitem. destruct (get d k); reflexivity. Qed.

Ltac observe :=
  repeat first
    [ apply observes_ret | apply observes_raise
    | apply observes_mkdtemp | apply observes_rmtree | apply observes_write_text
    | apply observes_subprocess_run | apply observes_now | apply observes_sandbox_create
    | apply observes_sb_write | apply observes_sb_exec | apply observes_sb_terminate
    | apply observes_getitem | apply observes_mkdir | apply observes_read_text
    | apply observes_path_exists
    | apply observes_bind; [|intros ?]
    | apply observes_try_except; [|intros ?]
    | apply observes_try_finally
    | match goal with
      | |- observes (if ?b then _ else _) _ => destruct b
      | |- observes (match ?x with _ => _ end) _ => destruct x
      | |- observes (let '(_, _) := ?x in _) _ => destruct x
      end ].

Lemma run_tests_locally_observed code tests reqs m language :
  observes (run_tests_locally (audited E) code tests reqs m language)
           (run_tests_locally E code tests reqs m language).
Proof.
  unfold run_tests_locally, _run_python_tests_locally, _run_java_tests_locally,
    _run_js_tests_locally, with_tempdir, returning.
  observe.
Qed.

Lemma execute_in_modal_observed code tests reqs m language :
  observes (execute_in_modal (audited E) MODAL_AVAILABLE code tests reqs m language)
           (execute_in_modal E MODAL_AVAILABLE code tests reqs m language).
Proof.
  unfold execute_in_modal, _execute_python_in_sandbox, _execute_java_in_sandbox,
    _execute_javascript_in_sandbox.
  change (jest_json_counts (audited E)) with (jest_json_counts E).
  change (manifest (audited E)) with (manifest E).
  observe.
Qed.

Lemma run_tests_in_sandbox_observed code tests reqs m language :
  observes (run_tests_in_sandbox (audited E) MODAL_AVAILABLE MODAL_EXECUTOR_AVAILABLE
              code tests reqs m language)
           (run_tests_in_sandbox E MODAL_AVAILABLE MODAL_EXECUTOR_AVAILABLE
              code tests reqs m language).
Proof.
  unfold run_tests_in_sandbox. destruct MODAL_EXECUTOR_AVAILABLE.
  - apply observes_try_except; [apply execute_in_modal_observed|].
    intros _. apply run_tests_locally_observed.
  - apply run_tests_locally_observed.
Qed.

Lemma log_passed_of_run_observed (d : dict) :
  observes (W:=W) (log_passed_of_run d) (log_passed_of_run d).
Proof. unfold log_passed_of_run. observe. Qed.

Lemma validate_transformation_observed self oc mc tests reqs file_path :
  observes (validate_transformation (audited E) MODAL_AVAILABLE MODAL_EXECUTOR_AVAILABLE
              self oc mc tests reqs file_path)
           (validate_transformation E MODAL_AVAILABLE MODAL_EXECUTOR_AVAILABLE
              self oc mc tests reqs file_path).
Proof.
  unfold validate_transformation.
  repeat first
    [ apply run_tests_in_sandbox_observed | apply run_tests_locally_observed
    | apply log_passed_of_run_observed | progress observe ].
Qed.

Lemma batch_loop_observed (item : transformation -> M (W:=ledger W) dict)
    (item' : transformation -> M (W:=W) dict) (ts : list transformation) :
  (forall t, observes (item t) (item' t)) ->
  forall acc, observes (batch_loop item ts acc) (batch_loop item' ts acc).
Proof.
  intros Hitem. induction ts as [|t ts IH]; intros acc; cbn [batch_loop].
  - apply observes_ret.
  - apply observes_bind; [apply Hitem | intros d; apply IH].
Qed.

Lemma validate_batch_observed self ts :
  observes (validate_batch (audited E) MODAL_AVAILABLE MODAL_EXECUTOR_AVAILABLE self ts)
           (validate_batch E MODAL_AVAILABLE MODAL_EXECUTOR_AVAILABLE self ts).
Proof.
  unfold validate_batch.
  repeat first
    [ apply batch_loop_observed; intros t; unfold batch_item_modal, batch_item_local
    | apply run_tests_in_sandbox_observed | apply run_tests_locally_observed
    | progress observe ].
Qed.

Lemma run_python_tests_observed code tests reqs m :
  observes (run_python_tests (audited E) code tests reqs m)
           (run_python_tests E code tests reqs m).
Proof.
  unfold run_python_tests, python_install_step, python_test_step, with_tempdir, returning.
  change (_validate_python_tests (audited E)) with (_validate_python_tests E).
  observe.
Qed.

Lemma run_java_tests_observed code tests reqs m :
  observes (run_java_tests (audited E) code tests reqs m)
           (run_java_tests E code tests reqs m).
Proof.
  unfold run_java_tests, java_test_step, java_report, jacoco_coverage,
    _create_maven_project, with_tempdir, returning.
  change (manifest (audited E)) with (manifest E).
  observe.
Qed.

Lemma run_javascript_tests_observed code tests reqs m language :
  observes (run_javascript_tests (audited E) code tests reqs m language)
           (run_javascript_tests E code tests reqs m language).
Proof.
  unfold run_javascript_tests, js_test_step, js_install_and_test, js_report,
    jest_coverage, _create_nodejs_project, with_tempdir, returning.
  change (manifest (audited E)) with (manifest E).
  observe.
Qed.

End Observer.

(** X13. A temporary directory or a sandbox of [validate_transformation]
    or [validate_batch] is still there when the call is over only if the
    clean-up call made for that very directory or sandbox raised: on
    every path, also when a process times out, a file cannot be written
    or the remote run raises and the local one takes over, every
    directory entered is handed to its own removal and every sandbox
    created to its own termination, so that nothing stays open where no
    clean-up call raises. One validation enters at most two directories
    and creates at most one sandbox. The ledger only observes: the run
    over it returns the outcome and the world of the run without it. *)
Theorem validator_leaves_nothing_open :
  forall (W : Type) (E : Env W) (MODAL_AVAILABLE MODAL_EXECUTOR_AVAILABLE : bool)
         (self : ModalSandboxValidator) (original_code modernized_code tests : string)
         (requirements : option (list string)) (file_path : option string)
         (transformations : list transformation) (l : ledger W),
    let one :=
      validate_transformation (audited E) MODAL_AVAILABLE MODAL_EXECUTOR_AVAILABLE
        self original_code modernized_code tests requirements file_path l in
    let batch :=
      validate_batch (audited E) MODAL_AVAILABLE MODAL_EXECUTOR_AVAILABLE
        self transformations l in
    (released E l (snd one)
     /\ entered_at_most 2 1 l (snd one)
     /\ plain one
        = validate_transformation E MODAL_AVAILABLE MODAL_EXECUTOR_AVAILABLE
            self original_code modernized_code tests requirements file_path (inner l))
    /\ (released E l (snd batch)
        /\ plain batch
           = validate_batch E MODAL_AVAILABLE MODAL_EXECUTOR_AVAILABLE
               self transformations (inner l))
    /\ ((forall d, ~ removal_raises E d) -> (forall sb, ~ terminate_raises E sb) ->
        open_dirs (snd one) = open_dirs l
        /\ open_sandboxes (snd one) = open_sandboxes l
        /\ open_dirs (snd batch) = open_dirs l
        /\ open_sandboxes (snd batch) = open_sandboxes l).
Proof.
  intros. subst one batch.
  assert (H1 : released E l
                 (snd (validate_transformation (audited E) MODAL_AVAILABLE
                         MODAL_EXECUTOR_AVAILABLE self original_code modernized_code
                         tests requirements file_path l))
               /\ entered_at_most 2 1 l
                    (snd (validate_transformation (audited E) MODAL_AVAILABLE
                            MODAL_EXECUTOR_AVAILABLE self original_code modernized_code
                            tests requirements file_path l))).
  { destruct (validate_transformation _ _ _ _ _ _ _ _ _ l) as [r l'] eqn:H.
    apply validate_transformation_released in H. exact H. }
  assert (H2 : released E l
                 (snd (validate_batch (audited E) MODAL_AVAILABLE
                         MODAL_EXECUTOR_AVAILABLE self transformations l))).
  { destruct (validate_batch _ _ _ _ _ l) as [r l'] eqn:H.
    apply validate_batch_released in H. exact H. }
  destruct H1 as [H1 H1']. split; [|split].
  - split; [exact H1|]. split; [exact H1'|]. apply validate_transformation_observed.
  - split; [exact H2|]. apply validate_batch_observed.
  - intros Hd Hs.
    destruct (released_clean E _ _ Hd Hs H1) as [? ?].
    destruct (released_clean E _ _ Hd Hs H2) as [? ?]. auto.
Qed.

(** X14. The three runners create no sandbox and enter one temporary
    directory at most, which is still there when the runner returns or
    raises only if its own removal raised; the run over the ledger
    returns the outcome and the world of the run without it. *)
Theorem runners_leave_no_directory :
  forall (W : Type) (E : Env W) (code tests : string) (reqs : list string)
         (m language : string) (l : ledger W),
    let python := run_python_tests (audited E) code tests reqs m l in
    let java := run_java_tests (audited E) code tests reqs m l in
    let javascript := run_javascript_tests (audited E) code tests reqs m language l in
    (released E l (snd python) /\ entered_at_most 1 0 l (snd python)
     /\ open_sandboxes (snd python) = open_sandboxes l
     /\ plain python = run_python_tests E code tests reqs m (inner l))
    /\ (released E l (snd java) /\ entered_at_most 1 0 l (snd java)
        /\ open_sandboxes (snd java) = open_sandboxes l
        /\ plain java = run_java_tests E code tests reqs m (inner l))
    /\ (released E l (snd javascript) /\ entered_at_most 1 0 l (snd javascript)
        /\ open_sandboxes (snd javascript) = open_sandboxes l
        /\ plain javascript = run_javascript_tests E code tests reqs m language (inner l))
    /\ ((forall d, ~ removal_raises E d) ->
        open_dirs (snd python) = open_dirs l
        /\ open_dirs (snd java) = open_dirs l
        /\ open_dirs (snd javascript) = open_dirs l).
Proof.
  intros. subst python java javascript.
  destruct (run_python_tests (audited E) code tests reqs m l) as [rp lp] eqn:Hp.
  destruct (run_java_tests (audited E) code tests reqs m l) as [rj lj] eqn:Hj.
  destruct (run_javascript_tests (audited E) code tests reqs m language l)
    as [rs ls] eqn:Hs.
  pose proof (run_python_tests_observed E code tests reqs m l) as Op.
  pose proof (run_java_tests_observed E code tests reqs m l) as Oj.
  pose proof (run_javascript_tests_observed E code tests reqs m language l) as Os.
  rewrite Hp in Op. rewrite Hj in Oj. rewrite Hs in Os.
  pose proof (run_python_tests_no_sandbox E _ _ _ _ _ _ _ Hp) as Np.
  pose proof (run_java_tests_no_sandbox E _ _ _ _ _ _ _ Hj) as Nj.
  pose proof (run_javascript_tests_no_sandbox E _ _ _ _ _ _ _ _ Hs) as Ns.
  apply run_python_tests_released in Hp as [Rp Ep].
  apply run_java_tests_released in Hj as [Rj Ej].
  apply run_javascript_tests_released in Hs as [Rs Es].
  cbn [snd]. split; [|split; [|split]];
    try (split; [|split; [|split]]; assumption).
  intros Hd.
  assert (Hopen : forall l', released E l l' -> open_dirs l' = open_dirs l).
  { intros l' (dirs & sbs & Hdl & _ & Fd & _). rewrite Hdl.
    destruct dirs as [|d dirs]; [reflexivity|].
    inversion Fd; subst. exfalso. eapply Hd; eauto. }
  repeat split; apply Hopen; assumption.
Qed.

(** ** The remote executor *)

Lemma modal_failure_one_test (language mode msg : string) :
  one_test_at_most (modal_failure language mode msg).
Proof.
  unfold one_test_at_most, bounded_counts, int_between, int_field. cbn.
  split; [|lia]. exists 0. split; [reflexivity|]. split; [lia|].
  split; exists 0; (split; [reflexivity | lia]).
Qed.

Lemma one_test_labelled (d : dict) (v : value) :
  one_test_at_most d -> one_test_at_most (set d "execution_mode" v).
Proof.
  unfold one_test_at_most, bounded_counts, int_between, int_field.
  rewrite !get_set_other by reflexivity. auto.
Qed.

Lemma exit_code_report_one_test (language : string) (p : CompletedProcess) :
  one_test_at_most (exit_code_report language p).
Proof.
  unfold one_test_at_most, bounded_counts, int_between, int_field, exit_code_report.
  cbn. destruct (returncode p =? 0).
  - split; [|lia]. exists 1. split; [reflexivity|]. split; [lia|].
    split; eexists; (split; [reflexivity | lia]).
  - split; [|lia]. exists 1. split; [reflexivity|]. split; [lia|].
    split; eexists; (split; [reflexivity | lia]).
Qed.

Section Executor.
Context {W : Type} (E : Env W).

Lemma _execute_python_in_sandbox_one_test sb code tests m w :
  exists d w', _execute_python_in_sandbox E sb code tests m w = (Ok d, w')
               /\ one_test_at_most d.
Proof.
  unfold _execute_python_in_sandbox. unfold_monad. cbv beta iota.
  repeat (branch_goal; cbv beta iota);
    eexists; eexists; (split; [reflexivity|]);
    first [apply exit_code_report_one_test | apply modal_failure_one_test].
Qed.

Lemma _execute_java_in_sandbox_one_test sb code tests m w :
  exists d w', _execute_java_in_sandbox E sb code tests m w = (Ok d, w')
               /\ one_test_at_most d.
Proof.
  unfold _execute_java_in_sandbox. unfold_monad. cbv beta iota.
  repeat (branch_goal; cbv beta iota);
    eexists; eexists; (split; [reflexivity|]);
    first [ apply modal_failure_one_test
          | unfold one_test_at_most, bounded_counts, int_between, int_field; cbn;
            (split; [|lia]); exists 1; (split; [reflexivity|]); (split; [lia|]);
            split; eexists; (split; [reflexivity | lia]) ].
Qed.

End Executor.

(** X15. [execute_in_modal] never raises. Its record is labelled
    [modal_unavailable], [unsupported], [modal] or [modal_error]; with
    one of the first two labels nothing was done to the world; and for
    Python and Java, in any letter case, the record counts one test at
    most, with [tests_run = tests_passed + tests_failed] and both
    counters between 0 and [tests_run]. *)
Theorem execute_in_modal_record :
  forall (W : Type) (E : Env W) (MODAL_AVAILABLE : bool) (code tests : string)
         (reqs : list string) (m language : string) (w : W),
  exists d w',
    execute_in_modal E MODAL_AVAILABLE code tests reqs m language w = (Ok d, w')
    /\ In (get d "execution_mode")
         [Some (VStr "modal_unavailable"); Some (VStr "unsupported");
          Some (VStr "modal"); Some (VStr "modal_error")]
    /\ (In (get d "execution_mode")
          [Some (VStr "modal_unavailable"); Some (VStr "unsupported")] -> w' = w)
    /\ (In (PyStr.lower language) ["python"; "java"] -> one_test_at_most d).
Proof.
  intros W E MA code tests reqs m language w. unfold execute_in_modal.
  destruct MA; cbn [negb].
  2: { eexists; eexists; split; [reflexivity|]. split; [cbn; auto|].
       split; [reflexivity|]. intros _. apply modal_failure_one_test. }
  destruct (in_list (PyStr.lower language) (LANGUAGE_IMAGES true)) eqn:Hsup; cbn [negb].
  2: { eexists; eexists; split; [reflexivity|]. split; [cbn; auto|].
       split; [reflexivity|]. intros _. apply modal_failure_one_test. }
  unfold try_except at 1. unfold bind at 1.
  destruct (sandbox_create E (PyStr.lower language) w) as [[sb|e] w1] eqn:Hsb.
  2: { eexists; eexists; split; [reflexivity|]. split; [cbn; auto 6|].
       split; [cbn; intros [H|[H|[]]]; discriminate H|].
       intros _. apply modal_failure_one_test. }
  unfold try_finally. unfold bind at 1.
  assert (Hexec : exists d w2,
             (if (PyStr.lower language =? "python")%string
              then _execute_python_in_sandbox E sb code tests m
              else if (PyStr.lower language =? "java")%string
              then _execute_java_in_sandbox E sb code tests m
              else if in_list (PyStr.lower language) ["javascript"; "typescript"]
              then _execute_javascript_in_sandbox E sb code tests m (PyStr.lower language)
              else ret (modal_failure language "modal"
                          ("No executor for language: " ++ language))) w1 = (Ok d, w2)
             /\ (In (PyStr.lower language) ["python"; "java"] -> one_test_at_most d)).
  { destruct (String.eqb_spec (PyStr.lower language) "python") as [Hpy|Hpy].
    - destruct (_execute_python_in_sandbox_one_test E sb code tests m w1)
        as (d & w2 & Hrun & Hd). eauto.
    - destruct (String.eqb_spec (PyStr.lower language) "java") as [Hj|Hj].
      + destruct (_execute_java_in_sandbox_one_test E sb code tests m w1)
          as (d & w2 & Hrun & Hd). eauto.
      + assert (Hno : In (PyStr.lower language) ["python"; "java"] -> False)
          by (cbn; intros [H|[H|[]]]; congruence).
        destruct (in_list (PyStr.lower language) ["javascript"; "typescript"]).
        * unfold _execute_javascript_in_sandbox. unfold_monad. cbv beta iota.
          repeat (branch_goal; cbv beta iota);
            eexists; eexists; (split; [reflexivity|]); intros H; destruct (Hno H).
        * eexists; eexists; split; [reflexivity|]. intros H; destruct (Hno H). }
  destruct Hexec as (d & w2 & -> & Hd). cbn [ret].
  destruct (sb_terminate E sb w2) as [[[]|e] w3].
  - eexists; eexists; split; [reflexivity|]. rewrite get_set_same.
    split; [cbn; auto 6|]. split; [cbn; intros [H|[H|[]]]; discriminate H|].
    intros H. apply one_test_labelled, Hd, H.
  - eexists; eexists; split; [reflexivity|].
    split; [cbn; auto 6|]. split; [cbn; intros [H|[H|[]]]; discriminate H|].
    intros _. apply modal_failure_one_test.
Qed.

(** ** The generated equivalence test *)

Lemma startswith_app (sub a b : string) :
  PyStr.startswith sub a = true -> PyStr.startswith sub (a ++ b) = true.
Proof.
  revert a. induction sub as [|c sub IH]; intros a H; [reflexivity|].
  destruct a as [|x a]; [discriminate|]. simpl in *.
  apply andb_prop in H as [-> H]. simpl. apply IH. exact H.
Qed.

Lemma contains_nonempty_unfold (sub : string) (c : ascii) (s : string) :
  PyStr.contains sub (String c s)
  = PyStr.startswith sub (String c s) || PyStr.contains sub s.
Proof. reflexivity. Qed.

Lemma contains_app_l (sub a b : string) :
  PyStr.contains sub a = true -> PyStr.contains sub (a ++ b) = true.
Proof.
  induction a as [|c a IH]; intros H.
  - simpl in H. rewrite orb_false_r in H. destruct sub; [|discriminate].
    destruct b; reflexivity.
  - rewrite contains_nonempty_unfold in H. apply orb_prop in H as [H|H].
    + change (String c a ++ b) with (String c (a ++ b)).
      rewrite contains_nonempty_unfold.
      change (String c (a ++ b)) with (String c a ++ b).
      rewrite (startswith_app _ _ _ H). reflexivity.
    + change (String c a ++ b) with (String c (a ++ b)).
      rewrite contains_nonempty_unfold, (IH H). apply orb_true_r.
Qed.

Lemma contains_app_r (sub a b : string) :
  PyStr.contains sub b = true -> PyStr.contains sub (a ++ b) = true.
Proof.
  intros H. induction a as [|c a IH]; [exact H|].
  change (String c a ++ b) with (String c (a ++ b)).
  rewrite contains_nonempty_unfold, IH. apply orb_true_r.
Qed.

Lemma equivalence_cases_keep (sub : string) (cases : list test_case) :
  forall (i : nat) (acc : string),
    PyStr.contains sub acc = true ->
    PyStr.contains sub (equivalence_cases i cases acc) = true.
Proof.
  induction cases as [|case cases IH]; intros i acc H; [exact H|].
  cbn [equivalence_cases]. apply IH, contains_app_l, H.
Qed.

(** X16. The test file generated for the behavioural comparison
    passes the structural checks of the Python runner exactly when the
    list of test cases is not empty and the file compiles: for an empty
    list it holds no test function and is rejected. *)
Theorem generated_equivalence_test_validity :
  forall (W : Type) (E : Env W) (test_cases : list test_case),
    let tests := _generate_equivalence_test test_cases in
    fst (_validate_python_tests E tests)
    = match test_cases with
      | [] => false
      | _ :: _ => match py_compile E tests with None => true | Some _ => false end
      end.
Proof.
  intros W E cases tests. unfold _validate_python_tests.
  destruct cases as [|case cases].
  - reflexivity.
  - assert (Hdef : PyStr.contains "def test_" tests = true).
    { unfold tests, _generate_equivalence_test. cbn [equivalence_cases].
      apply equivalence_cases_keep, contains_app_r.
      unfold equivalence_case.
      apply contains_app_r, contains_prefix. reflexivity. }
    assert (Himp : PyStr.contains "import" tests = true).
    { unfold tests, _generate_equivalence_test.
      apply equivalence_cases_keep. reflexivity. }
    rewrite Hdef, Himp. cbn [negb andb]. destruct (py_compile E tests); reflexivity.
Qed.

(** ** The detected language *)

(** X17. [_detect_language] always answers one of the four supported
    languages, and when the file path has an extension of the extension
    map (in any letter case) the answer does not depend on the code. *)
Theorem detect_language_supported :
  forall (file_path : option string) (code : string),
    In (_detect_language file_path code) supported_languages
    /\ (forall (path code' : string),
          file_path = Some path ->
          assoc (PyStr.lower (PyStr.suffix path)) extension_map <> None ->
          _detect_language file_path code = _detect_language file_path code').
Proof.
  intros file_path code. split.
  - apply in_list_In, _detect_language_supported.
  - intros path code' -> Hext. unfold _detect_language.
    destruct path as [|c path]; [contradiction Hext; reflexivity|].
    destruct (assoc _ extension_map); [reflexivity | contradiction Hext; reflexivity].
Qed.

Lemma detect_language_supported_witness :
  _detect_language (Some "src/Calc.JAVA") "def f(): import os"
  = _detect_language (Some "src/Calc.JAVA") "".
Proof.
  refine (proj2 (detect_language_supported (Some "src/Calc.JAVA") "def f(): import os")
            "src/Calc.JAVA" "" eq_refl _).
  vm_compute. discriminate.
Defined.
